(** * Ledger and settlement engine of swap_backend (crypto_app)

    A shallow embedding of the balance ledger and of the deposit, withdrawal
    and swap settlement operations of [crypto_app] (models.py, views.py,
    tasks.py, transaction_processor.py, admin.py), together with the
    properties of these operations.

    Conventions of the embedding.
    - Money is computed with Python's [decimal.Decimal] under the default
      context (28 significant digits, ROUND_HALF_EVEN).  [Decimal] below is
      that type restricted to finite numbers; the exponent limits of the
      context (Emax = 999999) are out of reach of the operands of this
      program and are not modelled.
    - The database state is passed explicitly ([world]); every view or task is
      a function from the state before to a response and the state after.  A
      view that raises inside [transaction.atomic] leaves the state unchanged.
    - A Python [float] is carried by the decimal numeral that [str()] prints
      for it, so that [Decimal(str(x))] is the projection [float_str].  The
      two conversions performed by the storage layer are parameters of the
      development: [float_] (rounding a Decimal to binary64) and [to_column]
      (the value a DecimalField column holds after a write).
    - Left out: the exchange-rate lookup and the file uploads of the deposit
      and withdrawal views, the wording of notification texts, logging, cache
      invalidation and e-mail; none of them writes a balance or a status.
      The operations embedded are the ones listed by [op] and, with the
      admin actions, the staff views and the scheduler, by [command].
    - An optional field of a withdrawal request is [None] when the field is
      absent or its value counts as false (empty, zero): the view tests the
      value itself.
    - Every portfolio row has its account number: [UserPortfolio.save] gives
      one to a row that has none.  The views that need randomness, the clock
      of the database or floating-point sums (registration, the approval of
      merchant applications, [trade_cryptocurrency], the price and chart
      tasks) are not embedded. *)

From Stdlib Require Import ZArith QArith Qpower Lia Lqa Bool String List.
From stdpp Require Import gmap strings.

Open Scope Z_scope.

(* ===================================================================== *)
(** ** decimal.Decimal, default context                                   *)
(* ===================================================================== *)

(** Python keeps [_sign], [_int] and [_exp]; the sign is carried here by the
    integer coefficient (a negative zero is not distinguished). *)
Record Decimal := mkDecimal { dec_int : Z; dec_exp : Z }.

(** [decimal.getcontext().prec] *)
Definition prec : Z := 28.

Fixpoint ndigits_fuel (fuel : nat) (n : Z) : Z :=
  match fuel with
  | O => 1
  | S f => if n <? 10 then 1 else 1 + ndigits_fuel f (n / 10)
  end.

(** [len(str(n))] for [0 <= n]. *)
Definition ndigits (n : Z) : Z := ndigits_fuel (Z.to_nat (Z.log2 n)) n.

(** Dropping the last [k] digits of [n] under ROUND_HALF_EVEN. *)
Definition round_half_even (n k : Z) : Z :=
  let q := n / 10 ^ k in
  let r := n mod 10 ^ k in
  let half := 5 * 10 ^ (k - 1) in
  if (half <? r) || ((r =? half) && Z.odd q) then q + 1 else q.

(** [Decimal._fix]: round to the precision of the context. *)
Definition fix_ (d : Decimal) : Decimal :=
  let a := Z.abs (dec_int d) in
  let n := ndigits a in
  if n <=? prec then d
  else
    let k := n - prec in
    let q := round_half_even a k in
    if q =? 10 ^ prec
    then mkDecimal (Z.sgn (dec_int d) * (q / 10)) (dec_exp d + k + 1)
    else mkDecimal (Z.sgn (dec_int d) * q) (dec_exp d + k).

(** [x * y]: the exact product, rounded. *)
Definition dec_mul (x y : Decimal) : Decimal :=
  fix_ (mkDecimal (dec_int x * dec_int y) (dec_exp x + dec_exp y)).

(** [x + y]: the exact sum at the smaller exponent, rounded. *)
Definition dec_add (x y : Decimal) : Decimal :=
  let e := Z.min (dec_exp x) (dec_exp y) in
  fix_ (mkDecimal (dec_int x * 10 ^ (dec_exp x - e)
                   + dec_int y * 10 ^ (dec_exp y - e)) e).

Definition dec_neg (x : Decimal) : Decimal :=
  mkDecimal (- dec_int x) (dec_exp x).

(** [x - y] is [x + (-y)]. *)
Definition dec_sub (x y : Decimal) : Decimal := dec_add x (dec_neg y).

(** The loop of [__truediv__] that brings an exact quotient as close to the
    ideal exponent as its trailing zeros allow. *)
Fixpoint strip_zeros (fuel : nat) (coeff exp ideal : Z) : Z * Z :=
  match fuel with
  | O => (coeff, exp)
  | S f => if (exp <? ideal) && (coeff mod 10 =? 0)
           then strip_zeros f (coeff / 10) (exp + 1) ideal
           else (coeff, exp)
  end.

(** [x / y] ([Decimal.__truediv__]); [None] is the exception raised for a
    zero divisor (DivisionByZero, or InvalidOperation for 0/0). *)
Definition dec_div (x y : Decimal) : option Decimal :=
  if dec_int y =? 0 then None
  else
    let sign := Z.sgn (dec_int x) * Z.sgn (dec_int y) in
    let a := Z.abs (dec_int x) in
    let b := Z.abs (dec_int y) in
    if a =? 0 then Some (fix_ (mkDecimal 0 (dec_exp x - dec_exp y)))
    else
      let shift := ndigits b - ndigits a + prec + 1 in
      let exp := dec_exp x - dec_exp y - shift in
      let num := if 0 <=? shift then a * 10 ^ shift else a in
      let den := if 0 <=? shift then b else b * 10 ^ (- shift) in
      let coeff := num / den in
      let remainder := num mod den in
      let '(coeff, exp) :=
        if remainder =? 0
        then strip_zeros (Z.to_nat shift) coeff exp (dec_exp x - dec_exp y)
        else (if coeff mod 5 =? 0 then coeff + 1 else coeff, exp) in
      Some (fix_ (mkDecimal (sign * coeff) exp)).

(** Numerical comparison. *)
Definition dec_compare (x y : Decimal) : comparison :=
  let e := Z.min (dec_exp x) (dec_exp y) in
  (dec_int x * 10 ^ (dec_exp x - e)) ?= (dec_int y * 10 ^ (dec_exp y - e)).

Definition dec_ltb (x y : Decimal) : bool :=
  match dec_compare x y with Lt => true | _ => false end.

Definition dec_leb (x y : Decimal) : bool :=
  match dec_compare x y with Gt => false | _ => true end.

(** The rational number a Decimal denotes. *)
Definition value (d : Decimal) : Q :=
  (inject_Z (dec_int d) * Qpower (10 # 1) (dec_exp d))%Q.

Definition dec_zero : Decimal := mkDecimal 0 0.

(** Decimal literals of the source. *)
Definition Decimal_0_035 : Decimal := mkDecimal 35 (-3).   (* Decimal('0.035') *)
Definition Decimal_0_05 : Decimal := mkDecimal 5 (-2).     (* Decimal('0.05') *)
Definition Decimal_0_15 : Decimal := mkDecimal 15 (-2).    (* Decimal('0.15') *)
Definition Decimal_100 : Decimal := mkDecimal 100 0.       (* the int 100 *)

(** Rounding margins of the context, used to state error bounds. *)
Definition eps26 : Q := 1 # 100000000000000000000000000.
Definition eps27 : Q := 1 # 1000000000000000000000000000.
Definition eps28 : Q := 1 # 10000000000000000000000000000.

(** The least relative distance between two different prices of at most
    20 digits. *)
Definition delta20 : Q := 1 # 100000000000000000000.

(** [10 ** e] as a rational. *)
Definition P10 (e : Z) : Q := Qpower (10 # 1) e.

(* ===================================================================== *)
(** ** Field types of models.py                                           *)
(* ===================================================================== *)

(** A Python float, carried by the numeral [str()] prints for it:
    [Decimal(str(x))] is [float_str x]. *)
Record pyfloat := PyFloat { float_str : Decimal }.

(** What [str()] prints for a float is the shortest numeral that reads back
    as the same float: it has at most 17 significant digits.  A conversion
    to float with this property: *)
Definition prints_17_digits (f : Decimal -> pyfloat) : Prop :=
  forall d, Z.abs (dec_int (float_str (f d))) < 10 ^ 17.

(* ===================================================================== *)
(** ** Records of models.py                                               *)
(* ===================================================================== *)

(** Status strings of Transaction and SwapRequest. *)
Inductive status :=
| PENDING | APPROVED | REJECTED | IN_PROGRESS | COMPLETED | CANCELLED.

Global Instance status_eq_dec : EqDecision status.
Proof. solve_decision. Defined.

Record UserPortfolio := mkUserPortfolio {
  balance_usd : Decimal;                   (* DecimalField(20, 4) *)
  is_merchant : bool;
  is_frozen : bool;
  account_number : string;
  initial_deposit_amount : option Decimal  (* DecimalField(20, 4), null *)
}.

Record SyntheticAsset := mkSyntheticAsset {
  symbol : string;                         (* unique *)
  price_usd : pyfloat
}.

Record MerchantApplication := mkMerchantApplication {
  ma_user : nat;
  ma_status : status
}.

(** Affiliate rows are keyed by [referred_user] (a OneToOneField). *)
Record Affiliate := mkAffiliate {
  referrer : nat;
  has_funded_wallet : bool
}.

(** The JSON object kept in [Deposit.deposit_notes]. *)
Record deposit_fee_info := mkDepositFeeInfo {
  fee_percentage : pyfloat;
  fee_amount : pyfloat;
  total_amount_with_fee : pyfloat;
  base_amount : pyfloat
}.

Record Deposit := mkDeposit {
  d_user : nat;
  d_amount : pyfloat;                      (* Transaction.amount, FloatField *)
  d_status : status;
  d_method : string;
  d_transaction_id : string;               (* unique *)
  d_merchant : option nat;
  merchant_action_required : bool;
  deposit_notes : option deposit_fee_info
}.

(** The JSON object kept in [Withdrawal.withdrawal_notes]. *)
Record withdrawal_fee_info := mkWithdrawalFeeInfo {
  w_fee_percentage : pyfloat;
  w_fee_amount : pyfloat;
  user_receives : pyfloat;
  total_amount_processed : pyfloat
}.

Record Withdrawal := mkWithdrawal {
  w_user : nat;
  w_amount : pyfloat;                      (* Transaction.amount, FloatField *)
  w_status : status;
  w_method : string;
  w_merchant : option nat;
  user_confirmation_required : bool;
  withdrawal_notes : option withdrawal_fee_info
}.

(** Instants are microseconds since the epoch; the source compares aware
    datetimes, all converted to Africa/Lagos. *)
Record SwapRequest := mkSwapRequest {
  s_user : nat;
  from_asset : nat;
  to_asset : nat;
  swap_back_asset : option nat;            (* null=True *)
  swap_amount : pyfloat;                   (* FloatField *)
  swap_back_amount : pyfloat;              (* FloatField, default 0.0 *)
  original_to_asset_price : Decimal;       (* DecimalField(20, 10) *)
  swap_time : Z;
  completed_at : option Z;
  s_status : status
}.

Inductive trade_type := BUY | SELL.

Record Trade := mkTrade {
  t_user : nat;
  t_asset : nat;
  t_type : trade_type;
  quantity : pyfloat;
  price_at_trade : pyfloat
}.

(** Notification texts.  The interpolated amounts are kept as values, not
    formatted; texts that carry nothing this development reads are [Text]. *)
Inductive message :=
| Text (s : string)
| ReferralBonus (referred : nat) (bonus : Decimal) (first_deposit : pyfloat)
| SwapProfit (from_amount swap_back : Decimal) (profit_loss percentage : Decimal)
| SwapLoss (from_amount swap_back : Decimal) (profit_loss percentage : Decimal).

Record Notification := mkNotification {
  n_user : nat;
  n_message : message
}.

(** The database. *)
Record world := mkWorld {
  portfolios : gmap nat UserPortfolio;     (* by user *)
  deposits : gmap nat Deposit;
  withdrawals : gmap nat Withdrawal;
  swaps : gmap nat SwapRequest;
  affiliates : gmap nat Affiliate;         (* by referred user *)
  assets : gmap nat SyntheticAsset;
  merchant_applications : gmap nat MerchantApplication;
  trades : list Trade;
  notifications : list Notification;
  staff : option nat                       (* User.objects.filter(is_staff=True).first() *)
}.

Definition set_portfolios (f : gmap nat UserPortfolio -> gmap nat UserPortfolio) (st : world) : world :=
  mkWorld (f (portfolios st)) (deposits st) (withdrawals st) (swaps st) (affiliates st)
          (assets st) (merchant_applications st) (trades st) (notifications st) (staff st).

Definition set_deposits (f : gmap nat Deposit -> gmap nat Deposit) (st : world) : world :=
  mkWorld (portfolios st) (f (deposits st)) (withdrawals st) (swaps st) (affiliates st)
          (assets st) (merchant_applications st) (trades st) (notifications st) (staff st).

Definition set_withdrawals (f : gmap nat Withdrawal -> gmap nat Withdrawal) (st : world) : world :=
  mkWorld (portfolios st) (deposits st) (f (withdrawals st)) (swaps st) (affiliates st)
          (assets st) (merchant_applications st) (trades st) (notifications st) (staff st).

Definition set_swaps (f : gmap nat SwapRequest -> gmap nat SwapRequest) (st : world) : world :=
  mkWorld (portfolios st) (deposits st) (withdrawals st) (f (swaps st)) (affiliates st)
          (assets st) (merchant_applications st) (trades st) (notifications st) (staff st).

Definition set_affiliates (f : gmap nat Affiliate -> gmap nat Affiliate) (st : world) : world :=
  mkWorld (portfolios st) (deposits st) (withdrawals st) (swaps st) (f (affiliates st))
          (assets st) (merchant_applications st) (trades st) (notifications st) (staff st).

Definition add_trades (l : list Trade) (st : world) : world :=
  mkWorld (portfolios st) (deposits st) (withdrawals st) (swaps st) (affiliates st)
          (assets st) (merchant_applications st) (trades st ++ l) (notifications st) (staff st).

(** [Notification.objects.create] and [create_and_send_notification]: the row
    is appended; push delivery leaves the ledger untouched. *)
Definition notify (u : nat) (m : message) (st : world) : world :=
  mkWorld (portfolios st) (deposits st) (withdrawals st) (swaps st) (affiliates st)
          (assets st) (merchant_applications st) (trades st)
          (notifications st ++ [mkNotification u m]) (staff st).

(** The next value of an AutoField. *)
Definition fresh_id {A} (m : gmap nat A) : nat :=
  S (map_fold (fun k _ acc => Nat.max k acc) 0%nat m).

(** HTTP responses: a payload, or a status code with the message. *)
Inductive response (A : Type) :=
| Success (a : A)
| Failure (http_status : nat) (msg : string).
Arguments Success {A} a.
Arguments Failure {A} http_status msg.

(** A field of a request body. *)
Inductive field (A : Type) :=
| Missing
| Invalid
| Given (a : A).
Arguments Missing {A}.
Arguments Invalid {A}.
Arguments Given {A} a.

Definition is_given {A} (f : field A) : bool :=
  match f with Missing => false | _ => true end.

(** The balance of a user, if the user has a portfolio. *)
Definition balance_of (u : nat) (st : world) : option Decimal :=
  balance_usd <$> portfolios st !! u.


(* ===================================================================== *)
(** ** Requests and responses                                             *)
(* ===================================================================== *)

(** Body of a deposit request (views.py, deposit_funds). *)
Record deposit_form := mkDepositForm {
  df_amount : field Decimal;             (* data['amount'], through Decimal(str(.)) *)
  df_method : option string;
  df_merchant_id : option nat;
  df_transaction_id : option string
}.

(** What deposit_funds answers on success. *)
Record deposit_quote := mkDepositQuote {
  q_total_amount_with_fee : pyfloat;
  q_base_amount : pyfloat;
  q_fee_amount : pyfloat
}.

Record deposit_created := mkDepositCreated {
  deposit_id : nat;
  quote : option deposit_quote
}.

(** Body of a withdrawal request (views.py, withdraw_funds). *)
Record withdraw_form := mkWithdrawForm {
  wf_amount : option Decimal;            (* form_data.get('amount'), through Decimal(str(.)) *)
  wf_method : option string;
  wf_account_name : option string;
  wf_account_number : option string;
  wf_bank_name : option string;
  wf_merchant_id : option nat;
  wf_email : option string;
  wf_wallet_address : option string;
  wf_chain : option string
}.

Inductive withdraw_ok :=
| WithdrawalCreated (withdrawal_id : nat)
| Transferred.

(** Body of a swap request (views.py, swap_tokens). *)
Record swap_form := mkSwapForm {
  sf_from_asset : field nat;
  sf_to_asset : field nat;
  sf_swap_amount : field Decimal;        (* through Decimal(str(.)) *)
  sf_swap_back_asset : field nat;
  sf_swap_back_time : field Z            (* parsed, converted to Africa/Lagos *)
}.

Record swap_created := mkSwapCreated {
  swap_id : nat;
  created_swap_time : Z
}.

(** The dictionary returned by TransactionProcessor.process_deposit. *)
Inductive processor_result :=
| Processed (new_balance : pyfloat)      (* {"status": "success", ...} *)
| ProcessorError (message : string).     (* {"status": "error", ...} *)

(** The string returned by process_swap, or the exception it raises. *)
Inductive swap_outcome :=
| SwapCompleted                 (* "Swap {id} completed successfully at ..." *)
| SwapNotDue                    (* "Swap {id} not due yet, ..." *)
| SwapNotFound                  (* "Swap not found" *)
| SwapRaised.                   (* raise Exception("Error processing swap: ...") *)

(* ===================================================================== *)
(** ** Example data                                                       *)
(* ===================================================================== *)

(** Storage conversions for the examples, whose amounts have few digits and
    at most four decimal places: [float(d)] prints back as [d] and the column
    keeps [d]. *)
Definition float_short (d : Decimal) : pyfloat := PyFloat d.
Definition column_exact (places : nat) (d : Decimal) : Decimal := d.

(** A conversion to float for the examples that keeps at most 17
    significant digits: an amount of more digits loses its last ones. *)
Definition float_17 (d : Decimal) : pyfloat :=
  let k := ndigits (Z.abs (dec_int d)) - 17 in
  if k <=? 0 then PyFloat d
  else PyFloat (mkDecimal (Z.quot (dec_int d) (10 ^ k)) (dec_exp d + k)).

(** Users: 1 is a customer holding 100, referred by 3; 2 is an approved
    merchant holding 5000.  Assets: 1 is USDT at 1.0, 2 is BTC at 2.2.
    Deposit 1 is merchant-mediated (base 1000, fee 35, through merchant 2),
    deposits 2 and 3 are direct.  Swap 1 sells 100 USDT into BTC bought at
    2.00. *)
Definition demo_customer : UserPortfolio :=
  mkUserPortfolio (mkDecimal 1000000 (-4)) false false "100000000001" None.
Definition demo_merchant : UserPortfolio :=
  mkUserPortfolio (mkDecimal 50000000 (-4)) true false "100000000002" None.
Definition demo_referrer : UserPortfolio :=
  mkUserPortfolio (mkDecimal 0 (-4)) false false "100000000003" None.

Definition demo_portfolios : gmap nat UserPortfolio :=
  <[1%nat := demo_customer]> (<[2%nat := demo_merchant]> (<[3%nat := demo_referrer]> ∅)).

Definition demo_usdt : SyntheticAsset := mkSyntheticAsset "USDT" (PyFloat (mkDecimal 10 (-1))).
Definition demo_btc : SyntheticAsset := mkSyntheticAsset "BTC" (PyFloat (mkDecimal 22 (-1))).

Definition demo_assets : gmap nat SyntheticAsset :=
  <[1%nat := demo_usdt]> (<[2%nat := demo_btc]> ∅).

Definition demo_deposit_1 : Deposit :=
  mkDeposit 1 (PyFloat (mkDecimal 10000 (-1))) PENDING "BANK_TRANSFER" "ref-1"
    (Some 2%nat) true
    (Some (mkDepositFeeInfo (PyFloat (mkDecimal 35 (-1)))
             (PyFloat (mkDecimal 350 (-1)))
             (PyFloat (mkDecimal 10350 (-1)))
             (PyFloat (mkDecimal 10000 (-1))))).
Definition demo_deposit_2 : Deposit :=
  mkDeposit 1 (PyFloat (mkDecimal 1000 (-1))) PENDING "BYBIT" "ref-2" None false None.
Definition demo_deposit_3 : Deposit :=
  mkDeposit 2 (PyFloat (mkDecimal 500 (-1))) PENDING "BYBIT" "ref-3" None false None.

Definition demo_deposits : gmap nat Deposit :=
  <[1%nat := demo_deposit_1]> (<[2%nat := demo_deposit_2]> (<[3%nat := demo_deposit_3]> ∅)).

Definition demo_swap_1 : SwapRequest :=
  mkSwapRequest 1 1 2 (Some 1%nat) (PyFloat (mkDecimal 1000 (-1)))
    (PyFloat (mkDecimal 0 (-1))) (mkDecimal 20000000000 (-10)) 1000 None PENDING.

Definition demo_swaps : gmap nat SwapRequest := <[1%nat := demo_swap_1]> ∅.

Definition demo_world : world :=
  mkWorld demo_portfolios demo_deposits ∅ demo_swaps
          (<[1%nat := mkAffiliate 3 false]> ∅)
          demo_assets
          (<[1%nat := mkMerchantApplication 2 APPROVED]> ∅)
          [] [] None.

(** The same database with the merchant's account frozen. *)
Definition demo_world_frozen_merchant : world :=
  mkWorld
    (<[2%nat := mkUserPortfolio (mkDecimal 50000000 (-4)) true true "100000000002" None]>
       demo_portfolios)
    demo_deposits ∅ demo_swaps
    (<[1%nat := mkAffiliate 3 false]> ∅)
    demo_assets
    (<[1%nat := mkMerchantApplication 2 APPROVED]> ∅)
    [] [] None.

(** A request for an external withdrawal of 40. *)
Definition demo_withdraw_form : withdraw_form :=
  mkWithdrawForm (Some (mkDecimal 40 0)) (Some "BYBIT"%string) None None None None
                 (Some "user@example.com"%string) None None.

(** The same request through merchant 2 (a P2P bank withdrawal). *)
Definition demo_bank_withdraw_form : withdraw_form :=
  mkWithdrawForm (Some (mkDecimal 40 0)) (Some "BANK"%string)
                 (Some "A. User"%string) (Some "0123456789"%string) (Some "Bank"%string)
                 (Some 1%nat) None None None.

(** A swap request of 50 USDT into BTC, due in ten minutes. *)
Definition demo_swap_form : swap_form :=
  mkSwapForm (Given 1%nat) (Given 2%nat) (Given (mkDecimal 50 0)) (Given 1%nat)
             (Given 600000000).

(** A merchant-mediated deposit request of 1000 through merchant
    application 1. *)
Definition demo_deposit_form : deposit_form :=
  mkDepositForm (Given (mkDecimal 1000 0)) (Some "BANK_TRANSFER"%string) (Some 1%nat)
                (Some "ref-9"%string).

(** An amount of twenty significant digits and four decimal places, which
    the balance column can hold, and a direct deposit request of it. *)
Definition demo_long_amount : Decimal := mkDecimal 12345678901234567891 (-4).
Definition demo_long_deposit_form : deposit_form :=
  mkDepositForm (Given demo_long_amount) (Some "BYBIT"%string) None (Some "ref-10"%string).

(** The amounts of Scenario C: 100 units, source and return price 1.0,
    destination bought at 2.00 and worth 2.2 at settlement. *)
Definition scenario_amount : Decimal := mkDecimal 1000 (-1).            (* 100.0 *)
Definition scenario_flat_price : Decimal := mkDecimal 10 (-1).          (* 1.0 *)
Definition scenario_original_price : Decimal := mkDecimal 20000000000 (-10).
Definition scenario_latest_price : Decimal := mkDecimal 22 (-1).        (* 2.2 *)

(* ===================================================================== *)
(** ** Operations                                                         *)
(* ===================================================================== *)

Section Engine.

(** [float(d)], also applied when a Decimal is written to a FloatField. *)
Variable float_ : Decimal -> pyfloat.

(** The value a [DecimalField(max_digits=20, decimal_places=n)] column holds
    after the Decimal [d] is written to it. *)
Variable to_column : nat -> Decimal -> Decimal.

(** [portfolio.balance_usd = b; portfolio.save()] *)
Definition save_balance (p : UserPortfolio) (b : Decimal) : UserPortfolio :=
  mkUserPortfolio (to_column 4 b) (is_merchant p) (is_frozen p)
                  (account_number p) (initial_deposit_amount p).

Definition with_initial_deposit (p : UserPortfolio) (a : Decimal) : UserPortfolio :=
  mkUserPortfolio (balance_usd p) (is_merchant p) (is_frozen p)
                  (account_number p) (Some (to_column 4 a)).

Definition with_is_merchant (p : UserPortfolio) (b : bool) : UserPortfolio :=
  mkUserPortfolio (balance_usd p) b (is_frozen p)
                  (account_number p) (initial_deposit_amount p).

(** [request.user.userportfolio.is_frozen], false without a portfolio. *)
Definition user_is_frozen (u : nat) (st : world) : bool :=
  match portfolios st !! u with
  | Some p => is_frozen p
  | None => false
  end.

(** *** models.py: Deposit.save and the referral bonus *)

(** [Deposit._process_referral_bonus] (models.py 349-406). *)
Definition _process_referral_bonus (self : Deposit) (st : world) : world :=
  match portfolios st !! d_user self with
  | None => st                                   (* UserPortfolio.DoesNotExist *)
  | Some user_portfolio =>
    let st1 :=
      match initial_deposit_amount user_portfolio with
      | None =>
          set_portfolios
            (insert (d_user self)
               (with_initial_deposit user_portfolio (float_str (d_amount self)))) st
      | Some _ => st
      end in
    match affiliates st1 !! d_user self with
    | None => st1                                (* Affiliate.DoesNotExist *)
    | Some affiliate =>
      if has_funded_wallet affiliate then st1
      else
        let st2 :=
          set_affiliates
            (insert (d_user self) (mkAffiliate (referrer affiliate) true)) st1 in
        match portfolios st2 !! referrer affiliate with
        | None => st2                            (* UserPortfolio.DoesNotExist *)
        | Some referrer_portfolio =>
          let bonus_amount := dec_mul (float_str (d_amount self)) Decimal_0_15 in
          let st3 :=
            set_portfolios
              (insert (referrer affiliate)
                 (save_balance referrer_portfolio
                    (dec_add (balance_usd referrer_portfolio) bonus_amount))) st2 in
          notify (referrer affiliate)
                 (ReferralBonus (d_user self) bonus_amount (d_amount self)) st3
        end
    end
  end.

(** [Deposit.save] (models.py 326-347); [pk = None] is a row not yet
    inserted.  Returns the primary key with the new state. *)
Definition Deposit_save (pk : option nat) (self : Deposit) (st : world) : nat * world :=
  let was_approved :=
    match pk with
    | Some id =>
        match deposits st !! id with
        | Some old_deposit =>
            negb (bool_decide (d_status old_deposit = APPROVED))
            && bool_decide (d_status self = APPROVED)
        | None => false                          (* Deposit.DoesNotExist *)
        end
    | None => bool_decide (d_status self = APPROVED)
    end in
  let id := match pk with Some id => id | None => fresh_id (deposits st) end in
  let st1 := set_deposits (insert id self) st in
  (id, if was_approved then _process_referral_bonus self st1 else st1).

Definition with_deposit_status (d : Deposit) (s : status) (mar : bool) : Deposit :=
  mkDeposit (d_user d) (d_amount d) s (d_method d) (d_transaction_id d)
            (d_merchant d) mar (deposit_notes d).

(** *** views.py: deposit_funds (474-635) *)

(** The unique constraint on [Deposit.transaction_id]. *)
Definition transaction_id_taken (t : string) (st : world) : bool :=
  existsb (fun kd => bool_decide (d_transaction_id kd.2 = t))
          (map_to_list (deposits st)).

Definition is_approved_application (a : MerchantApplication) : bool :=
  bool_decide (ma_status a = APPROVED).

Definition deposit_funds (user : nat) (data : deposit_form) (st : world)
  : response deposit_created * world :=
  if user_is_frozen user st
  then (Failure 403 "Account is suspended. Cannot process transactions.", st)
  else
    match df_amount data, df_method data with
    | Missing, _ | _, None => (Failure 400 "Missing required field", st)
    | amount, Some method =>
      let transaction_id := default ""%string (df_transaction_id data) in
      if bool_decide (method = "BANK_TRANSFER"%string) then
        match df_merchant_id data with
        | None => (Failure 400 "Merchant ID is required for bank transfers", st)
        | Some merchant_id =>
          match merchant_applications st !! merchant_id with
          | Some merchant_app =>
            if is_approved_application merchant_app then
              let merchant_user := ma_user merchant_app in
              match portfolios st !! merchant_user with
              | None => (Failure 404 "Merchant profile not found", st)
              | Some merchant_portfolio =>
                if negb (is_merchant merchant_portfolio)
                then (Failure 400 "Selected merchant is not active", st)
                else
                  match amount with
                  | Given base_amount =>
                    (* Calculate amount with 3.5% fee *)
                    let fee_amount := dec_mul base_amount Decimal_0_035 in
                    let total_amount_with_fee := dec_add base_amount fee_amount in
                    if transaction_id_taken transaction_id st
                    then (Failure 500 "An error occurred processing your deposit", st)
                    else
                      let deposit :=
                        mkDeposit user (float_ base_amount) PENDING method
                          transaction_id (Some merchant_user) true
                          (Some (mkDepositFeeInfo (PyFloat (mkDecimal 35 (-1)))
                                   (float_ fee_amount)
                                   (float_ total_amount_with_fee)
                                   (float_ base_amount))) in
                      let '(id, st1) := Deposit_save None deposit st in
                      let st2 := notify merchant_user (Text "Deposit Submitted") st1 in
                      let st3 := notify user (Text "Deposit Submitted") st2 in
                      (Success (mkDepositCreated id
                                  (Some (mkDepositQuote (float_ total_amount_with_fee)
                                           (float_ base_amount) (float_ fee_amount)))),
                       st3)
                  | _ => (Failure 500 "An error occurred processing your deposit", st)
                  end
              end
            else (Failure 404 "Approved merchant not found", st)
          | None => (Failure 404 "Approved merchant not found", st)
          end
        end
      else
        match amount with
        | Given a =>
          if transaction_id_taken transaction_id st
          then (Failure 500 "An error occurred processing your deposit", st)
          else
            let deposit :=
              mkDeposit user (float_ a) PENDING method transaction_id None false None in
            let '(id, st1) := Deposit_save None deposit st in
            (Success (mkDepositCreated id None), st1)
        | _ => (Failure 500 "An error occurred processing your deposit", st)
        end
    end.

(** [fee_info.get('base_amount', deposit.amount)] through [Decimal(str(.))]. *)
Definition deposit_base_amount (deposit : Deposit) : Decimal :=
  match deposit_notes deposit with
  | Some fee_info => float_str (base_amount fee_info)
  | None => float_str (d_amount deposit)
  end.

(** [fee_info.get('fee_amount', 0)] through [Decimal(str(.))]. *)
Definition deposit_fee_amount (deposit : Deposit) : Decimal :=
  match deposit_notes deposit with
  | Some fee_info => float_str (fee_amount fee_info)
  | None => dec_zero
  end.

(** *** views.py: merchant_approve_deposit (1752-1835) *)

Definition merchant_approve_deposit (user deposit_id : nat) (st : world)
  : response unit * world :=
  match deposits st !! deposit_id with
  | Some deposit =>
    if bool_decide (d_merchant deposit = Some user)
       && bool_decide (d_status deposit = PENDING)
       && merchant_action_required deposit
    then
      let base_amount := deposit_base_amount deposit in
      match portfolios st !! user with
      | None => (Failure 404 "Portfolio not found", st)
      | Some merchant_portfolio =>
        if dec_ltb (balance_usd merchant_portfolio) base_amount
        then (Failure 400 "Insufficient balance.", st)
        else
          (* DEDUCT only base amount from merchant's balance *)
          let st1 :=
            set_portfolios
              (insert user
                 (save_balance merchant_portfolio
                    (dec_sub (balance_usd merchant_portfolio) base_amount))) st in
          let '(_, st2) :=
            Deposit_save (Some deposit_id)
                         (with_deposit_status deposit APPROVED false) st1 in
          (* CREDIT user's balance with base amount *)
          match portfolios st2 !! d_user deposit with
          | None => (Failure 404 "Portfolio not found", st)   (* rolled back *)
          | Some user_portfolio =>
            let st3 :=
              set_portfolios
                (insert (d_user deposit)
                   (save_balance user_portfolio
                      (dec_add (balance_usd user_portfolio) base_amount))) st2 in
            let st4 := notify (d_user deposit) (Text "Deposit submitted") st3 in
            let st5 := notify user (Text "Deposit submitted") st4 in
            (Success tt, st5)
          end
      end
    else (Failure 404 "Deposit not found or you don't have permission to approve it", st)
  | None => (Failure 404 "Deposit not found or you don't have permission to approve it", st)
  end.

(** *** views.py: merchant_decline_deposit (1841-1886) *)

Definition merchant_decline_deposit (user deposit_id : nat) (st : world)
  : response unit * world :=
  match deposits st !! deposit_id with
  | Some deposit =>
    if bool_decide (d_merchant deposit = Some user)
       && bool_decide (d_status deposit = PENDING)
       && merchant_action_required deposit
    then
      let '(_, st1) :=
        Deposit_save (Some deposit_id)
                     (with_deposit_status deposit REJECTED false) st in
      let st2 := notify (d_user deposit) (Text "Deposit submitted") st1 in
      let st3 := notify user (Text "Deposit submitted") st2 in
      (Success tt, st3)
    else (Failure 404 "Deposit not found or you don't have permission to decline it.", st)
  | None => (Failure 404 "Deposit not found or you don't have permission to decline it.", st)
  end.

(** *** transaction_processor.py: TransactionProcessor.process_deposit (62-112) *)

(** The function catches its own exceptions, so whatever was written before
    one is committed by [transaction.atomic]. *)
Definition process_deposit (transaction_id : nat) (st : world)
  : processor_result * world :=
  match deposits st !! transaction_id with
  | Some deposit =>
    if bool_decide (d_status deposit = PENDING) then
      let '(_, st1) :=
        Deposit_save (Some transaction_id)
                     (with_deposit_status deposit APPROVED
                        (merchant_action_required deposit)) st in
      match portfolios st1 !! d_user deposit with
      | None => (ProcessorError "UserPortfolio matching query does not exist.", st1)
      | Some portfolio =>
        let new_balance := dec_add (balance_usd portfolio) (float_str (d_amount deposit)) in
        let st2 :=
          set_portfolios
            (insert (d_user deposit) (save_balance portfolio new_balance)) st1 in
        let st3 :=
          if bool_decide (d_method deposit = "BANK_TRANSFER"%string)
             && bool_decide (is_Some (d_merchant deposit))
          then notify (d_user deposit) (Text "Your P2P deposit has been approved") st2
          else st2 in
        (Processed (float_ new_balance), st3)
      end
    else (ProcessorError "Deposit not found or already processed", st)
  | None => (ProcessorError "Deposit not found or already processed", st)
  end.

(** *** views.py: withdraw_funds (641-832) *)

(** [UserPortfolio.objects.get(account_number=...)]; the column is unique. *)
Definition portfolio_by_account_number (a : string) (st : world)
  : option (nat * UserPortfolio) :=
  find (fun kp => bool_decide (account_number kp.2 = a))
       (map_to_list (portfolios st)).

Definition set_balance_field (b : Decimal) (p : UserPortfolio) : UserPortfolio :=
  save_balance p b.

Definition withdraw_funds (user : nat) (form_data : withdraw_form) (st : world)
  : response withdraw_ok * world :=
  if user_is_frozen user st
  then (Failure 403 "Account is suspended. Cannot process transactions.", st)
  else
    match wf_amount form_data, wf_method form_data with
    | Some amount, Some method =>
      if dec_leb amount dec_zero
      then (Failure 400 "Amount must be greater than 0", st)
      else
        match portfolios st !! user with
        | None => (Failure 500 "UserPortfolio matching query does not exist.", st)
        | Some sender_portfolio =>
          if dec_ltb (balance_usd sender_portfolio) amount
          then (Failure 400 "Insufficient balance", st)
          else if bool_decide (method = "BANK"%string) then
            (* Bank Transfer (P2P) *)
            match wf_account_name form_data, wf_account_number form_data,
                  wf_bank_name form_data, wf_merchant_id form_data with
            | Some _, Some _, Some _, Some merchant_id =>
              match merchant_applications st !! merchant_id with
              | Some merchant_application =>
                if is_approved_application merchant_application then
                  let merchant := ma_user merchant_application in
                  match portfolios st !! merchant with
                  | None => (Failure 404 "Merchant portfolio not found", st)
                  | Some merchant_portfolio =>
                    let st1 :=
                      if is_merchant merchant_portfolio then st
                      else set_portfolios
                             (insert merchant (with_is_merchant merchant_portfolio true)) st in
                    let fee_amount := dec_mul amount Decimal_0_05 in
                    let user_receives := dec_sub amount fee_amount in
                    let withdrawal :=
                      mkWithdrawal user (float_ amount) PENDING "BANK" (Some merchant) true
                        (Some (mkWithdrawalFeeInfo (PyFloat (mkDecimal 35 (-1)))
                                 (float_ fee_amount) (float_ user_receives)
                                 (float_ amount))) in
                    let id := fresh_id (withdrawals st1) in
                    let st2 := set_withdrawals (insert id withdrawal) st1 in
                    (* Lock the full amount from user's balance *)
                    let st3 :=
                      set_portfolios
                        (insert user
                           (save_balance sender_portfolio
                              (dec_sub (balance_usd sender_portfolio) amount))) st2 in
                    let st4 := notify merchant (Text "Withdrawal Request") st3 in
                    let st5 := notify user (Text "Withdrawal Submitted") st4 in
                    (Success (WithdrawalCreated id), st5)
                  end
                else (Failure 404 "Selected merchant not found or not approved", st)
              | None => (Failure 404 "Selected merchant not found or not approved", st)
              end
            | _, _, _, _ =>
              (Failure 400 "All bank details and merchant selection are required", st)
            end
          else if bool_decide (method = "INTERNAL"%string) then
            (* Internal Transfer *)
            match wf_account_number form_data with
            | None => (Failure 400 "Recipient account number required", st)
            | Some recipient_account_number =>
              match portfolio_by_account_number recipient_account_number st with
              | None => (Failure 404 "Recipient account number not found", st)
              | Some (recipient, recipient_portfolio) =>
                if bool_decide (recipient = user)
                then (Failure 400 "Cannot transfer to your own account", st)
                else
                  let st1 :=
                    set_portfolios
                      (alter (set_balance_field
                                (dec_sub (balance_usd sender_portfolio) amount)) user) st in
                  let st2 :=
                    set_portfolios
                      (alter (set_balance_field
                                (dec_add (balance_usd recipient_portfolio) amount))
                             recipient) st1 in
                  let withdrawal :=
                    mkWithdrawal user (float_ amount) COMPLETED "INTERNAL" None false None in
                  let st3 :=
                    set_withdrawals (insert (fresh_id (withdrawals st2)) withdrawal) st2 in
                  (Success Transferred, st3)
              end
            end
          else
            (* External Withdrawal *)
            if bool_decide (method = "BYBIT"%string)
               && negb (bool_decide (is_Some (wf_email form_data)))
            then (Failure 400 "Email required", st)
            else if bool_decide (method = "ON_CHAIN"%string)
                    && negb (bool_decide (is_Some (wf_wallet_address form_data))
                             && bool_decide (is_Some (wf_chain form_data)))
            then (Failure 400 "Wallet address and chain required", st)
            else
              let withdrawal :=
                mkWithdrawal user (float_ amount) PENDING method None false None in
              let id := fresh_id (withdrawals st) in
              let st1 := set_withdrawals (insert id withdrawal) st in
              (* Lock the funds *)
              let st2 :=
                set_portfolios
                  (alter (set_balance_field
                            (dec_sub (balance_usd sender_portfolio) amount)) user) st1 in
              let st3 :=
                match staff st2 with
                | Some admin_user => notify admin_user (Text "Withdrawal submitted") st2
                | None => st2
                end in
              (Success (WithdrawalCreated id), st3)
        end
    | _, _ => (Failure 400 "Missing required fields", st)
    end.

Definition with_withdrawal_status (w : Withdrawal) (s : status) (ucr : bool) : Withdrawal :=
  mkWithdrawal (w_user w) (w_amount w) s (w_method w) (w_merchant w) ucr
               (withdrawal_notes w).

(** *** views.py: user_decline_withdrawal (1956-2010) *)

Definition user_decline_withdrawal (user withdrawal_id : nat) (st : world)
  : response unit * world :=
  match withdrawals st !! withdrawal_id with
  | Some withdrawal =>
    if bool_decide (w_user withdrawal = user)
       && bool_decide (w_status withdrawal = PENDING)
       && user_confirmation_required withdrawal
    then
      match portfolios st !! user with
      | None => (Failure 500 "An error occurred while declining withdrawal", st)
      | Some user_portfolio =>
        (* Refund user's balance *)
        let st1 :=
          set_portfolios
            (insert user
               (save_balance user_portfolio
                  (dec_add (balance_usd user_portfolio)
                           (float_str (w_amount withdrawal))))) st in
        let st2 :=
          set_withdrawals
            (insert withdrawal_id (with_withdrawal_status withdrawal REJECTED false)) st1 in
        let st3 :=
          match w_merchant withdrawal with
          | Some merchant => notify merchant (Text "Withdrawal submitted") st2
          | None => st2
          end in
        let st4 := notify user (Text "Withdrawal submitted") st3 in
        (Success tt, st4)
      end
    else (Failure 404 "Withdrawal not found or already processed", st)
  | None => (Failure 404 "Withdrawal not found or already processed", st)
  end.

(** *** views.py: reject_withdrawal (161-176), the staff view *)

(** What a request is answered when a view that is not an [@api_view]
    returns a [rest_framework] [Response]: the response has no renderer, its
    rendering raises after the view has returned, and the request is answered
    500.  The transaction of the view is committed by then. *)
Definition unrendered_response {A} : response A :=
  Failure 500 ".accepted_renderer not set on Response".

(** The view saves the status and returns a [Response] on every path. *)
Definition reject_withdrawal (withdrawal_id : nat) (st : world)
  : response unit * world :=
  match withdrawals st !! withdrawal_id with
  | Some withdrawal =>
    if bool_decide (w_status withdrawal = PENDING) then
      (unrendered_response,
       set_withdrawals
         (insert withdrawal_id
            (with_withdrawal_status withdrawal REJECTED
               (user_confirmation_required withdrawal))) st)
    else (unrendered_response, st)   (* Withdrawal.DoesNotExist *)
  | None => (unrendered_response, st)
  end.

(** *** admin.py: WithdrawalAdmin.reject_withdrawals (409-442) *)

(** The body of the loop, for one withdrawal of the queryset. *)
Definition reject_withdrawals_one (withdrawal_id : nat) (st : world) : world :=
  match withdrawals st !! withdrawal_id with
  | Some withdrawal =>
    if bool_decide (w_status withdrawal = PENDING) then
      match portfolios st !! w_user withdrawal with
      | None => st                       (* logged, continue *)
      | Some portfolio =>
        (* Refund locked amount to user's balance *)
        let st1 :=
          set_portfolios
            (insert (w_user withdrawal)
               (save_balance portfolio
                  (dec_add (balance_usd portfolio)
                           (float_str (w_amount withdrawal))))) st in
        let st2 :=
          set_withdrawals
            (insert withdrawal_id (with_withdrawal_status withdrawal REJECTED false)) st1 in
        notify (w_user withdrawal) (Text "Your withdrawal has been rejected.") st2
      end
    else st
  | None => st
  end.

(** The action on a selection of distinct withdrawals. *)
Definition reject_withdrawals (queryset : list nat) (st : world) : world :=
  fold_left (fun s id => reject_withdrawals_one id s) queryset st.

(** *** views.py: swap_tokens (1073-1232) *)

(** [SyntheticAsset.objects.get(symbol=s)]; the column is unique. *)
Definition asset_by_symbol (s : string) (st : world) : option (nat * SyntheticAsset) :=
  find (fun ka => bool_decide (symbol ka.2 = s)) (map_to_list (assets st)).

Definition minutes (n : Z) : Z := n * 60 * 1000000.

Definition swap_tokens (user : nat) (data : swap_form) (current_time : Z) (st : world)
  : response swap_created * world :=
  if user_is_frozen user st
  then (Failure 403 "Account is suspended. Cannot process transactions.", st)
  else if negb (is_given (sf_from_asset data) && is_given (sf_to_asset data)
                && is_given (sf_swap_amount data) && is_given (sf_swap_back_asset data)
                && is_given (sf_swap_back_time data))
  then (Failure 400 "Missing required fields.", st)
  else
    match asset_by_symbol "USDT" st with
    | None => (Failure 400 "USDT asset not found in the system.", st)
    | Some _ =>
      match sf_from_asset data with
      | Given from_id =>
        match assets st !! from_id with
        | None => (Failure 500 "No SyntheticAsset matches the given query.", st)
        | Some from_asset_row =>
          if negb (bool_decide (symbol from_asset_row = "USDT"%string))
          then (Failure 400 "Swap from asset must be USDT.", st)
          else
            match sf_to_asset data with
            | Given to_id =>
              match assets st !! to_id with
              | None => (Failure 500 "No SyntheticAsset matches the given query.", st)
              | Some to_asset_row =>
                match sf_swap_back_asset data with
                | Given back_id =>
                  match assets st !! back_id with
                  | None => (Failure 500 "No SyntheticAsset matches the given query.", st)
                  | Some back_asset_row =>
                    if negb (bool_decide (symbol back_asset_row = "USDT"%string))
                    then (Failure 400 "Swap back asset must be USDT.", st)
                    else
                      match sf_swap_amount data with
                      | Given swap_amount =>
                        if bool_decide (from_id = to_id)
                        then (Failure 400 "Cannot swap the same asset.", st)
                        else if dec_leb swap_amount dec_zero
                        then (Failure 400 "Swap amount must be greater than 0.", st)
                        else
                          match portfolios st !! user with
                          | None => (Failure 404 "User portfolio not found.", st)
                          | Some portfolio =>
                            if dec_ltb (balance_usd portfolio) swap_amount
                            then (Failure 400 "Insufficient balance.", st)
                            else
                              match sf_swap_back_time data with
                              | Given swap_time =>
                                if swap_time <=? current_time
                                then (Failure 400 "Swap time must be in the future.", st)
                                else if swap_time - current_time <? minutes 5
                                then (Failure 400 "Swap duration must be at least 5 minutes.", st)
                                else if minutes 43200 <? swap_time - current_time
                                then (Failure 400 "Swap duration cannot exceed 30 days.", st)
                                else
                                  (* Get current price of to_asset *)
                                  let to_asset_price := float_str (price_usd to_asset_row) in
                                  let swap_request :=
                                    mkSwapRequest user from_id to_id (Some back_id)
                                      (float_ swap_amount) (PyFloat (mkDecimal 0 (-1)))
                                      (to_column 10 to_asset_price)
                                      swap_time None PENDING in
                                  let id := fresh_id (swaps st) in
                                  let st1 := set_swaps (insert id swap_request) st in
                                  (* Lock the amount *)
                                  let st2 :=
                                    set_portfolios
                                      (alter (set_balance_field
                                                (dec_sub (balance_usd portfolio) swap_amount))
                                             user) st1 in
                                  let st3 := notify user (Text "Swap submitted") st2 in
                                  let st4 :=
                                    match staff st3 with
                                    | Some admin_user =>
                                        notify admin_user (Text "Swap submitted") st3
                                    | None => st3
                                    end in
                                  (Success (mkSwapCreated id swap_time), st4)
                              | _ => (Failure 400 "Invalid swap time format.", st)
                              end
                          end
                      | _ => (Failure 400 "Invalid swap amount.", st)
                      end
                  end
                | _ => (Failure 400 "Invalid asset ID format.", st)
                end
              end
            | _ => (Failure 400 "Invalid asset ID format.", st)
            end
        end
      | _ => (Failure 400 "Invalid asset ID format.", st)
      end
    end.

(** *** tasks.py: process_swap (31-135) *)

Definition swap_is_open (s : status) : bool :=
  bool_decide (s = PENDING) || bool_decide (s = APPROVED) || bool_decide (s = IN_PROGRESS).

(** [to_amount = from_amount * from_price / original_to_price] *)
Definition swap_to_amount (from_amount from_price original_to_price : Decimal)
  : option Decimal :=
  dec_div (dec_mul from_amount from_price) original_to_price.

(** [swap_back_amount = to_amount * latest_to_price / back_price] *)
Definition swap_back_of (to_amount latest_to_price back_price : Decimal)
  : option Decimal :=
  dec_div (dec_mul to_amount latest_to_price) back_price.

(** [(profit_loss / from_amount) * 100 if from_amount > 0 else 0] *)
Definition profit_loss_percentage_of (profit_loss from_amount : Decimal) : option Decimal :=
  if dec_ltb dec_zero from_amount
  then match dec_div profit_loss from_amount with
       | Some r => Some (dec_mul r Decimal_100)
       | None => None
       end
  else Some dec_zero.

(** The text of the completion notification: "Profit: +..." when
    [profit_loss > 0], "Loss: ..." otherwise. *)
Definition swap_message (from_amount swap_back pct : Decimal) : message :=
  let profit_loss := dec_sub swap_back from_amount in
  if dec_ltb dec_zero profit_loss
  then SwapProfit from_amount swap_back profit_loss pct
  else SwapLoss from_amount swap_back profit_loss pct.

Definition swap_trades (user from_id to_id back_id : nat)
    (from_amount from_price to_amount original_to_price latest_to_price
     swap_back back_price : Decimal) : list Trade :=
  [ mkTrade user from_id SELL (float_ from_amount) (float_ from_price);
    mkTrade user to_id BUY (float_ to_amount) (float_ original_to_price);
    mkTrade user to_id SELL (float_ to_amount) (float_ latest_to_price);
    mkTrade user back_id BUY (float_ swap_back) (float_ back_price) ].

(** [save(update_fields=['status'])] *)
Definition with_swap_status (x : status) (s : SwapRequest) : SwapRequest :=
  mkSwapRequest (s_user s) (from_asset s) (to_asset s) (swap_back_asset s)
                (swap_amount s) (swap_back_amount s) (original_to_asset_price s)
                (swap_time s) (completed_at s) x.

(** [save(update_fields=['swap_back_amount', 'status', 'completed_at'])] *)
Definition completed_swap (swap_back : Decimal) (now : Z) (s : SwapRequest) : SwapRequest :=
  mkSwapRequest (s_user s) (from_asset s) (to_asset s) (swap_back_asset s)
                (swap_amount s) (float_ swap_back) (original_to_asset_price s)
                (swap_time s) (Some now) COMPLETED.

(** Every exception of the body is re-raised, so [transaction.atomic] rolls
    the state back: [SwapRaised] comes with the state before. *)
Definition process_swap (swap_id : nat) (force_process : bool) (current_time : Z)
    (st : world) : swap_outcome * world :=
  match swaps st !! swap_id with
  | Some swap_request =>
    if swap_is_open (s_status swap_request) then
      (* Only check time if not admin-forced *)
      if negb force_process && (current_time <? swap_time swap_request)
      then (SwapNotDue, st)
      else
        let st0 := set_swaps (alter (with_swap_status IN_PROGRESS) swap_id) st in
        (* Get latest asset prices *)
        match assets st0 !! from_asset swap_request,
              swap_back_asset swap_request with
        | Some from_row, Some back_id =>
          match assets st0 !! back_id, assets st0 !! to_asset swap_request with
          | Some back_row, Some to_row =>
            let from_amount := float_str (swap_amount swap_request) in
            let from_price := float_str (price_usd from_row) in
            let back_price := float_str (price_usd back_row) in
            let original_to_price := original_to_asset_price swap_request in
            let latest_to_price := float_str (price_usd to_row) in
            match swap_to_amount from_amount from_price original_to_price with
            | Some to_amount =>
              match swap_back_of to_amount latest_to_price back_price with
              | Some swap_back =>
                let st1 :=
                  set_swaps (alter (completed_swap swap_back current_time) swap_id) st0 in
                match portfolios st1 !! s_user swap_request with
                | Some portfolio =>
                  let st2 :=
                    set_portfolios
                      (alter (set_balance_field
                                (dec_add (balance_usd portfolio) swap_back))
                             (s_user swap_request)) st1 in
                  let st3 :=
                    add_trades
                      (swap_trades (s_user swap_request) (from_asset swap_request)
                         (to_asset swap_request) back_id
                         from_amount from_price to_amount original_to_price
                         latest_to_price swap_back back_price) st2 in
                  let profit_loss := dec_sub swap_back from_amount in
                  match profit_loss_percentage_of profit_loss from_amount with
                  | Some pct =>
                    let st4 :=
                      notify (s_user swap_request)
                             (swap_message from_amount swap_back pct) st3 in
                    let st5 :=
                      notify (s_user swap_request)
                        (Text "Your portfolio balance has been updated after the swap.")
                        st4 in
                    (SwapCompleted, st5)
                  | None => (SwapRaised, st)
                  end
                | None => (SwapRaised, st)
                end
              | None => (SwapRaised, st)
              end
            | None => (SwapRaised, st)
            end
          | _, _ => (SwapRaised, st)
          end
        | _, _ => (SwapRaised, st)
        end
    else (SwapNotFound, st)
  | None => (SwapNotFound, st)
  end.

(** *** The operations as commands, for runs of the engine *)

Inductive op :=
| OpDepositFunds (user : nat) (data : deposit_form)
| OpMerchantApproveDeposit (user deposit_id : nat)
| OpMerchantDeclineDeposit (user deposit_id : nat)
| OpProcessDeposit (transaction_id : nat)
| OpWithdrawFunds (user : nat) (form_data : withdraw_form)
| OpUserDeclineWithdrawal (user withdrawal_id : nat)
| OpRejectWithdrawal (withdrawal_id : nat)
| OpRejectWithdrawals (queryset : list nat)
| OpSwapTokens (user : nat) (data : swap_form) (current_time : Z)
| OpProcessSwap (swap_id : nat) (force_process : bool) (current_time : Z).

Definition step (o : op) (st : world) : world :=
  match o with
  | OpDepositFunds u d => (deposit_funds u d st).2
  | OpMerchantApproveDeposit u i => (merchant_approve_deposit u i st).2
  | OpMerchantDeclineDeposit u i => (merchant_decline_deposit u i st).2
  | OpProcessDeposit i => (process_deposit i st).2
  | OpWithdrawFunds u f => (withdraw_funds u f st).2
  | OpUserDeclineWithdrawal u i => (user_decline_withdrawal u i st).2
  | OpRejectWithdrawal i => (reject_withdrawal i st).2
  | OpRejectWithdrawals q => reject_withdrawals q st
  | OpSwapTokens u d t => (swap_tokens u d t st).2
  | OpProcessSwap i f t => (process_swap i f t st).2
  end.

Definition run (ops : list op) (st : world) : world :=
  fold_left (fun s o => step o s) ops st.

(** Number of referral-bonus notifications issued for a referred user. *)
Definition is_bonus_for (u : nat) (n : Notification) : bool :=
  match n_message n with
  | ReferralBonus referred _ _ => bool_decide (referred = u)
  | _ => false
  end.

Definition bonus_count (u : nat) (st : world) : nat :=
  length (List.filter (is_bonus_for u) (notifications st)).

Definition funded (u : nat) (st : world) : bool :=
  match affiliates st !! u with
  | Some a => has_funded_wallet a
  | None => false
  end.

Definition funded_bit (u : nat) (st : world) : nat :=
  if funded u st then 1%nat else 0%nat.

(** A transition that never clears a funded flag and that issues at most as
    many bonuses for a user as it sets the user's flag. *)
Definition bonus_step (st st' : world) : Prop :=
  forall u,
    (funded u st = true -> funded u st' = true) /\
    (bonus_count u st' + funded_bit u st <= bonus_count u st + funded_bit u st')%nat.

(** No two asset rows share a symbol ([unique=True]). *)
Definition unique_symbols (st : world) : Prop :=
  forall i j x y,
    assets st !! i = Some x -> assets st !! j = Some y ->
    symbol x = symbol y -> i = j.

(** There is nothing to pay for a deposit of [u]: no referral edge, or an
    edge already funded. *)
Definition no_bonus_due (u : nat) (st : world) : Prop :=
  affiliates st !! u = None \/ funded u st = true.

(** *** The ledger of balance mutations *)

















(** Two databases with the same balances. *)
Definition same_balances (st st' : world) : Prop :=
  forall u, balance_of u st = balance_of u st'.

(* ===================================================================== *)
(** ** Further operations: completion, rejection and cancellation paths   *)
(* ===================================================================== *)

Definition set_assets (f : gmap nat SyntheticAsset -> gmap nat SyntheticAsset) (st : world) : world :=
  mkWorld (portfolios st) (deposits st) (withdrawals st) (swaps st) (affiliates st)
          (f (assets st)) (merchant_applications st) (trades st) (notifications st) (staff st).

Definition with_is_frozen (p : UserPortfolio) (b : bool) : UserPortfolio :=
  mkUserPortfolio (balance_usd p) (is_merchant p) b
                  (account_number p) (initial_deposit_amount p).

(** *** views.py: user_confirm_withdrawal (1892-1950) *)

(** [fee_info.get('total_amount_processed', withdrawal.amount)] through
    [Decimal(str(.))]. *)
Definition withdrawal_total_amount (withdrawal : Withdrawal) : Decimal :=
  match withdrawal_notes withdrawal with
  | Some fee_info => float_str (total_amount_processed fee_info)
  | None => float_str (w_amount withdrawal)
  end.

(** A missing merchant or merchant portfolio raises inside the atomic block:
    the answer is 500 and nothing is written. *)
Definition user_confirm_withdrawal (user withdrawal_id : nat) (st : world)
  : response unit * world :=
  match withdrawals st !! withdrawal_id with
  | Some withdrawal =>
    if bool_decide (w_user withdrawal = user)
       && bool_decide (w_status withdrawal = PENDING)
       && user_confirmation_required withdrawal
    then
      let total_amount := withdrawal_total_amount withdrawal in
      match w_merchant withdrawal with
      | Some merchant =>
        match portfolios st !! merchant with
        | Some merchant_portfolio =>
          (* Credit merchant's balance with full amount (including fee) *)
          let st1 :=
            set_portfolios
              (insert merchant
                 (save_balance merchant_portfolio
                    (dec_add (balance_usd merchant_portfolio) total_amount))) st in
          let st2 :=
            set_withdrawals
              (insert withdrawal_id (with_withdrawal_status withdrawal COMPLETED false)) st1 in
          let st3 := notify merchant (Text "Withdrawal Confirmed") st2 in
          let st4 := notify user (Text "Withdrawal Confirmed") st3 in
          (Success tt, st4)
        | None => (Failure 500 "An error occurred while confirming withdrawal", st)
        end
      | None => (Failure 500 "An error occurred while confirming withdrawal", st)
      end
    else (Failure 404 "Withdrawal not found or already confirmed", st)
  | None => (Failure 404 "Withdrawal not found or already confirmed", st)
  end.

(** *** transaction_processor.py: TransactionProcessor.process_withdrawal (14-48) *)

(** The dictionary returned by process_withdrawal. *)
Inductive withdrawal_result :=
| WithdrawalApproved                     (* {"status": "success", ...} *)
| WithdrawalError (message : string).    (* {"status": "error", ...} *)

Definition process_withdrawal (transaction_id : nat) (st : world)
  : withdrawal_result * world :=
  match withdrawals st !! transaction_id with
  | Some withdrawal =>
    if bool_decide (w_status withdrawal = PENDING) then
      (WithdrawalApproved,
       set_withdrawals
         (insert transaction_id
            (with_withdrawal_status withdrawal APPROVED
               (user_confirmation_required withdrawal))) st)
    else (WithdrawalError "Withdrawal not found or already processed", st)
  | None => (WithdrawalError "Withdrawal not found or already processed", st)
  end.

(** *** admin.py: WithdrawalAdmin.approve_withdrawals (345-407) *)

(** The body of the loop, for one withdrawal of the selection.  An exception
    (the merchant has no portfolio) is caught by the loop: the withdrawal is
    counted as failed and left as it was. *)
Definition approve_withdrawals_one (withdrawal_id : nat) (st : world) : world :=
  match withdrawals st !! withdrawal_id with
  | Some withdrawal =>
    if bool_decide (w_status withdrawal = PENDING) then
      let credited : option world :=
        match w_merchant withdrawal with
        | Some merchant =>
          if bool_decide (w_method withdrawal = "BANK"%string) then
            match portfolios st !! merchant with
            | Some merchant_portfolio =>
              let total_amount := withdrawal_total_amount withdrawal in
              Some (notify merchant (Text "Withdrawal approved.")
                      (set_portfolios
                         (insert merchant
                            (save_balance merchant_portfolio
                               (dec_add (balance_usd merchant_portfolio) total_amount)))
                         st))
            | None => None
            end
          else Some st
        | None => Some st
        end in
      match credited with
      | Some st1 =>
        notify (w_user withdrawal) (Text "Your withdrawal has been approved.")
          (set_withdrawals
             (insert withdrawal_id (with_withdrawal_status withdrawal COMPLETED false))
             st1)
      | None => st
      end
    else st
  | None => st
  end.

(** The action on a selection of distinct withdrawals. *)
Definition approve_withdrawals (queryset : list nat) (st : world) : world :=
  fold_left (fun s id => approve_withdrawals_one id s) queryset st.

(** *** admin.py: WithdrawalAdmin.force_complete_withdrawals (444-486) *)

Definition force_complete_withdrawals_one (withdrawal_id : nat) (st : world) : world :=
  match withdrawals st !! withdrawal_id with
  | Some withdrawal =>
    if bool_decide (w_status withdrawal = PENDING) && user_confirmation_required withdrawal
    then
      let credited : option world :=
        match w_merchant withdrawal with
        | Some merchant =>
          if bool_decide (w_method withdrawal = "BANK"%string) then
            match portfolios st !! merchant with
            | Some merchant_portfolio =>
              Some (notify merchant (Text "Admin force-completed withdrawal.")
                      (set_portfolios
                         (insert merchant
                            (save_balance merchant_portfolio
                               (dec_add (balance_usd merchant_portfolio)
                                        (float_str (w_amount withdrawal)))))
                         st))
            | None => None
            end
          else Some st
        | None => Some st
        end in
      match credited with
      | Some st1 =>
        notify (w_user withdrawal) (Text "Withdrawal has been approved.")
          (set_withdrawals
             (insert withdrawal_id (with_withdrawal_status withdrawal COMPLETED false))
             st1)
      | None => st
      end
    else st
  | None => st
  end.

Definition force_complete_withdrawals (queryset : list nat) (st : world) : world :=
  fold_left (fun s id => force_complete_withdrawals_one id s) queryset st.

(** *** admin.py: DepositAdmin.approve_deposits (593-664) *)

(** The body of the loop.  With a merchant short of the base amount the
    deposit is skipped; an exception before the debit leaves it as it was.
    What process_deposit wrote before it reports an error stays written: the
    loop catches the exception it raises from that answer. *)
Definition approve_deposits_one (deposit_id : nat) (st : world) : world :=
  match deposits st !! deposit_id with
  | Some deposit =>
    if bool_decide (d_status deposit = PENDING) then
      let base_amount := deposit_base_amount deposit in
      let debited : option world :=
        match d_merchant deposit with
        | Some merchant =>
          if bool_decide (d_method deposit = "BANK_TRANSFER"%string) then
            match portfolios st !! merchant with
            | Some merchant_portfolio =>
              (* Check merchant balance for base amount only *)
              if dec_ltb (balance_usd merchant_portfolio) base_amount then None
              else
                Some (notify merchant (Text "Admin approved deposit.")
                        (set_portfolios
                           (insert merchant
                              (save_balance merchant_portfolio
                                 (dec_sub (balance_usd merchant_portfolio) base_amount)))
                           st))
            | None => None
            end
          else Some st
        | None => Some st
        end in
      match debited with
      | Some st1 => (process_deposit deposit_id st1).2
      | None => st
      end
    else st
  | None => st
  end.

Definition approve_deposits (queryset : list nat) (st : world) : world :=
  fold_left (fun s id => approve_deposits_one id s) queryset st.

(** *** admin.py: DepositAdmin.reject_deposits (666-671) *)

(** [deposits.update(status='REJECTED')]: a bulk update, which does not go
    through [Deposit.save]. *)
Definition reject_deposits_one (deposit_id : nat) (st : world) : world :=
  match deposits st !! deposit_id with
  | Some deposit =>
    if bool_decide (d_status deposit = PENDING) then
      set_deposits
        (insert deposit_id
           (with_deposit_status deposit REJECTED (merchant_action_required deposit))) st
    else st
  | None => st
  end.

Definition reject_deposits (queryset : list nat) (st : world) : world :=
  fold_left (fun s id => reject_deposits_one id s) queryset st.

(** *** views.py: reject_deposit (140-159), the staff view *)

(** As [reject_withdrawal], the view returns a [Response] on every path:
    the request is answered 500 after the transaction is committed. *)
Definition reject_deposit (deposit_id : nat) (st : world) : response unit * world :=
  match deposits st !! deposit_id with
  | Some deposit =>
    if bool_decide (d_status deposit = PENDING) then
      let '(_, st1) :=
        Deposit_save (Some deposit_id)
                     (with_deposit_status deposit REJECTED
                        (merchant_action_required deposit)) st in
      (unrendered_response, st1)
    else (unrendered_response, st)   (* Deposit.DoesNotExist *)
  | None => (unrendered_response, st)
  end.

(** *** admin.py: SwapRequestAdmin.complete_swap (680-741) *)

(** The body of the loop; [current_time] is the clock process_swap reads.
    A swap with a leg that is not USDT is skipped; an exception (no swap-back
    asset, or one raised by process_swap, whose own transaction is rolled
    back) is caught by the loop. *)
Definition complete_swap_one (current_time : Z) (swap_id : nat) (st : world) : world :=
  match swaps st !! swap_id with
  | Some swap =>
    if bool_decide (s_status swap = PENDING) then
      match assets st !! from_asset swap with
      | Some from_row =>
        if negb (bool_decide (symbol from_row = "USDT"%string)) then st
        else
          match swap_back_asset swap with
          | Some back_id =>
            match assets st !! back_id with
            | Some back_row =>
              if negb (bool_decide (symbol back_row = "USDT"%string)) then st
              else
                (* Force process immediately (admin override) *)
                match process_swap swap_id true current_time st with
                | (SwapRaised, _) => st
                | (_, st1) =>
                    notify (s_user swap) (Text "Your swap has been processed.") st1
                end
            | None => st
            end
          | None => st
          end
      | None => st
      end
    else st
  | None => st
  end.

(** The action on a selection of distinct swaps; [now id] is the clock read
    while swap [id] is processed. *)
Definition complete_swap (now : nat -> Z) (queryset : list nat) (st : world) : world :=
  fold_left (fun s id => complete_swap_one (now id) id s) queryset st.

(** *** admin.py: SwapRequestAdmin.cancel_swap (743-778) *)

Definition cancel_swap_one (swap_id : nat) (st : world) : world :=
  match swaps st !! swap_id with
  | Some swap =>
    if bool_decide (s_status swap = PENDING) then
      match portfolios st !! s_user swap with
      | Some portfolio =>
        (* Refund user *)
        let st1 :=
          set_portfolios
            (insert (s_user swap)
               (save_balance portfolio
                  (dec_add (balance_usd portfolio) (float_str (swap_amount swap))))) st in
        let st2 := set_swaps (insert swap_id (with_swap_status CANCELLED swap)) st1 in
        notify (s_user swap) (Text "Swap cancelled.") st2
      | None => st                       (* logged, continue *)
      end
    else st
  | None => st
  end.

Definition cancel_swap (queryset : list nat) (st : world) : world :=
  fold_left (fun s id => cancel_swap_one id s) queryset st.

(** *** views.py: cancel_swap_admin (114-137), the staff view *)

(** The status is saved before the refund; when the refund raises (the user
    has no portfolio) the exception is caught inside the atomic view, so the
    cancellation is committed without it.  Both ways the view redirects. *)
Definition cancel_swap_admin (swap_id : nat) (st : world) : response unit * world :=
  match swaps st !! swap_id with
  | Some swap_request =>
    if bool_decide (s_status swap_request = PENDING) then
      let st1 := set_swaps (alter (with_swap_status CANCELLED) swap_id) st in
      match portfolios st1 !! s_user swap_request with
      | Some portfolio =>
        (* Refund the locked amount to the user's balance *)
        (Success tt,
         set_portfolios
           (alter (set_balance_field
                     (dec_add (balance_usd portfolio)
                              (float_str (swap_amount swap_request))))
                  (s_user swap_request)) st1)
      | None => (Success tt, st1)
      end
    else (Failure 404 "No SwapRequest matches the given query.", st)
  | None => (Failure 404 "No SwapRequest matches the given query.", st)
  end.

(** *** views.py: complete_swap_admin (76-111), the staff view *)

(** The view marks the swap APPROVED and leaves the settlement to the
    scheduler: [process_swap] of tasks.py is a plain function, so for a swap
    that is due [process_swap.delay] raises, and the exception is caught after
    the status is saved.  With a leg that is not USDT the view redirects; on
    every other path it ends without a response, which the framework answers
    with 500 after the transaction is committed. *)
Definition complete_swap_admin (swap_id : nat) (st : world) : response unit * world :=
  match swaps st !! swap_id with
  | Some swap_request =>
    if bool_decide (s_status swap_request = PENDING) then
      match assets st !! from_asset swap_request with
      | Some from_row =>
        if negb (bool_decide (symbol from_row = "USDT"%string)) then (Success tt, st)
        else
          match swap_back_asset swap_request with
          | Some back_id =>
            match assets st !! back_id with
            | Some back_row =>
              if negb (bool_decide (symbol back_row = "USDT"%string)) then (Success tt, st)
              else
                (Failure 500 "The view didn't return an HttpResponse object.",
                 set_swaps (alter (with_swap_status APPROVED) swap_id) st)
            | None => (Failure 500 "The view didn't return an HttpResponse object.", st)
            end
          | None => (Failure 500 "The view didn't return an HttpResponse object.", st)
          end
      | None => (Failure 500 "The view didn't return an HttpResponse object.", st)
      end
    else (Failure 404 "No SwapRequest matches the given query.", st)
  | None => (Failure 404 "No SwapRequest matches the given query.", st)
  end.

(** *** tasks.py: auto_process_swaps (139-168) *)

(** [SwapRequest.objects.filter(status__in=["PENDING", "APPROVED"],
    swap_time__lte=current_time)] *)
Definition is_due (current_time : Z) (s : SwapRequest) : bool :=
  (bool_decide (s_status s = PENDING) || bool_decide (s_status s = APPROVED))
  && (swap_time s <=? current_time).

(** The ids of the rows of that queryset, fetched when the loop starts. *)
Definition due_swaps (current_time : Z) (st : world) : list nat :=
  fst <$> List.filter (fun ks => is_due current_time ks.2) (map_to_list (swaps st)).

(** The body of the loop, on the counters and the database; [now id] is the
    clock process_swap reads for swap [id].  An exception raised by
    process_swap is caught after its transaction is rolled back. *)
Definition auto_process_swaps_one (now : nat -> Z) (acc : nat * nat * world)
    (swap_id : nat) : nat * nat * world :=
  let '(processed_count, failed_count, st) := acc in
  match process_swap swap_id false (now swap_id) st with
  | (SwapCompleted, st1) => (S processed_count, failed_count, st1)
  | (SwapRaised, _) => (processed_count, S failed_count, st)
  | (_, st1) => (processed_count, S failed_count, st1)
  end.

(** Returns [processed_count], [failed_count] and the database. *)
Definition auto_process_swaps (current_time : Z) (now : nat -> Z) (st : world)
  : nat * nat * world :=
  fold_left (auto_process_swaps_one now) (due_swaps current_time st) (0%nat, 0%nat, st).

(** *** admin.py: UserPortfolioAdmin.freeze_accounts, unfreeze_accounts (165-206) *)

(** The selection is given by the users of the selected portfolios. *)
Definition freeze_accounts_one (user : nat) (st : world) : world :=
  match portfolios st !! user with
  | Some portfolio =>
    if is_frozen portfolio then st
    else
      notify user (Text "Your account has been suspended.")
        (set_portfolios (insert user (with_is_frozen portfolio true)) st)
  | None => st
  end.

Definition freeze_accounts (queryset : list nat) (st : world) : world :=
  fold_left (fun s u => freeze_accounts_one u s) queryset st.

Definition unfreeze_accounts_one (user : nat) (st : world) : world :=
  match portfolios st !! user with
  | Some portfolio =>
    if is_frozen portfolio then
      notify user (Text "Your account has been reactivated.")
        (set_portfolios (insert user (with_is_frozen portfolio false)) st)
    else st
  | None => st
  end.

Definition unfreeze_accounts (queryset : list nat) (st : world) : world :=
  fold_left (fun s u => unfreeze_accounts_one u s) queryset st.

(** *** admin.py: UserPortfolioAdmin.toggle_merchant_status (84-103) *)

Definition toggle_merchant_status_one (user : nat) (st : world) : world :=
  match portfolios st !! user with
  | Some portfolio =>
    notify user (Text "Your merchant status has been changed by admin.")
      (set_portfolios
         (insert user (with_is_merchant portfolio (negb (is_merchant portfolio)))) st)
  | None => st
  end.

Definition toggle_merchant_status (queryset : list nat) (st : world) : world :=
  fold_left (fun s u => toggle_merchant_status_one u s) queryset st.

(** *** views.py: create_synthetic_asset (1434-1511) *)

(** Body of the request; [af_symbol] is
    [request.data.get('symbol', '').upper()]. *)
Record asset_form := mkAssetForm {
  af_name : option string;
  af_symbol : string;
  af_image_url : option string
}.

(** Truth value of an optional string: neither absent nor empty. *)
Definition truthy (s : option string) : bool :=
  match s with
  | Some s => negb (bool_decide (s = ""%string))
  | None => false
  end.

(** The star rating computed from the balance. *)
Definition star_rating (balance : Decimal) : nat :=
  if dec_leb (mkDecimal 5000 0) balance then 5
  else if dec_leb (mkDecimal 1001 0) balance then 4
  else if dec_leb (mkDecimal 501 0) balance then 3
  else if dec_leb (mkDecimal 101 0) balance then 2
  else 1.

(** The initial price, the float [0.00001], which prints as [1e-05]. *)
Definition initial_price : pyfloat := PyFloat (mkDecimal 1 (-5)).

(** [admin_users] is [User.objects.filter(is_staff=True)].  A new row has no
    primary key, so [SyntheticAsset.save] only checks that the price is not
    negative. *)
Definition create_synthetic_asset (user : nat) (data : asset_form)
    (admin_users : list nat) (st : world) : response nat * world :=
  match portfolios st !! user with
  | None => (Failure 500 "Failed to create synthetic asset.", st)
  | Some portfolio =>
    if (star_rating (balance_usd portfolio) <? 4)%nat
    then (Failure 403 "You need to be at least a 4-star user to create synthetic assets.", st)
    else if negb (truthy (af_name data) && truthy (Some (af_symbol data))
                  && truthy (af_image_url data))
    then (Failure 400 "Name, symbol and image URL are required.", st)
    else if bool_decide (is_Some (asset_by_symbol (af_symbol data) st))
    then (Failure 400 "This symbol is already in use.", st)
    else
      let id := fresh_id (assets st) in
      let st1 :=
        set_assets (insert id (mkSyntheticAsset (af_symbol data) initial_price)) st in
      (* Notify admins *)
      let st2 :=
        fold_left
          (fun s admin =>
             notify admin (Text "New synthetic asset requires verification.") s)
          admin_users st1 in
      (Success id, st2)
  end.

(** *** All operations as commands *)

Inductive command :=
| Basic (o : op)
| UserConfirmWithdrawal (user withdrawal_id : nat)
| ProcessWithdrawal (transaction_id : nat)
| ApproveWithdrawals (queryset : list nat)
| ForceCompleteWithdrawals (queryset : list nat)
| ApproveDeposits (queryset : list nat)
| RejectDeposits (queryset : list nat)
| RejectDeposit (deposit_id : nat)
| CompleteSwap (now : nat -> Z) (queryset : list nat)
| CancelSwap (queryset : list nat)
| CancelSwapAdmin (swap_id : nat)
| CompleteSwapAdmin (swap_id : nat)
| AutoProcessSwaps (current_time : Z) (now : nat -> Z)
| FreezeAccounts (queryset : list nat)
| UnfreezeAccounts (queryset : list nat)
| ToggleMerchantStatus (queryset : list nat)
| CreateSyntheticAsset (user : nat) (data : asset_form) (admin_users : list nat).

Definition exec (c : command) (st : world) : world :=
  match c with
  | Basic o => step o st
  | UserConfirmWithdrawal u i => (user_confirm_withdrawal u i st).2
  | ProcessWithdrawal i => (process_withdrawal i st).2
  | ApproveWithdrawals q => approve_withdrawals q st
  | ForceCompleteWithdrawals q => force_complete_withdrawals q st
  | ApproveDeposits q => approve_deposits q st
  | RejectDeposits q => reject_deposits q st
  | RejectDeposit i => (reject_deposit i st).2
  | CompleteSwap now q => complete_swap now q st
  | CancelSwap q => cancel_swap q st
  | CancelSwapAdmin i => (cancel_swap_admin i st).2
  | CompleteSwapAdmin i => (complete_swap_admin i st).2
  | AutoProcessSwaps t now => (auto_process_swaps t now st).2
  | FreezeAccounts q => freeze_accounts q st
  | UnfreezeAccounts q => unfreeze_accounts q st
  | ToggleMerchantStatus q => toggle_merchant_status q st
  | CreateSyntheticAsset u d a => (create_synthetic_asset u d a st).2
  end.

Definition execs (cs : list command) (st : world) : world :=
  fold_left (fun s c => exec c s) cs st.

(** A transition that leaves every settled row as it is: a deposit or a
    withdrawal that is no longer PENDING, a swap that is COMPLETED or
    CANCELLED. *)
Definition settled_step (st st' : world) : Prop :=
  (forall i d, deposits st !! i = Some d -> d_status d <> PENDING ->
               deposits st' !! i = Some d) /\
  (forall i w, withdrawals st !! i = Some w -> w_status w <> PENDING ->
               withdrawals st' !! i = Some w) /\
  (forall i s, swaps st !! i = Some s -> swap_is_open (s_status s) = false ->
               swaps st' !! i = Some s).

(** What process_swap needs to settle [s] without raising: the three asset
    rows, two prices it can divide by, and the portfolio of the user. *)
Definition can_settle (s : SwapRequest) (st : world) : Prop :=
  exists from_row back_id back_row to_row,
    assets st !! from_asset s = Some from_row /\
    swap_back_asset s = Some back_id /\
    assets st !! back_id = Some back_row /\
    assets st !! to_asset s = Some to_row /\
    is_Some (portfolios st !! s_user s) /\
    dec_int (original_to_asset_price s) <> 0 /\
    dec_int (float_str (price_usd back_row)) <> 0.

(** *** Example data for these operations *)

(** The database after user 1 asked for a P2P withdrawal of 40 through
    merchant 2: the balance is 60 and withdrawal 1 is PENDING. *)
Definition demo_withdrawal_1 : Withdrawal :=
  mkWithdrawal 1 (PyFloat (mkDecimal 40 0)) PENDING "BANK" (Some 2%nat) true
    (Some (mkWithdrawalFeeInfo (PyFloat (mkDecimal 35 (-1)))
             (PyFloat (mkDecimal 200 (-2)))
             (PyFloat (mkDecimal 3800 (-2)))
             (PyFloat (mkDecimal 40 0)))).

Definition demo_world_p2p : world :=
  mkWorld
    (<[1%nat := mkUserPortfolio (mkDecimal 600000 (-4)) false false "100000000001" None]>
       demo_portfolios)
    demo_deposits (<[1%nat := demo_withdrawal_1]> ∅) demo_swaps
    (<[1%nat := mkAffiliate 3 false]> ∅)
    demo_assets
    (<[1%nat := mkMerchantApplication 2 APPROVED]> ∅)
    [] [] None.

(** A database of settled rows: deposit 1 is APPROVED, withdrawal 1 is
    COMPLETED and swap 1 is CANCELLED. *)
Definition demo_deposit_approved : Deposit :=
  mkDeposit 1 (PyFloat (mkDecimal 10000 (-1))) APPROVED "BANK_TRANSFER" "ref-1"
    (Some 2%nat) false
    (Some (mkDepositFeeInfo (PyFloat (mkDecimal 35 (-1)))
             (PyFloat (mkDecimal 350 (-1)))
             (PyFloat (mkDecimal 10350 (-1)))
             (PyFloat (mkDecimal 10000 (-1))))).

Definition demo_withdrawal_completed : Withdrawal :=
  mkWithdrawal 1 (PyFloat (mkDecimal 40 0)) COMPLETED "BANK" (Some 2%nat) false
    (Some (mkWithdrawalFeeInfo (PyFloat (mkDecimal 35 (-1)))
             (PyFloat (mkDecimal 200 (-2)))
             (PyFloat (mkDecimal 3800 (-2)))
             (PyFloat (mkDecimal 40 0)))).

Definition demo_swap_cancelled : SwapRequest :=
  mkSwapRequest 1 1 2 (Some 1%nat) (PyFloat (mkDecimal 1000 (-1)))
    (PyFloat (mkDecimal 0 (-1))) (mkDecimal 20000000000 (-10)) 1000 None CANCELLED.

Definition demo_world_settled : world :=
  mkWorld demo_portfolios
    (<[1%nat := demo_deposit_approved]> demo_deposits)
    (<[1%nat := demo_withdrawal_completed]> ∅)
    (<[1%nat := demo_swap_cancelled]> ∅)
    (<[1%nat := mkAffiliate 3 true]> ∅)
    demo_assets
    (<[1%nat := mkMerchantApplication 2 APPROVED]> ∅)
    [] [] None.

(** Two more bank deposits of 1000: deposit 4 is for user 9, who has no
    portfolio, through merchant 2; deposit 5 is for user 1 through user 3,
    whose balance is 0. *)
Definition demo_deposit_4 : Deposit :=
  mkDeposit 9 (PyFloat (mkDecimal 10000 (-1))) PENDING "BANK_TRANSFER" "ref-4"
    (Some 2%nat) true None.
Definition demo_deposit_5 : Deposit :=
  mkDeposit 1 (PyFloat (mkDecimal 10000 (-1))) PENDING "BANK_TRANSFER" "ref-5"
    (Some 3%nat) true None.

Definition demo_world_more_deposits : world :=
  mkWorld demo_portfolios
    (<[4%nat := demo_deposit_4]> (<[5%nat := demo_deposit_5]> demo_deposits))
    ∅ demo_swaps
    (<[1%nat := mkAffiliate 3 false]> ∅)
    demo_assets
    (<[1%nat := mkMerchantApplication 2 APPROVED]> ∅)
    [] [] None.

(** A transfer of 40 to the account of user 3, to the sender's own account
    and to an account that does not exist. *)
Definition demo_transfer_form (account : string) : withdraw_form :=
  mkWithdrawForm (Some (mkDecimal 40 0)) (Some "INTERNAL"%string) None (Some account)
                 None None None None None.

(** A request to create the asset GLD. *)
Definition demo_asset_form : asset_form :=
  mkAssetForm (Some "Gold"%string) "GLD" (Some "https://example.com/gld.png"%string).

(** The clock of the examples: every swap is looked at at instant 2000. *)
Definition demo_clock (swap_id : nat) : Z := 2000.

(* ===================================================================== *)
(** ** Facts about Decimal arithmetic                                     *)
(* ===================================================================== *)
Lemma pow10_pos k : 0 <= k -> 0 < 10 ^ k.
Proof. intros; apply Z.pow_pos_nonneg; lia. Qed.

Lemma pow10_S k : 0 <= k -> 10 ^ (k + 1) = 10 * 10 ^ k.
Proof. intros. rewrite Z.pow_add_r by lia. lia. Qed.

Lemma ndigits_fuel_spec fuel : forall n,
  0 < n -> n < 2 ^ (Z.of_nat fuel + 1) ->
  1 <= ndigits_fuel fuel n /\
  10 ^ (ndigits_fuel fuel n - 1) <= n < 10 ^ (ndigits_fuel fuel n).
Proof.
  induction fuel as [|f IH]; intros n Hn Hlog.
  - simpl. change (2 ^ (0 + 1)) with 2 in Hlog.
    change (10 ^ (1 - 1)) with 1. change (10 ^ 1) with 10. lia.
  - cbn [ndigits_fuel]. destruct (Z.ltb_spec n 10) as [Hlt|Hge].
    + change (10 ^ (1 - 1)) with 1. change (10 ^ 1) with 10. lia.
    + assert (Hq : 0 < n / 10) by (apply Z.div_str_pos; lia).
      pose proof (Z.div_mod n 10 ltac:(lia)) as Hdm.
      pose proof (Z.mod_pos_bound n 10 ltac:(lia)) as Hmb.
      assert (Hlq : n / 10 < 2 ^ (Z.of_nat f + 1)).
      { replace (Z.of_nat (S f) + 1) with ((Z.of_nat f + 1) + 1) in Hlog by lia.
        rewrite Z.pow_add_r in Hlog by lia. change (2 ^ 1) with 2 in Hlog. lia. }
      destruct (IH _ Hq Hlq) as (H1 & H2 & H3).
      set (r := ndigits_fuel f (n / 10)) in *.
      replace (1 + r - 1) with ((r - 1) + 1) by lia.
      replace (1 + r) with (r + 1) by lia.
      rewrite !pow10_S by lia.
      lia.
Qed.

Lemma ndigits_spec n : 0 < n ->
  1 <= ndigits n /\ 10 ^ (ndigits n - 1) <= n < 10 ^ (ndigits n).
Proof.
  intros Hn. apply ndigits_fuel_spec; [assumption|].
  rewrite Z2Nat.id by apply Z.log2_nonneg.
  replace (Z.log2 n + 1) with (Z.succ (Z.log2 n)) by lia.
  apply Z.log2_spec; assumption.
Qed.

Lemma ndigits_le n k : 0 <= n -> 1 <= k -> n < 10 ^ k -> ndigits n <= k.
Proof.
  intros Hn Hk Hlt. destruct (Z.eq_dec n 0) as [->|Hne]; [change (ndigits 0) with 1; lia|].
  destruct (ndigits_spec n ltac:(lia)) as (H1 & H2 & _).
  destruct (Z.le_gt_cases (ndigits n) k) as [|Hgt]; [assumption|exfalso].
  assert (10 ^ k <= 10 ^ (ndigits n - 1)) by (apply Z.pow_le_mono_r; lia).
  lia.
Qed.

Lemma round_half_even_bounds n k : 0 <= n -> 0 <= k ->
  n - 10 ^ k < round_half_even n k * 10 ^ k <= n + 10 ^ k.
Proof.
  intros Hn Hk. unfold round_half_even.
  pose proof (pow10_pos k Hk) as Hp.
  pose proof (Z.div_mod n (10 ^ k) ltac:(lia)) as Hdm.
  pose proof (Z.mod_pos_bound n (10 ^ k) ltac:(lia)) as Hmb.
  destruct (_ || _); nia.
Qed.

Lemma fix_small d : Z.abs (dec_int d) < 10 ^ prec -> fix_ d = d.
Proof.
  intros H. unfold fix_.
  destruct (Z.leb_spec (ndigits (Z.abs (dec_int d))) prec) as [|Hgt]; [reflexivity|].
  exfalso. pose proof (ndigits_le (Z.abs (dec_int d)) prec ltac:(lia) ltac:(unfold prec; lia) H). lia.
Qed.

(** What [_fix] returns: same sign, exponent not smaller, and an absolute
    value within one part in 10^27 of the argument's. *)
Lemma fix_spec m e :
  exists m' e', fix_ (mkDecimal m e) = mkDecimal m' e' /\ e <= e' /\
    Z.sgn m' = Z.sgn m /\
    (10 ^ 27 - 1) * Z.abs m <= 10 ^ 27 * (Z.abs m' * 10 ^ (e' - e)) <= (10 ^ 27 + 1) * Z.abs m.
Proof.
  unfold fix_. cbn [dec_int dec_exp].
  destruct (Z.leb_spec (ndigits (Z.abs m)) prec) as [Hle|Hgt].
  - exists m, e. replace (e - e) with 0 by lia. change (10 ^ 0) with 1.
    repeat split; lia.
  - assert (Hm : 0 < Z.abs m).
    { destruct (Z.eq_dec m 0) as [->|]; [change (ndigits (Z.abs 0)) with 1 in Hgt; unfold prec in Hgt; lia | lia]. }
    destruct (ndigits_spec _ Hm) as (_ & Hlo & Hhi).
    set (n := ndigits (Z.abs m)) in *. set (k := n - prec).
    assert (Hk : 1 <= k) by (unfold k; lia).
    pose proof (round_half_even_bounds (Z.abs m) k ltac:(lia) ltac:(lia)) as Hr.
    set (q := round_half_even (Z.abs m) k) in *.
    pose proof (pow10_pos k ltac:(lia)) as Hpk.
    assert (Hbig : 10 ^ 27 * 10 ^ k <= Z.abs m).
    { rewrite <- Z.pow_add_r by lia. replace (27 + k) with (n - 1) by (unfold k, prec; lia). exact Hlo. }
    assert (Hq : 0 < q) by nia.
    assert (Hsg : forall c, 0 < c -> Z.sgn (Z.sgn m * c) = Z.sgn m /\ Z.abs (Z.sgn m * c) = c).
    { intros c Hc. destruct m; cbn in *; try lia; destruct c; cbn; try lia; auto. }
    destruct (Z.eqb_spec q (10 ^ prec)) as [Heq|Hne].
    + exists (Z.sgn m * (q / 10)), (e + k + 1).
      assert (Hq10 : q / 10 = 10 ^ 27) by (rewrite Heq; reflexivity).
      destruct (Hsg (q / 10) ltac:(rewrite Hq10; lia)) as [Hs1 Hs2].
      rewrite Hs2. replace (e + k + 1 - e) with (k + 1) by lia.
      rewrite pow10_S by lia.
      assert (q / 10 * (10 * 10 ^ k) = q * 10 ^ k).
      { rewrite Hq10, Heq. unfold prec. change (10 ^ 28) with (10 ^ 27 * 10). ring. }
      repeat split; try lia; try assumption; nia.
    + exists (Z.sgn m * q), (e + k).
      destruct (Hsg q Hq) as [Hs1 Hs2]. rewrite Hs2.
      replace (e + k - e) with k by lia.
      repeat split; try lia; try assumption; nia.
Qed.

Lemma P10_pos e : (0 < P10 e)%Q.
Proof. apply Qpower_0_lt. reflexivity. Qed.

Lemma P10_add a b : (P10 (a + b) == P10 a * P10 b)%Q.
Proof. apply Qpower_plus. discriminate. Qed.

Lemma P10_inject k : 0 <= k -> (inject_Z (10 ^ k) == P10 k)%Q.
Proof. intros. apply Zpower_Qpower. assumption. Qed.

Lemma value_eq m e : (value (mkDecimal m e) == inject_Z m * P10 e)%Q.
Proof. reflexivity. Qed.

Lemma value_scale m e k : 0 <= k ->
  (value (mkDecimal (m * 10 ^ k) e) == value (mkDecimal m (e + k)))%Q.
Proof.
  intros Hk. rewrite !value_eq, inject_Z_mult, P10_inject, P10_add by assumption. ring.
Qed.

Lemma value_pos d : 0 < dec_int d -> (0 < value d)%Q.
Proof.
  intros H. unfold value. apply Qmult_lt_0_compat; [|apply P10_pos].
  rewrite <- (Zlt_Qlt 0). assumption.
Qed.

Lemma value_fix_bounds d : 0 < dec_int d ->
  0 < dec_int (fix_ d) /\
  ((1 - eps27) * value d <= value (fix_ d) <= (1 + eps27) * value d)%Q.
Proof.
  destruct d as [m e]. cbn [dec_int]. intros Hm.
  destruct (fix_spec m e) as (m' & e' & -> & He & Hs & Hlo & Hhi).
  cbn [dec_int].
  assert (Hm' : 0 < m') by (destruct m'; destruct m; cbn in *; lia).
  split; [assumption|].
  rewrite (Z.abs_eq m) in * by lia. rewrite (Z.abs_eq m') in * by lia.
  assert (Hv : (value (mkDecimal m' e') == inject_Z (m' * 10 ^ (e' - e)) * P10 e)%Q).
  { rewrite <- value_eq, value_scale by lia. replace (e + (e' - e)) with e' by lia. reflexivity. }
  rewrite Hv, value_eq.
  set (M := m' * 10 ^ (e' - e)) in *.
  assert (Hlo' : 10 ^ 27 * m <= 10 ^ 27 * M + m) by lia.
  assert (Hhi' : 10 ^ 27 * M <= 10 ^ 27 * m + m) by lia.
  clear Hlo Hhi. rename Hlo' into Hlo. rename Hhi' into Hhi.
  rewrite Zle_Qle in Hlo, Hhi.
  rewrite ?inject_Z_plus, ?inject_Z_mult in Hlo, Hhi.
  pose proof (P10_pos e) as Hp.
  set (X := inject_Z m) in *. set (Y := inject_Z M) in *. set (Pe := P10 e) in *.
  change (inject_Z (10 ^ 27)) with (1000000000000000000000000000 # 1)%Q in *.
  change (inject_Z 1) with 1%Q in *.
  unfold eps27.
  split; rewrite Qmult_assoc; apply Qmult_le_compat_r; lra.
Qed.

Lemma value_mul_exact x y :
  (value (mkDecimal (dec_int x * dec_int y) (dec_exp x + dec_exp y)) == value x * value y)%Q.
Proof.
  destruct x as [mx ex], y as [my ey]. cbn [dec_int dec_exp].
  rewrite !value_eq, inject_Z_mult, P10_add. ring.
Qed.

Lemma dec_mul_bounds x y : 0 < dec_int x -> 0 < dec_int y ->
  0 < dec_int (dec_mul x y) /\
  ((1 - eps27) * (value x * value y) <= value (dec_mul x y)
   <= (1 + eps27) * (value x * value y))%Q.
Proof.
  intros Hx Hy. unfold dec_mul.
  rewrite <- value_mul_exact. apply value_fix_bounds. cbn [dec_int]. nia.
Qed.

Lemma strip_zeros_spec fuel : forall c e ideal c' e',
  0 < c -> strip_zeros fuel c e ideal = (c', e') ->
  0 < c' /\ e <= e' /\ c = c' * 10 ^ (e' - e).
Proof.
  induction fuel as [|f IH]; intros c e ideal c' e' Hc H; cbn [strip_zeros] in H.
  - injection H as <- <-. replace (e - e) with 0 by lia. change (10 ^ 0) with 1. lia.
  - destruct ((e <? ideal) && (c mod 10 =? 0)) eqn:Hb.
    + apply andb_true_iff in Hb as [_ Hmod]. apply Z.eqb_eq in Hmod.
      pose proof (Z.div_mod c 10 ltac:(lia)) as Hdm.
      assert (Hc10 : 0 < c / 10) by lia.
      destruct (IH _ _ _ _ _ Hc10 H) as (H1 & H2 & H3).
      split; [assumption|]. split; [lia|].
      replace (e' - e) with ((e' - (e + 1)) + 1) by lia.
      rewrite pow10_S by lia. lia.
    + injection H as <- <-. replace (e - e) with 0 by lia. change (10 ^ 0) with 1. lia.
Qed.

(** The quotient before rounding: its coefficient has at least 29 digits and
    is within one unit of the exact quotient. *)
Lemma div_core a b : 0 < a -> 0 < b ->
  let shift := ndigits b - ndigits a + prec + 1 in
  let num := if 0 <=? shift then a * 10 ^ shift else a in
  let den := if 0 <=? shift then b else b * 10 ^ (- shift) in
  0 < den /\ 10 ^ 28 * den <= num.
Proof.
  intros Ha Hb shift num den.
  destruct (ndigits_spec a Ha) as (Ha1 & Ha2 & Ha3).
  destruct (ndigits_spec b Hb) as (Hb1 & Hb2 & Hb3).
  subst num den. destruct (Z.leb_spec 0 shift) as [Hs|Hs].
  - split; [lia|].
    assert (10 ^ (ndigits a - 1) * 10 ^ shift = 10 ^ 28 * 10 ^ (ndigits b)).
    { rewrite <- !Z.pow_add_r by lia. f_equal. unfold shift, prec. lia. }
    pose proof (pow10_pos shift Hs). nia.
  - pose proof (pow10_pos (- shift) ltac:(lia)). split; [nia|].
    assert (10 ^ 28 * (10 ^ ndigits b * 10 ^ (- shift)) = 10 ^ (ndigits a - 1)).
    { rewrite <- !Z.pow_add_r by lia. f_equal. unfold shift, prec. lia. }
    nia.
Qed.

Lemma dec_div_bounds x y : 0 < dec_int x -> 0 < dec_int y ->
  exists q, dec_div x y = Some q /\ 0 < dec_int q /\
    ((1 - eps26) * value x <= value q * value y <= (1 + eps26) * value x)%Q.
Proof.
  destruct x as [a ex], y as [b ey]. cbn [dec_int]. intros Ha Hb.
  unfold dec_div. cbn [dec_int dec_exp].
  destruct (Z.eqb_spec b 0) as [|_]; [lia|].
  rewrite (Z.abs_eq a), (Z.abs_eq b) by lia.
  destruct (Z.eqb_spec a 0) as [|_]; [lia|].
  replace (Z.sgn a * Z.sgn b) with 1 by (destruct a, b; cbn; lia).
  pose proof (div_core a b Ha Hb) as Hcore. cbn zeta in Hcore.
  set (shift := ndigits b - ndigits a + prec + 1) in *.
  set (num := if 0 <=? shift then a * 10 ^ shift else a) in *.
  set (den := if 0 <=? shift then b else b * 10 ^ (- shift)) in *.
  destruct Hcore as [Hden Hbig].
  set (E0 := ex - ey - shift).
  pose proof (Z.div_mod num den ltac:(lia)) as Hdm.
  pose proof (Z.mod_pos_bound num den Hden) as Hmb.
  assert (Hc0 : 10 ^ 28 <= num / den) by (apply Z.div_le_lower_bound; lia).
  assert (Hc0' : 0 < num / den) by (pose proof (pow10_pos 28 ltac:(lia)); lia).
  (* the coefficient and exponent handed to _fix *)
  assert (Hpre : exists c E c1,
    (if num mod den =? 0
     then strip_zeros (Z.to_nat shift) (num / den) E0 (ex - ey)
     else (if (num / den) mod 5 =? 0 then num / den + 1 else num / den, E0)) = (c, E)
    /\ 0 < c /\ E0 <= E /\ c1 = c * 10 ^ (E - E0)
    /\ 10 ^ 28 * num <= 10 ^ 28 * (c1 * den) + num
    /\ 10 ^ 28 * (c1 * den) <= 10 ^ 28 * num + num).
  { destruct (Z.eqb_spec (num mod den) 0) as [Hr|Hr].
    - destruct (strip_zeros (Z.to_nat shift) (num / den) E0 (ex - ey)) as [c E] eqn:Hs.
      destruct (strip_zeros_spec _ _ _ _ _ _ Hc0' Hs) as (H1 & H2 & H3).
      exists c, E, (num / den). split; [reflexivity|].
      assert (Hex : num / den * den = num) by lia.
      repeat split; try assumption; try lia; rewrite Hex; lia.
    - destruct (Z.eqb_spec ((num / den) mod 5) 0).
      + exists (num / den + 1), E0, (num / den + 1).
        replace (E0 - E0) with 0 by lia. change (10 ^ 0) with 1.
        split; [reflexivity|]. repeat split; try lia; nia.
      + exists (num / den), E0, (num / den).
        replace (E0 - E0) with 0 by lia. change (10 ^ 0) with 1.
        split; [reflexivity|]. repeat split; try lia; nia. }
  destruct Hpre as (c & E & c1 & -> & Hc & HE & Hc1 & Hlo & Hhi).
  rewrite Z.mul_1_l.
  eexists; split; [reflexivity|].
  destruct (value_fix_bounds (mkDecimal c E) Hc) as [Hpos [Hf1 Hf2]].
  split; [assumption|].
  (* value before rounding, times the divisor, against the dividend *)
  set (F := ex - Z.max shift 0).
  assert (Hvx : (value (mkDecimal a ex) == inject_Z num * P10 F)%Q).
  { subst num F. destruct (Z.leb_spec 0 shift).
    - rewrite Z.max_l by lia. rewrite <- value_eq, value_scale by lia.
      replace (ex - shift + shift) with ex by lia. reflexivity.
    - rewrite Z.max_r by lia. replace (ex - 0) with ex by lia. reflexivity. }
  assert (Hvq : (value (mkDecimal c E) * value (mkDecimal b ey) == inject_Z (c1 * den) * P10 F)%Q).
  { assert (Hce : (value (mkDecimal c E) == inject_Z c1 * P10 E0)%Q).
    { rewrite Hc1, <- value_eq, value_scale by lia.
      replace (E0 + (E - E0)) with E by lia. reflexivity. }
    rewrite Hce, value_eq. subst den F E0. destruct (Z.leb_spec 0 shift).
    - rewrite Z.max_l by lia. rewrite inject_Z_mult.
      replace (ex - shift) with ((ex - ey - shift) + ey) by lia. rewrite P10_add. ring.
    - rewrite Z.max_r by lia. rewrite !inject_Z_mult, P10_inject by lia.
      replace (ex - 0) with (((ex - ey - shift) + ey) + shift) by lia.
      rewrite !P10_add.
      assert (Hinv : (P10 (- shift) * P10 shift == 1)%Q).
      { rewrite <- P10_add. replace (- shift + shift) with 0 by lia. reflexivity. }
      set (u := P10 (- shift)) in *. set (v := P10 shift) in *.
      setoid_replace (inject_Z c1 * (inject_Z b * u) * (P10 (ex - ey - shift) * P10 ey * v))%Q
        with (inject_Z c1 * P10 (ex - ey - shift) * (inject_Z b * P10 ey) * (u * v))%Q
        using relation Qeq by ring.
      rewrite Hinv. ring. }
  rewrite Zle_Qle in Hlo, Hhi.
  rewrite ?inject_Z_plus, ?inject_Z_mult in Hlo, Hhi.
  rewrite inject_Z_mult in Hvq.
  change (inject_Z (10 ^ 28)) with (10000000000000000000000000000 # 1)%Q in *.
  pose proof (P10_pos F) as HF.
  pose proof (value_pos (mkDecimal b ey) Hb) as Hvy.
  pose proof (value_pos (mkDecimal a ex) Ha) as Hvx0.
  set (VX := value (mkDecimal a ex)) in *. set (VY := value (mkDecimal b ey)) in *.
  set (VC := value (mkDecimal c E)) in *.
  set (VQ := value (fix_ (mkDecimal c E))) in *.
  set (N := inject_Z num) in *. set (CD := (inject_Z c1 * inject_Z den)%Q) in *.
  set (PF := P10 F) in *.
  (* bounds on VC * VY relative to VX *)
  assert (H1 : ((1 - eps28) * VX <= VC * VY)%Q).
  { rewrite Hvq, Hvx, Qmult_assoc. apply Qmult_le_compat_r; [unfold eps28; lra | lra]. }
  assert (H2 : (VC * VY <= (1 + eps28) * VX)%Q).
  { rewrite Hvq, Hvx, Qmult_assoc. apply Qmult_le_compat_r; [unfold eps28; lra | lra]. }
  assert (H3 : ((1 - eps27) * (VC * VY) <= VQ * VY)%Q).
  { rewrite Qmult_assoc. apply Qmult_le_compat_r; lra. }
  assert (H4 : (VQ * VY <= (1 + eps27) * (VC * VY))%Q).
  { rewrite Qmult_assoc. apply Qmult_le_compat_r; lra. }
  assert (H5 : (0 <= VC * VY)%Q) by (unfold eps28 in H1; lra).
  unfold eps26, eps27, eps28 in *.
  split.
  - apply Qle_trans with ((1 - (1 # 1000000000000000000000000000)) * (VC * VY))%Q; [|assumption].
    apply Qle_trans with ((1 - (1 # 1000000000000000000000000000)) * ((1 - (1 # 10000000000000000000000000000)) * VX))%Q.
    + rewrite Qmult_assoc. apply Qmult_le_compat_r; [reflexivity || (vm_compute; discriminate) | lra].
    + apply Qmult_le_l; [reflexivity|]. assumption.
  - apply Qle_trans with ((1 + (1 # 1000000000000000000000000000)) * (VC * VY))%Q; [assumption|].
    apply Qle_trans with ((1 + (1 # 1000000000000000000000000000)) * ((1 + (1 # 10000000000000000000000000000)) * VX))%Q.
    + apply Qmult_le_l; [reflexivity|]. assumption.
    + rewrite Qmult_assoc. apply Qmult_le_compat_r; [vm_compute; discriminate | lra].
Qed.

Lemma value_align x e : e <= dec_exp x ->
  (value x == inject_Z (dec_int x * 10 ^ (dec_exp x - e)) * P10 e)%Q.
Proof.
  intros He. destruct x as [m ex]. cbn [dec_int dec_exp] in *.
  rewrite <- value_eq, value_scale by lia.
  replace (e + (ex - e)) with ex by lia. reflexivity.
Qed.

Lemma scaled_compare (a b : Z) (e : Z) :
  (inject_Z a * P10 e ?= inject_Z b * P10 e)%Q = (a ?= b).
Proof.
  pose proof (P10_pos e) as Hp.
  destruct (Z.compare_spec a b) as [Heq|Hlt|Hgt].
  - subst. apply Qeq_alt. reflexivity.
  - apply Qlt_alt. apply Qmult_lt_compat_r; [assumption|]. rewrite <- Zlt_Qlt. assumption.
  - apply Qgt_alt. apply Qmult_lt_compat_r; [assumption|]. rewrite <- Zlt_Qlt. assumption.
Qed.

Lemma dec_compare_value x y : dec_compare x y = (value x ?= value y)%Q.
Proof.
  unfold dec_compare. set (e := Z.min (dec_exp x) (dec_exp y)).
  rewrite (Qcompare_comp _ _ (value_align x e ltac:(lia)) _ _ (value_align y e ltac:(lia))).
  symmetry. apply scaled_compare.
Qed.

Lemma dec_ltb_value x y : dec_ltb x y = true <-> (value x < value y)%Q.
Proof.
  unfold dec_ltb. rewrite dec_compare_value, Qlt_alt.
  destruct (value x ?= value y)%Q; split; congruence.
Qed.

Lemma dec_leb_value x y : dec_leb x y = true <-> (value x <= value y)%Q.
Proof.
  unfold dec_leb. rewrite dec_compare_value, Qle_alt.
  destruct (value x ?= value y)%Q; split; congruence.
Qed.

Lemma value_zero : (value dec_zero == 0)%Q.
Proof. reflexivity. Qed.

Lemma value_sign d :
  (0 < dec_int d <-> (0 < value d)%Q) /\ (dec_int d < 0 <-> (value d < 0)%Q).
Proof.
  destruct d as [m e]. cbn [dec_int]. rewrite value_eq.
  pose proof (P10_pos e) as Hp.
  assert (H0 : (0 == inject_Z 0 * P10 e)%Q) by (rewrite Qmult_0_l; reflexivity).
  split; split; intros H.
  - rewrite H0. apply Qmult_lt_compat_r; [assumption|]. rewrite <- Zlt_Qlt. assumption.
  - rewrite H0 in H. apply Qmult_lt_r in H; [|assumption]. rewrite <- Zlt_Qlt in H. assumption.
  - rewrite H0. apply Qmult_lt_compat_r; [assumption|]. rewrite <- Zlt_Qlt. assumption.
  - rewrite H0 in H. apply Qmult_lt_r in H; [|assumption]. rewrite <- Zlt_Qlt in H. assumption.
Qed.

(** Rounding keeps the sign. *)
Lemma fix_sgn d : Z.sgn (dec_int (fix_ d)) = Z.sgn (dec_int d).
Proof.
  destruct d as [m e]. destruct (fix_spec m e) as (m' & e' & -> & _ & Hs & _). exact Hs.
Qed.

(** The sign of a difference is the order of its operands. *)
Lemma dec_sub_sgn x y :
  let e := Z.min (dec_exp x) (dec_exp y) in
  Z.sgn (dec_int (dec_sub x y)) =
  Z.sgn (dec_int x * 10 ^ (dec_exp x - e) - dec_int y * 10 ^ (dec_exp y - e)).
Proof.
  intros e. unfold dec_sub, dec_add, dec_neg. cbn [dec_int dec_exp]. fold e.
  rewrite fix_sgn. cbn [dec_int]. f_equal. lia.
Qed.

Lemma dec_ltb_zero_l d : dec_ltb dec_zero d = (0 <? dec_int d).
Proof.
  unfold dec_ltb, dec_compare, dec_zero. cbn [dec_int dec_exp].
  set (e := Z.min 0 (dec_exp d)).
  pose proof (pow10_pos (dec_exp d - e) ltac:(lia)) as Hp.
  rewrite Z.mul_0_l.
  destruct (Z.compare_spec 0 (dec_int d * 10 ^ (dec_exp d - e)));
    destruct (Z.ltb_spec 0 (dec_int d)); try reflexivity; nia.
Qed.

Lemma dec_ltb_zero_r d : dec_ltb d dec_zero = (dec_int d <? 0).
Proof.
  unfold dec_ltb, dec_compare, dec_zero. cbn [dec_int dec_exp].
  set (e := Z.min (dec_exp d) 0).
  pose proof (pow10_pos (dec_exp d - e) ltac:(lia)) as Hp.
  rewrite Z.mul_0_l.
  destruct (Z.compare_spec (dec_int d * 10 ^ (dec_exp d - e)) 0);
    destruct (Z.ltb_spec (dec_int d) 0); try reflexivity; nia.
Qed.

Lemma dec_sub_pos x y : dec_ltb dec_zero (dec_sub x y) = dec_ltb y x.
Proof.
  rewrite dec_ltb_zero_l. unfold dec_ltb, dec_compare.
  pose proof (dec_sub_sgn x y) as Hs. cbn zeta in Hs.
  rewrite (Z.min_comm (dec_exp y)).
  set (e := Z.min (dec_exp x) (dec_exp y)) in *.
  set (X := dec_int x * 10 ^ (dec_exp x - e)) in *.
  set (Y := dec_int y * 10 ^ (dec_exp y - e)) in *.
  destruct (Z.compare_spec Y X); destruct (Z.ltb_spec 0 (dec_int (dec_sub x y)));
    try reflexivity; exfalso; lia.
Qed.

Lemma dec_sub_neg x y : dec_ltb (dec_sub x y) dec_zero = dec_ltb x y.
Proof.
  rewrite dec_ltb_zero_r. unfold dec_ltb, dec_compare.
  pose proof (dec_sub_sgn x y) as Hs. cbn zeta in Hs.
  set (e := Z.min (dec_exp x) (dec_exp y)) in *.
  set (X := dec_int x * 10 ^ (dec_exp x - e)) in *.
  set (Y := dec_int y * 10 ^ (dec_exp y - e)) in *.
  destruct (Z.compare_spec X Y); destruct (Z.ltb_spec (dec_int (dec_sub x y)) 0);
    try reflexivity; exfalso; lia.
Qed.

(** Two different prices of at most 20 digits are at least one part in
    10^20 apart. *)
Lemma price_gap x y :
  0 < dec_int x -> dec_int x < 10 ^ 20 -> dec_int y < 10 ^ 20 ->
  (value x < value y)%Q -> ((1 + delta20) * value x <= value y)%Q.
Proof.
  intros Hx0 Hx Hy Hlt.
  set (e := Z.min (dec_exp x) (dec_exp y)).
  pose proof (value_align x e ltac:(lia)) as Vx.
  pose proof (value_align y e ltac:(lia)) as Vy.
  set (X := dec_int x * 10 ^ (dec_exp x - e)) in *.
  set (Y := dec_int y * 10 ^ (dec_exp y - e)) in *.
  assert (HXY : X < Y).
  { rewrite Vx, Vy in Hlt. apply Qmult_lt_r in Hlt; [|apply P10_pos].
    rewrite <- Zlt_Qlt in Hlt. assumption. }
  assert (HX : X < 10 ^ 20).
  { destruct (Z.le_ge_cases (dec_exp x) (dec_exp y)) as [H|H].
    - subst X e. rewrite Z.min_l by lia. replace (dec_exp x - dec_exp x) with 0 by lia.
      change (10 ^ 0) with 1. lia.
    - assert (Y = dec_int y).
      { subst Y e. rewrite Z.min_r by lia. replace (dec_exp y - dec_exp y) with 0 by lia.
        change (10 ^ 0) with 1. lia. }
      lia. }
  assert (Hz : 10 ^ 20 * X + X <= 10 ^ 20 * Y) by lia.
  rewrite Zle_Qle in Hz. rewrite inject_Z_plus, !inject_Z_mult in Hz.
  change (inject_Z (10 ^ 20)) with (100000000000000000000 # 1)%Q in Hz.
  rewrite Vx, Vy, Qmult_assoc. apply Qmult_le_compat_r; [|apply Qlt_le_weak, P10_pos].
  unfold delta20. lra.
Qed.

(** The settlement computation on positive operands: both quotients exist,
    and the result is the exact value [a * l / o] up to four roundings. *)
Lemma swap_amounts_bounds a p o l b :
  0 < dec_int a -> 0 < dec_int p -> 0 < dec_int o -> 0 < dec_int l -> 0 < dec_int b ->
  exists t r,
    swap_to_amount a p o = Some t /\ swap_back_of t l b = Some r /\
    0 < dec_int t /\ 0 < dec_int r /\
    ((1 - eps26) * ((1 - eps27) * ((1 - eps26) * ((1 - eps27) * (value a * value p * value l))))
       <= value r * value b * value o)%Q /\
    (value r * value b * value o
       <= (1 + eps26) * ((1 + eps27) * ((1 + eps26) * ((1 + eps27) * (value a * value p * value l)))))%Q.
Proof.
  intros Ha Hp Ho Hl Hb. unfold swap_to_amount, swap_back_of.
  destruct (dec_mul_bounds a p Ha Hp) as (H1p & H1l & H1u).
  destruct (dec_div_bounds (dec_mul a p) o H1p Ho) as (t & Et & Htp & H2l & H2u).
  destruct (dec_mul_bounds t l Htp Hl) as (H3p & H3l & H3u).
  destruct (dec_div_bounds (dec_mul t l) b H3p Hb) as (r & Er & Hrp & H4l & H4u).
  exists t, r. split; [exact Et|]. split; [exact Er|].
  split; [assumption|]. split; [assumption|]. split.
  - pose proof (value_pos _ Ho) as Vo. pose proof (value_pos _ Hl) as Vl.
    set (A := value a) in *. set (P := value p) in *. set (O := value o) in *.
    set (L := value l) in *. set (B := value b) in *. set (T := value t) in *.
    set (R := value r) in *. set (X1 := value (dec_mul a p)) in *.
    set (X3 := value (dec_mul t l)) in *.
    (* R*B >= k X3 >= k k' T L ; T O >= k X1 >= k k' A P *)
    assert (E1 : ((1 - eps27) * (A * P) * L <= X1 * L)%Q)
      by (apply Qmult_le_compat_r; [assumption | lra]).
    assert (E2 : ((1 - eps26) * X1 * L <= T * O * L)%Q)
      by (apply Qmult_le_compat_r; [assumption | lra]).
    assert (E3 : ((1 - eps27) * (T * L) * O <= X3 * O)%Q)
      by (apply Qmult_le_compat_r; [assumption | lra]).
    assert (E4 : ((1 - eps26) * X3 * O <= R * B * O)%Q)
      by (apply Qmult_le_compat_r; [assumption | lra]).
    set (APL := (A * P * L)%Q). set (X1L := (X1 * L)%Q) in *.
    set (TOL := (T * O * L)%Q) in *. set (X3O := (X3 * O)%Q) in *.
    assert (E1' : ((1 - eps27) * APL <= X1L)%Q) by (subst APL; lra).
    assert (E2' : ((1 - eps26) * X1L <= TOL)%Q) by (subst X1L; lra).
    assert (E3' : ((1 - eps27) * TOL <= X3O)%Q).
    { subst TOL. setoid_replace (T * O * L)%Q with (T * L * O)%Q using relation Qeq by ring. lra. }
    assert (E4' : ((1 - eps26) * X3O <= R * B * O)%Q) by (subst X3O; lra).
    unfold eps26, eps27 in *. lra.
  - pose proof (value_pos _ Ho) as Vo. pose proof (value_pos _ Hl) as Vl.
    set (A := value a) in *. set (P := value p) in *. set (O := value o) in *.
    set (L := value l) in *. set (B := value b) in *. set (T := value t) in *.
    set (R := value r) in *. set (X1 := value (dec_mul a p)) in *.
    set (X3 := value (dec_mul t l)) in *.
    assert (E1 : (X1 * L <= (1 + eps27) * (A * P) * L)%Q)
      by (apply Qmult_le_compat_r; [assumption | lra]).
    assert (E2 : (T * O * L <= (1 + eps26) * X1 * L)%Q)
      by (apply Qmult_le_compat_r; [assumption | lra]).
    assert (E3 : (X3 * O <= (1 + eps27) * (T * L) * O)%Q)
      by (apply Qmult_le_compat_r; [assumption | lra]).
    assert (E4 : (R * B * O <= (1 + eps26) * X3 * O)%Q)
      by (apply Qmult_le_compat_r; [assumption | lra]).
    set (APL := (A * P * L)%Q). set (X1L := (X1 * L)%Q) in *.
    set (TOL := (T * O * L)%Q) in *. set (X3O := (X3 * O)%Q) in *.
    assert (E1' : (X1L <= (1 + eps27) * APL)%Q) by (subst APL; lra).
    assert (E2' : (TOL <= (1 + eps26) * X1L)%Q) by (subst X1L; lra).
    assert (E3' : (X3O <= (1 + eps27) * TOL)%Q).
    { subst TOL. setoid_replace (T * O * L)%Q with (T * L * O)%Q using relation Qeq by ring. lra. }
    assert (E4' : (R * B * O <= (1 + eps26) * X3O)%Q) by (subst X3O; lra).
    unfold eps26, eps27 in *. lra.
Qed.

Lemma swap_back_above a p o l b r :
  0 < dec_int a -> 0 < dec_int p -> 0 < dec_int o -> 0 < dec_int l -> 0 < dec_int b ->
  (value b == value p)%Q ->
  ((1 + delta20) * value o <= value l)%Q ->
  ((1 - eps26) * ((1 - eps27) * ((1 - eps26) * ((1 - eps27) * (value a * value p * value l))))
       <= value r * value b * value o)%Q ->
  (value a < value r)%Q.
Proof.
  intros Ha Hp Ho Hl Hb Ebp Hgap Hlow.
  pose proof (value_pos _ Ha) as Va. pose proof (value_pos _ Hp) as Vp.
  pose proof (value_pos _ Ho) as Vo.
  rewrite Ebp in Hlow.
  set (A := value a) in *. set (P := value p) in *. set (O := value o) in *.
  set (L := value l) in *. set (R := value r) in *.
  assert (Vap : (0 < A * P)%Q) by (apply Qmult_lt_0_compat; assumption).
  assert (Vpo : (0 < P * O)%Q) by (apply Qmult_lt_0_compat; assumption).
  assert (G : ((A * P) * ((1 + delta20) * O) <= (A * P) * L)%Q)
    by (apply Qmult_le_l; assumption).
  apply (Qmult_lt_r _ _ (P * O)%Q Vpo).
  assert (Vapo : (0 < A * (P * O))%Q) by (apply Qmult_lt_0_compat; assumption).
  set (APO := (A * (P * O))%Q) in *. set (APL := (A * P * L)%Q) in *.
  set (RPO := (R * (P * O))%Q).
  assert (G' : ((1 + delta20) * APO <= APL)%Q).
  { subst APO APL.
    setoid_replace ((1 + delta20) * (A * (P * O)))%Q with ((A * P) * ((1 + delta20) * O))%Q
      using relation Qeq by ring. exact G. }
  assert (Hlow' : ((1 - eps26) * ((1 - eps27) * ((1 - eps26) * ((1 - eps27) * APL))) <= RPO)%Q).
  { subst RPO. setoid_replace (R * (P * O))%Q with (R * P * O)%Q using relation Qeq by ring.
    exact Hlow. }
  clearbody APO APL RPO. unfold eps26, eps27, delta20 in *. lra.
Qed.

Lemma swap_back_below a p o l b r :
  0 < dec_int a -> 0 < dec_int p -> 0 < dec_int o -> 0 < dec_int l -> 0 < dec_int b ->
  (value b == value p)%Q ->
  ((1 + delta20) * value l <= value o)%Q ->
  (value r * value b * value o
       <= (1 + eps26) * ((1 + eps27) * ((1 + eps26) * ((1 + eps27) * (value a * value p * value l)))))%Q ->
  (value r < value a)%Q.
Proof.
  intros Ha Hp Ho Hl Hb Ebp Hgap Hup.
  pose proof (value_pos _ Ha) as Va. pose proof (value_pos _ Hp) as Vp.
  pose proof (value_pos _ Ho) as Vo. pose proof (value_pos _ Hl) as Vl.
  rewrite Ebp in Hup.
  set (A := value a) in *. set (P := value p) in *. set (O := value o) in *.
  set (L := value l) in *. set (R := value r) in *.
  assert (Vap : (0 < A * P)%Q) by (apply Qmult_lt_0_compat; assumption).
  assert (Vpo : (0 < P * O)%Q) by (apply Qmult_lt_0_compat; assumption).
  assert (G : ((A * P) * ((1 + delta20) * L) <= (A * P) * O)%Q)
    by (apply Qmult_le_l; assumption).
  apply (Qmult_lt_r _ _ (P * O)%Q Vpo).
  assert (Vapl : (0 < A * P * L)%Q) by (apply Qmult_lt_0_compat; assumption).
  set (APO := (A * (P * O))%Q) in *. set (APL := (A * P * L)%Q) in *.
  set (RPO := (R * (P * O))%Q).
  assert (G' : ((1 + delta20) * APL <= APO)%Q).
  { subst APO APL.
    setoid_replace ((1 + delta20) * (A * P * L))%Q with ((A * P) * ((1 + delta20) * L))%Q
      using relation Qeq by ring.
    setoid_replace (A * (P * O))%Q with (A * P * O)%Q using relation Qeq by ring. exact G. }
  assert (Hup' : (RPO <= (1 + eps26) * ((1 + eps27) * ((1 + eps26) * ((1 + eps27) * APL))))%Q).
  { subst RPO. setoid_replace (R * (P * O))%Q with (R * P * O)%Q using relation Qeq by ring.
    exact Hup. }
  clearbody APO APL RPO. unfold eps26, eps27, delta20 in *. lra.
Qed.

(* ===================================================================== *)
(** ** The referral bonus                                                 *)
(* ===================================================================== *)

Lemma bonus_step_refl st : bonus_step st st.
Proof. intros u. split; [tauto | lia]. Qed.

Lemma bonus_step_trans st1 st2 st3 :
  bonus_step st1 st2 -> bonus_step st2 st3 -> bonus_step st1 st3.
Proof.
  intros H12 H23 u. destruct (H12 u) as [A1 B1], (H23 u) as [A2 B2].
  split; [tauto | lia].
Qed.

Lemma bonus_count_app u st st' l :
  notifications st' = notifications st ++ l ->
  bonus_count u st' = (bonus_count u st + length (List.filter (is_bonus_for u) l))%nat.
Proof.
  intros H. unfold bonus_count. rewrite H, List.filter_app, length_app. reflexivity.
Qed.

(** A transition that leaves the referral edges alone and adds no bonus
    notification. *)
Lemma bonus_step_frame st st' l :
  affiliates st' = affiliates st ->
  notifications st' = notifications st ++ l ->
  (forall u, List.filter (is_bonus_for u) l = []) ->
  bonus_step st st'.
Proof.
  intros Ha Hn Hl u.
  rewrite (bonus_count_app u st st' l Hn), Hl. unfold funded_bit, funded. rewrite Ha.
  split; [tauto | cbn; lia].
Qed.

Ltac frame_step :=
  first
    [ apply bonus_step_refl
    | eapply bonus_step_frame;
      [ reflexivity
      | cbn; rewrite <- ?app_assoc; first [ reflexivity | symmetry; apply app_nil_r ]
      | intros ?; reflexivity ] ].

Lemma funded_insert_true u v r st :
  funded u (set_affiliates (insert v (mkAffiliate r true)) st) =
  if decide (v = u) then true else funded u st.
Proof.
  unfold funded. cbn. rewrite lookup_insert. destruct (decide (v = u)); reflexivity.
Qed.

Lemma process_referral_bonus_step self st :
  bonus_step st (_process_referral_bonus self st).
Proof.
  unfold _process_referral_bonus.
  destruct (portfolios st !! d_user self) as [up|] eqn:Hup; [|frame_step].
  set (st1 := match initial_deposit_amount up with
              | None => _ | Some _ => st end).
  assert (H01 : bonus_step st st1).
  { subst st1. destruct (initial_deposit_amount up); frame_step. }
  eapply bonus_step_trans; [exact H01|]. clearbody st1. clear H01 Hup.
  destruct (affiliates st1 !! d_user self) as [aff|] eqn:Haff; [|frame_step].
  destruct (has_funded_wallet aff) eqn:Hf; [frame_step|].
  set (st2 := set_affiliates _ st1).
  assert (Hflag : forall u, funded u st2 = if decide (d_user self = u) then true else funded u st1).
  { intros u. apply funded_insert_true. }
  assert (Hold : funded (d_user self) st1 = false).
  { unfold funded. rewrite Haff. exact Hf. }
  assert (Hcnt2 : forall u, bonus_count u st2 = bonus_count u st1) by reflexivity.
  destruct (portfolios st2 !! referrer aff) as [rp|] eqn:Hrp.
  - intros u. unfold funded_bit.
    match goal with |- context [notify ?r ?m ?s] => set (st4 := notify r m s) end.
    assert (Hf4 : funded u st4 = funded u st2) by reflexivity.
    assert (Hc4 : bonus_count u st4 =
                  (bonus_count u st1 + if decide (d_user self = u) then 1 else 0)%nat).
    { unfold bonus_count. subst st4. cbn. rewrite List.filter_app, length_app. cbn.
      unfold is_bonus_for at 2. cbn.
      destruct (decide (d_user self = u)) as [->|Hne].
      - rewrite bool_decide_eq_true_2 by reflexivity. reflexivity.
      - rewrite bool_decide_eq_false_2 by congruence. reflexivity. }
    rewrite Hf4, Hc4, Hflag.
    destruct (decide (d_user self = u)) as [<-|Hne].
    + rewrite Hold. split; [reflexivity | lia].
    + split; [tauto | destruct (funded u st1); lia].
  - intros u. unfold funded_bit. rewrite Hcnt2, Hflag.
    destruct (decide (d_user self = u)) as [<-|Hne].
    + rewrite Hold. split; [reflexivity | lia].
    + split; [tauto | destruct (funded u st1); lia].
Qed.

Lemma Deposit_save_step pk self st : bonus_step st (Deposit_save pk self st).2.
Proof.
  unfold Deposit_save. cbn [snd].
  match goal with |- context [if ?b then _ else _] => destruct b end.
  - eapply bonus_step_trans; [|apply process_referral_bonus_step]. frame_step.
  - frame_step.
Qed.

Ltac through_save :=
  first
    [ apply bonus_step_refl
    | lazymatch goal with
      | H : Deposit_save ?pk ?self ?s = (_, ?w) |- bonus_step _ _ =>
          let Hs := fresh "Hs" in
          pose proof (Deposit_save_step pk self s) as Hs;
          rewrite H in Hs; cbn [snd] in Hs;
          eapply bonus_step_trans; [|eapply bonus_step_trans; [exact Hs|]];
          frame_step
      end
    | frame_step ].

Lemma deposit_funds_step user data st :
  bonus_step st (deposit_funds user data st).2.
Proof. unfold deposit_funds. repeat case_match; cbn [snd]; through_save. Qed.

Lemma merchant_approve_deposit_step user id st :
  bonus_step st (merchant_approve_deposit user id st).2.
Proof. unfold merchant_approve_deposit. repeat case_match; cbn [snd]; through_save. Qed.

Lemma merchant_decline_deposit_step user id st :
  bonus_step st (merchant_decline_deposit user id st).2.
Proof. unfold merchant_decline_deposit. repeat case_match; cbn [snd]; through_save. Qed.

Lemma process_deposit_step id st : bonus_step st (process_deposit id st).2.
Proof. unfold process_deposit. repeat case_match; cbn [snd]; through_save. Qed.

Lemma withdraw_funds_step user form st :
  bonus_step st (withdraw_funds user form st).2.
Proof. unfold withdraw_funds. repeat case_match; cbn [snd]; frame_step. Qed.

Lemma user_decline_withdrawal_step user id st :
  bonus_step st (user_decline_withdrawal user id st).2.
Proof. unfold user_decline_withdrawal. repeat case_match; cbn [snd]; frame_step. Qed.

Lemma reject_withdrawal_step id st : bonus_step st (reject_withdrawal id st).2.
Proof. unfold reject_withdrawal. repeat case_match; cbn [snd]; frame_step. Qed.

Lemma reject_withdrawals_one_step id st : bonus_step st (reject_withdrawals_one id st).
Proof. unfold reject_withdrawals_one. repeat case_match; frame_step. Qed.

Lemma reject_withdrawals_step queryset : forall st,
  bonus_step st (reject_withdrawals queryset st).
Proof.
  unfold reject_withdrawals. induction queryset as [|id q IH]; intros st; cbn [fold_left].
  - apply bonus_step_refl.
  - eapply bonus_step_trans; [apply reject_withdrawals_one_step | apply IH].
Qed.

Lemma swap_tokens_step user data now st :
  bonus_step st (swap_tokens user data now st).2.
Proof. unfold swap_tokens. repeat case_match; cbn [snd]; frame_step. Qed.

Lemma process_swap_step id force now st :
  bonus_step st (process_swap id force now st).2.
Proof.
  unfold process_swap, swap_message. repeat case_match; cbn [snd]; frame_step.
Qed.

Lemma step_bonus_step o st : bonus_step st (step o st).
Proof.
  destruct o; cbn [step].
  - apply deposit_funds_step.
  - apply merchant_approve_deposit_step.
  - apply merchant_decline_deposit_step.
  - apply process_deposit_step.
  - apply withdraw_funds_step.
  - apply user_decline_withdrawal_step.
  - apply reject_withdrawal_step.
  - apply reject_withdrawals_step.
  - apply swap_tokens_step.
  - apply process_swap_step.
Qed.

Lemma run_bonus_step ops : forall st, bonus_step st (run ops st).
Proof.
  unfold run. induction ops as [|o ops IH]; intros st; cbn [fold_left].
  - apply bonus_step_refl.
  - eapply bonus_step_trans; [apply step_bonus_step | apply IH].
Qed.

Lemma dec_mul_exact x y :
  Z.abs (dec_int x * dec_int y) < 10 ^ prec ->
  (value (dec_mul x y) == value x * value y)%Q.
Proof.
  intros H. unfold dec_mul. rewrite fix_small by exact H. apply value_mul_exact.
Qed.

Lemma dec_add_exact x y :
  let e := Z.min (dec_exp x) (dec_exp y) in
  Z.abs (dec_int x * 10 ^ (dec_exp x - e) + dec_int y * 10 ^ (dec_exp y - e)) < 10 ^ prec ->
  (value (dec_add x y) == value x + value y)%Q.
Proof.
  intros e H. unfold dec_add. fold e. rewrite fix_small by exact H.
  rewrite value_eq, inject_Z_plus.
  rewrite (value_align x e), (value_align y e) by lia. ring.
Qed.

Lemma balance_of_insert u v p st :
  balance_of u (set_portfolios (insert v p) st) =
  if decide (v = u) then Some (balance_usd p) else balance_of u st.
Proof.
  unfold balance_of. cbn. rewrite lookup_insert.
  destruct (decide (v = u)); reflexivity.
Qed.

(** The hook pays nothing for a user whose flag is set: every balance is
    left as it was. *)
Lemma process_referral_bonus_funded self st v :
  funded (d_user self) st = true ->
  balance_of v (_process_referral_bonus self st) = balance_of v st.
Proof.
  intros Hf. unfold _process_referral_bonus.
  destruct (portfolios st !! d_user self) as [up|] eqn:Hup; [|reflexivity].
  assert (Haff : exists aff, affiliates st !! d_user self = Some aff /\ has_funded_wallet aff = true).
  { unfold funded in Hf. destruct (affiliates st !! d_user self) as [aff|]; [|discriminate].
    exists aff. split; [reflexivity | exact Hf]. }
  destruct Haff as (aff & Haff & Hflag).
  destruct (initial_deposit_amount up) eqn:Hi.
  - rewrite Haff, Hflag. reflexivity.
  - cbn [affiliates set_portfolios]. rewrite Haff, Hflag.
    rewrite balance_of_insert. destruct (decide (d_user self = v)) as [<-|]; [|reflexivity].
    unfold balance_of. rewrite Hup. reflexivity.
Qed.

Lemma Deposit_save_funded pk self st v :
  funded (d_user self) st = true ->
  balance_of v (Deposit_save pk self st).2 = balance_of v st.
Proof.
  intros Hf. unfold Deposit_save. cbn [snd].
  match goal with |- context [if ?b then _ else _] => destruct b end; [|reflexivity].
  rewrite process_referral_bonus_funded; [reflexivity | exact Hf].
Qed.

(** The first approval of a deposit of a referred user whose flag is clear. *)
Lemma process_referral_bonus_first self st up aff rp :
  portfolios st !! d_user self = Some up ->
  affiliates st !! d_user self = Some aff ->
  has_funded_wallet aff = false ->
  portfolios st !! referrer aff = Some rp ->
  let st' := _process_referral_bonus self st in
  funded (d_user self) st' = true /\
  balance_of (referrer aff) st' =
    Some (to_column 4 (dec_add (balance_usd rp)
                               (dec_mul (float_str (d_amount self)) Decimal_0_15))) /\
  bonus_count (d_user self) st' = S (bonus_count (d_user self) st).
Proof.
  intros Hup Haff Hflag Hrp st'. subst st'. unfold _process_referral_bonus. rewrite Hup.
  set (st1 := match initial_deposit_amount up with None => _ | Some _ => st end).
  assert (Ha1 : affiliates st1 = affiliates st)
    by (subst st1; destruct (initial_deposit_amount up); reflexivity).
  assert (Hn1 : notifications st1 = notifications st)
    by (subst st1; destruct (initial_deposit_amount up); reflexivity).
  assert (Hr1 : exists rp1, portfolios st1 !! referrer aff = Some rp1 /\
                            balance_usd rp1 = balance_usd rp).
  { subst st1. destruct (initial_deposit_amount up).
    - exists rp. split; [assumption | reflexivity].
    - cbn [portfolios set_portfolios]. rewrite lookup_insert.
      destruct (decide (d_user self = referrer aff)) as [E|E].
      + eexists. split; [reflexivity|]. rewrite E in Hup. rewrite Hup in Hrp.
        injection Hrp as <-. reflexivity.
      + exists rp. split; [assumption | reflexivity]. }
  destruct Hr1 as (rp1 & Hrp1 & Hb1).
  rewrite Ha1, Haff, Hflag. cbn [portfolios set_affiliates]. rewrite Hrp1.
  split; [|split].
  - unfold funded. cbn. rewrite lookup_insert_eq. reflexivity.
  - unfold balance_of. cbn. rewrite lookup_insert_eq. cbn. rewrite Hb1. reflexivity.
  - unfold bonus_count. cbn [notifications notify set_portfolios set_affiliates].
    rewrite Hn1, List.filter_app, length_app.
    cbn [List.filter is_bonus_for n_message].
    rewrite bool_decide_eq_true_2 by reflexivity. cbn [length]. lia.
Qed.

(* ===================================================================== *)
(** ** Swap settlement                                                    *)
(* ===================================================================== *)

Lemma dec_div_Some x y : dec_int y <> 0 -> exists q, dec_div x y = Some q.
Proof.
  intros Hy. unfold dec_div. destruct (Z.eqb_spec (dec_int y) 0); [contradiction|].
  destruct (Z.abs (dec_int x) =? 0); [eexists; reflexivity|].
  match goal with |- context [let '(c, e) := ?p in _] => destruct p end.
  eexists; reflexivity.
Qed.

Lemma profit_loss_percentage_Some profit_loss from_amount :
  exists pct, profit_loss_percentage_of profit_loss from_amount = Some pct.
Proof.
  unfold profit_loss_percentage_of.
  destruct (dec_ltb dec_zero from_amount) eqn:Hpos; [|eexists; reflexivity].
  rewrite dec_ltb_zero_l in Hpos. apply Z.ltb_lt in Hpos.
  destruct (dec_div_Some profit_loss from_amount ltac:(lia)) as [q ->].
  eexists; reflexivity.
Qed.

Lemma lookup_alter_same {A} (f : A -> A) (m : gmap nat A) i x :
  m !! i = Some x -> alter f i m !! i = Some (f x).
Proof. intros H. rewrite lookup_alter. rewrite decide_True by reflexivity. rewrite H. reflexivity. Qed.

Lemma lookup_alter_other {A} (f : A -> A) (m : gmap nat A) i j :
  i <> j -> alter f i m !! j = m !! j.
Proof. intros H. rewrite lookup_alter. rewrite decide_False by exact H. reflexivity. Qed.

(** Settlement of an open swap that is due or forced. *)
Lemma process_swap_completes swap_id force now st sr from_row back_id back_row to_row portfolio :
  swaps st !! swap_id = Some sr ->
  swap_is_open (s_status sr) = true ->
  force = true \/ swap_time sr <= now ->
  assets st !! from_asset sr = Some from_row ->
  swap_back_asset sr = Some back_id ->
  assets st !! back_id = Some back_row ->
  assets st !! to_asset sr = Some to_row ->
  portfolios st !! s_user sr = Some portfolio ->
  dec_int (original_to_asset_price sr) <> 0 ->
  dec_int (float_str (price_usd back_row)) <> 0 ->
  let from_amount := float_str (swap_amount sr) in
  let from_price := float_str (price_usd from_row) in
  let back_price := float_str (price_usd back_row) in
  let latest_to_price := float_str (price_usd to_row) in
  exists to_amount swap_back pct st',
    swap_to_amount from_amount from_price (original_to_asset_price sr) = Some to_amount /\
    swap_back_of to_amount latest_to_price back_price = Some swap_back /\
    profit_loss_percentage_of (dec_sub swap_back from_amount) from_amount = Some pct /\
    process_swap swap_id force now st = (SwapCompleted, st') /\
    swaps st' !! swap_id = Some (completed_swap swap_back now sr) /\
    portfolios st' !! s_user sr =
      Some (save_balance portfolio (dec_add (balance_usd portfolio) swap_back)) /\
    (forall u, u <> s_user sr -> portfolios st' !! u = portfolios st !! u) /\
    trades st' =
      trades st ++
      swap_trades (s_user sr) (from_asset sr) (to_asset sr) back_id
        from_amount from_price to_amount (original_to_asset_price sr)
        latest_to_price swap_back back_price /\
    notifications st' =
      notifications st ++
      [ mkNotification (s_user sr) (swap_message from_amount swap_back pct);
        mkNotification (s_user sr)
          (Text "Your portfolio balance has been updated after the swap.") ].
Proof.
  intros Hsw Hopen Hdue Hfrom Hback Hbrow Hto Hport Ho Hb from_amount from_price back_price
         latest_to_price.
  destruct (dec_div_Some (dec_mul from_amount from_price) (original_to_asset_price sr) Ho)
    as [to_amount Et].
  destruct (dec_div_Some (dec_mul to_amount latest_to_price) back_price Hb) as [swap_back Er].
  destruct (profit_loss_percentage_Some (dec_sub swap_back from_amount) from_amount)
    as [pct Ep].
  change (swap_to_amount from_amount from_price (original_to_asset_price sr) = Some to_amount)
    in Et.
  change (swap_back_of to_amount latest_to_price back_price = Some swap_back) in Er.
  exists to_amount, swap_back, pct. eexists.
  split; [exact Et|]. split; [exact Er|]. split; [exact Ep|].
  assert (Hgate : negb force && (now <? swap_time sr) = false).
  { destruct Hdue as [->|Hle]; [reflexivity|].
    destruct (Z.ltb_spec now (swap_time sr)); [lia|]. apply andb_false_r. }
  unfold process_swap. rewrite Hsw, Hopen, Hgate.
  cbn [assets set_swaps]. rewrite Hfrom, Hback, Hbrow, Hto.
  fold from_amount from_price back_price latest_to_price.
  rewrite Et, Er. cbn [portfolios set_swaps]. rewrite Hport, Ep.
  split; [reflexivity|].
  cbn [swaps portfolios trades notifications notify add_trades set_portfolios set_swaps].
  split; [|split; [|split; [|split]]].
  - rewrite (lookup_alter_same _ _ _ (with_swap_status IN_PROGRESS sr)).
    + reflexivity.
    + apply lookup_alter_same. exact Hsw.
  - rewrite (lookup_alter_same _ _ _ portfolio Hport). reflexivity.
  - intros u Hu. apply lookup_alter_other. congruence.
  - reflexivity.
  - rewrite <- app_assoc. reflexivity.
Qed.

(* ===================================================================== *)
(** ** Merchant-mediated deposits                                         *)
(* ===================================================================== *)

Lemma process_referral_bonus_deposits self st :
  deposits (_process_referral_bonus self st) = deposits st.
Proof. unfold _process_referral_bonus. repeat case_match; reflexivity. Qed.

Lemma process_referral_bonus_keeps self st v :
  is_Some (portfolios st !! v) ->
  is_Some (portfolios (_process_referral_bonus self st) !! v).
Proof.
  intros Hv. unfold _process_referral_bonus.
  repeat case_match; cbn [portfolios set_portfolios set_affiliates notify];
    rewrite ?lookup_insert; repeat case_decide; eauto.
Qed.

Lemma process_referral_bonus_quiet self st v :
  no_bonus_due (d_user self) st ->
  balance_of v (_process_referral_bonus self st) = balance_of v st.
Proof.
  intros [Hnone|Hf]; [|apply process_referral_bonus_funded; exact Hf].
  unfold _process_referral_bonus.
  destruct (portfolios st !! d_user self) as [up|] eqn:Hup; [|reflexivity].
  destruct (initial_deposit_amount up) eqn:Hi.
  - rewrite Hnone. reflexivity.
  - cbn [affiliates set_portfolios]. rewrite Hnone.
    rewrite balance_of_insert. destruct (decide (d_user self = v)) as [<-|]; [|reflexivity].
    unfold balance_of. rewrite Hup. reflexivity.
Qed.

Lemma Deposit_save_quiet pk self st v :
  no_bonus_due (d_user self) st ->
  balance_of v (Deposit_save pk self st).2 = balance_of v st.
Proof.
  intros Hq. unfold Deposit_save. cbn [snd].
  match goal with |- context [if ?b then _ else _] => destruct b end; [|reflexivity].
  rewrite process_referral_bonus_quiet; [reflexivity | exact Hq].
Qed.

Lemma Deposit_save_deposits id self st :
  deposits (Deposit_save (Some id) self st).2 = <[id := self]> (deposits st).
Proof.
  unfold Deposit_save. cbn [snd].
  match goal with |- context [if ?b then _ else _] => destruct b end; [|reflexivity].
  rewrite process_referral_bonus_deposits. reflexivity.
Qed.

Lemma Deposit_save_keeps pk self st v :
  is_Some (portfolios st !! v) ->
  is_Some (portfolios (Deposit_save pk self st).2 !! v).
Proof.
  intros Hv. unfold Deposit_save. cbn [snd].
  match goal with |- context [if ?b then _ else _] => destruct b end; [|exact Hv].
  apply process_referral_bonus_keeps. exact Hv.
Qed.

(** Creation of a merchant-mediated deposit: the 3.5% fee is computed and
    quoted, and written to the fee annotation; no balance moves. *)
Lemma deposit_funds_quotes_fee user data st B merchant_id app mp :
  user_is_frozen user st = false ->
  df_amount data = Given B ->
  df_method data = Some "BANK_TRANSFER"%string ->
  df_merchant_id data = Some merchant_id ->
  merchant_applications st !! merchant_id = Some app ->
  ma_status app = APPROVED ->
  portfolios st !! ma_user app = Some mp ->
  is_merchant mp = true ->
  transaction_id_taken (default ""%string (df_transaction_id data)) st = false ->
  let fee := dec_mul B Decimal_0_035 in
  let total := dec_add B fee in
  let id := fresh_id (deposits st) in
  exists st',
    deposit_funds user data st =
      (Success (mkDepositCreated id
                  (Some (mkDepositQuote (float_ total) (float_ B) (float_ fee)))), st') /\
    deposits st' !! id =
      Some (mkDeposit user (float_ B) PENDING "BANK_TRANSFER"
              (default ""%string (df_transaction_id data)) (Some (ma_user app)) true
              (Some (mkDepositFeeInfo (PyFloat (mkDecimal 35 (-1)))
                       (float_ fee) (float_ total) (float_ B)))) /\
    portfolios st' = portfolios st.
Proof.
  intros Hfr Ha Hm Hmid Happ Hst Hmp Him Htx fee total id.
  unfold deposit_funds. rewrite Hfr, Ha, Hm, Hmid, Happ. cbn [bool_decide decide_rel].
  rewrite bool_decide_eq_true_2 by reflexivity.
  unfold is_approved_application. rewrite bool_decide_eq_true_2 by exact Hst.
  rewrite Hmp, Him. cbn [negb]. rewrite Htx.
  unfold Deposit_save. cbn [d_status]. rewrite bool_decide_eq_false_2 by discriminate.
  eexists. split; [reflexivity|].
  cbn [deposits portfolios notify set_deposits]. split; [|reflexivity].
  apply lookup_insert_eq.
Qed.

(** The fee and the quoted total are exact for amounts of up to 24 digits. *)
Lemma deposit_fee_exact B :
  Z.abs (dec_int B) < 10 ^ 24 ->
  (value (dec_mul B Decimal_0_035) == (35 # 1000) * value B)%Q /\
  (value (dec_add B (dec_mul B Decimal_0_035)) == (1035 # 1000) * value B)%Q.
Proof.
  intros HB.
  assert (H28 : 10 ^ prec = 10 ^ 24 * 10000) by reflexivity.
  assert (Hfee : dec_mul B Decimal_0_035 = mkDecimal (dec_int B * 35) (dec_exp B + -3)).
  { unfold dec_mul. apply fix_small. cbn [dec_int Decimal_0_035]. lia. }
  assert (Ev : (value (dec_mul B Decimal_0_035) == (35 # 1000) * value B)%Q).
  { rewrite dec_mul_exact by (cbn [dec_int Decimal_0_035]; lia).
    setoid_replace (value Decimal_0_035) with (35 # 1000)%Q using relation Qeq by reflexivity.
    ring. }
  split; [exact Ev|].
  rewrite dec_add_exact.
  - rewrite Ev. ring.
  - rewrite Hfee. cbn [dec_int dec_exp].
    rewrite Z.min_r by lia.
    replace (dec_exp B - (dec_exp B + -3)) with 3 by lia.
    replace (dec_exp B + -3 - (dec_exp B + -3)) with 0 by lia.
    change (10 ^ 3) with 1000. change (10 ^ 0) with 1. lia.
Qed.

(** Approval by the merchant: the base amount read back from the fee
    annotation is taken from the merchant, the deposit is approved (which
    runs the referral hook), and the same amount is added to the depositor. *)
Lemma merchant_approve_deposit_moves_base merchant deposit_id st deposit mp :
  deposits st !! deposit_id = Some deposit ->
  d_merchant deposit = Some merchant ->
  d_status deposit = PENDING ->
  merchant_action_required deposit = true ->
  portfolios st !! merchant = Some mp ->
  dec_ltb (balance_usd mp) (deposit_base_amount deposit) = false ->
  is_Some (portfolios st !! d_user deposit) ->
  let B := deposit_base_amount deposit in
  let st1 :=
    set_portfolios (insert merchant (save_balance mp (dec_sub (balance_usd mp) B))) st in
  let st2 :=
    (Deposit_save (Some deposit_id) (with_deposit_status deposit APPROVED false) st1).2 in
  exists up2 st',
    portfolios st2 !! d_user deposit = Some up2 /\
    merchant_approve_deposit merchant deposit_id st = (Success tt, st') /\
    deposits st' !! deposit_id = Some (with_deposit_status deposit APPROVED false) /\
    portfolios st' =
      <[d_user deposit := save_balance up2 (dec_add (balance_usd up2) B)]> (portfolios st2).
Proof.
  intros Hd Hm Hs Hmar Hmp Hbal Hup B st1 st2. subst B st1 st2.
  unfold merchant_approve_deposit. rewrite Hd, Hm, Hs, Hmar.
  rewrite !bool_decide_eq_true_2 by reflexivity. cbn [andb].
  rewrite Hmp, Hbal.
  set (st1 := set_portfolios _ st).
  assert (Hup1 : is_Some (portfolios st1 !! d_user deposit)).
  { subst st1. cbn [portfolios set_portfolios]. rewrite lookup_insert.
    case_decide; eauto. }
  pose proof (Deposit_save_keeps (Some deposit_id)
                (with_deposit_status deposit APPROVED false) st1 _ Hup1) as [up2 Hup2].
  pose proof (Deposit_save_deposits deposit_id
                (with_deposit_status deposit APPROVED false) st1) as Hdep.
  destruct (Deposit_save (Some deposit_id) (with_deposit_status deposit APPROVED false) st1)
    as [i w]. cbn [snd] in *.
  exists up2. eexists. split; [exact Hup2|].
  rewrite Hup2. split; [reflexivity|].
  cbn [deposits portfolios notify set_portfolios]. split; [|reflexivity].
  rewrite Hdep. apply lookup_insert_eq.
Qed.

(** When no referral bonus is due, the merchant and the depositor are the
    only accounts whose balances change. *)
Lemma merchant_approve_deposit_balances merchant deposit_id st deposit mp up :
  deposits st !! deposit_id = Some deposit ->
  d_merchant deposit = Some merchant ->
  d_status deposit = PENDING ->
  merchant_action_required deposit = true ->
  portfolios st !! merchant = Some mp ->
  dec_ltb (balance_usd mp) (deposit_base_amount deposit) = false ->
  portfolios st !! d_user deposit = Some up ->
  merchant <> d_user deposit ->
  no_bonus_due (d_user deposit) st ->
  let B := deposit_base_amount deposit in
  let st' := (merchant_approve_deposit merchant deposit_id st).2 in
  balance_of merchant st' = Some (to_column 4 (dec_sub (balance_usd mp) B)) /\
  balance_of (d_user deposit) st' = Some (to_column 4 (dec_add (balance_usd up) B)) /\
  (forall v, v <> merchant -> v <> d_user deposit -> balance_of v st' = balance_of v st).
Proof.
  intros Hd Hm Hs Hmar Hmp Hbal Hup Hne Hq B st'.
  destruct (merchant_approve_deposit_moves_base merchant deposit_id st deposit mp
              Hd Hm Hs Hmar Hmp Hbal ltac:(eauto)) as (up2 & w & Hup2 & Hrun & _ & Hport).
  subst st'. rewrite Hrun. cbn [snd]. fold B in Hup2, Hport.
  set (st1 := set_portfolios
                (insert merchant (save_balance mp (dec_sub (balance_usd mp) B))) st) in *.
  set (sv := Deposit_save (Some deposit_id) (with_deposit_status deposit APPROVED false) st1)
    in *.
  assert (Hq1 : no_bonus_due (d_user (with_deposit_status deposit APPROVED false)) st1)
    by exact Hq.
  assert (Hbal2 : forall v, balance_of v sv.2 = balance_of v st1).
  { intros v. apply Deposit_save_quiet. exact Hq1. }
  assert (Hb1 : forall v, balance_of v st1 =
                          if decide (merchant = v)
                          then Some (to_column 4 (dec_sub (balance_usd mp) B))
                          else balance_of v st).
  { intros v. subst st1. apply balance_of_insert. }
  assert (Hbw : forall v, balance_of v w =
                          if decide (d_user deposit = v)
                          then Some (to_column 4 (dec_add (balance_usd up2) B))
                          else balance_of v sv.2).
  { intros v. unfold balance_of at 1. rewrite Hport, lookup_insert.
    destruct (decide (d_user deposit = v)); reflexivity. }
  assert (Hup2b : balance_usd up2 = balance_usd up).
  { pose proof (Hbal2 (d_user deposit)) as H. rewrite Hb1 in H.
    rewrite decide_False in H by exact Hne.
    unfold balance_of in H. rewrite Hup2, Hup in H. cbn in H. congruence. }
  split; [|split].
  - rewrite Hbw, decide_False by congruence. rewrite Hbal2, Hb1, decide_True by reflexivity.
    reflexivity.
  - rewrite Hbw, decide_True by reflexivity. rewrite Hup2b. reflexivity.
  - intros v Hv1 Hv2. rewrite Hbw, decide_False by congruence.
    rewrite Hbal2, Hb1, decide_False by congruence. reflexivity.
Qed.

(** Decline by the merchant: the record is rejected and no balance moves. *)
Lemma merchant_decline_deposit_rejects merchant deposit_id st deposit :
  deposits st !! deposit_id = Some deposit ->
  d_merchant deposit = Some merchant ->
  d_status deposit = PENDING ->
  merchant_action_required deposit = true ->
  exists st',
    merchant_decline_deposit merchant deposit_id st = (Success tt, st') /\
    deposits st' !! deposit_id = Some (with_deposit_status deposit REJECTED false) /\
    portfolios st' = portfolios st.
Proof.
  intros Hd Hm Hs Hmar.
  unfold merchant_decline_deposit. rewrite Hd, Hm, Hs, Hmar.
  rewrite !bool_decide_eq_true_2 by reflexivity. cbn [andb].
  unfold Deposit_save. rewrite Hd. cbn [d_status with_deposit_status].
  rewrite (bool_decide_eq_false_2 (REJECTED = APPROVED)) by discriminate.
  rewrite andb_false_r.
  eexists. split; [reflexivity|].
  cbn [deposits portfolios notify set_deposits]. split; [|reflexivity].
  apply lookup_insert_eq.
Qed.

(* ===================================================================== *)
(** ** Swap creation                                                      *)
(* ===================================================================== *)

Lemma swap_tokens_same_asset user data now st a :
  sf_from_asset data = Given a -> sf_to_asset data = Given a ->
  exists code msg, swap_tokens user data now st = (Failure code msg, st).
Proof.
  intros Hf Ht. unfold swap_tokens. rewrite Hf, Ht.
  repeat case_match; try (do 2 eexists; reflexivity).
  all: exfalso;
    match goal with
    | H : bool_decide (?x = ?x) = false |- _ =>
        rewrite bool_decide_eq_true_2 in H by reflexivity; discriminate
    end.
Qed.

Lemma swap_tokens_created user data now st c st' :
  swap_tokens user data now st = (Success c, st') ->
  exists sr from_row to_row back_id back_row,
    swaps st' !! swap_id c = Some sr /\
    s_user sr = user /\ s_status sr = PENDING /\
    from_asset sr <> to_asset sr /\
    assets st !! from_asset sr = Some from_row /\ symbol from_row = "USDT"%string /\
    swap_back_asset sr = Some back_id /\
    assets st !! back_id = Some back_row /\ symbol back_row = "USDT"%string /\
    assets st !! to_asset sr = Some to_row /\
    (unique_symbols st -> symbol to_row <> "USDT"%string).
Proof.
  unfold swap_tokens. intros H.
  repeat case_match; try discriminate.
  all: injection H as <- <-.
  all: repeat match goal with
       | H : negb _ = false |- _ => apply negb_false_iff in H
       | H : bool_decide _ = true |- _ => apply bool_decide_eq_true_1 in H
       | H : bool_decide _ = false |- _ => apply bool_decide_eq_false_1 in H
       end.
  all: do 5 eexists.
  all: cbn [swap_id swaps notify set_portfolios set_swaps].
  all: rewrite lookup_insert_eq.
  all: cbn [s_user s_status from_asset to_asset swap_back_asset].
  all: repeat (split; [try reflexivity; try eassumption|]).
  all: intros Huniq Hsym.
  all: match goal with
       | Hne : ?i <> ?j, Hi : assets ?s !! ?i = Some ?x, Hj : assets ?s !! ?j = Some ?y |- _ =>
           apply Hne; apply (Huniq i j x y Hi Hj); congruence
       end.
Qed.

(* ===================================================================== *)
(** ** Credits without a debit                                            *)
(* ===================================================================== *)

(** Approval of a deposit by [process_deposit] when no bonus is due: the
    depositor's balance grows by the deposit amount, nothing else moves. *)
Lemma process_deposit_credits id st deposit p :
  deposits st !! id = Some deposit ->
  d_status deposit = PENDING ->
  portfolios st !! d_user deposit = Some p ->
  no_bonus_due (d_user deposit) st ->
  exists new_balance st',
    process_deposit id st = (Processed new_balance, st') /\
    (d_status <$> deposits st' !! id) = Some APPROVED /\
    balance_of (d_user deposit) st' =
      Some (to_column 4 (dec_add (balance_usd p) (float_str (d_amount deposit)))) /\
    (forall v, v <> d_user deposit -> balance_of v st' = balance_of v st).
Proof.
  intros Hd Hs Hp Hq. unfold process_deposit. rewrite Hd, Hs.
  rewrite bool_decide_eq_true_2 by reflexivity.
  set (self := with_deposit_status deposit APPROVED (merchant_action_required deposit)).
  pose proof (Deposit_save_keeps (Some id) self st (d_user deposit) ltac:(eauto)) as [p1 Hp1].
  pose proof (Deposit_save_deposits id self st) as Hdep.
  assert (Hb : forall v, balance_of v (Deposit_save (Some id) self st).2 = balance_of v st).
  { intros v. apply Deposit_save_quiet. exact Hq. }
  destruct (Deposit_save (Some id) self st) as [i w]. cbn [snd] in *.
  rewrite Hp1.
  assert (Hbp : balance_usd p1 = balance_usd p).
  { pose proof (Hb (d_user deposit)) as H. unfold balance_of in H.
    rewrite Hp1, Hp in H. cbn in H. congruence. }
  do 2 eexists. split; [reflexivity|].
  split; [|split].
  - match goal with |- context [if ?b then _ else _] => destruct b end;
      cbn [deposits notify set_portfolios]; rewrite Hdep, lookup_insert_eq; reflexivity.
  - match goal with |- context [if ?b then _ else _] => destruct b end;
      unfold balance_of; cbn [portfolios notify set_portfolios];
      rewrite lookup_insert_eq; cbn; rewrite Hbp; reflexivity.
  - intros v Hv.
    match goal with |- context [if ?b then _ else _] => destruct b end;
      unfold balance_of; cbn [portfolios notify set_portfolios];
      rewrite lookup_insert_ne by congruence; apply Hb.
Qed.

(** The bonus is a credit to the referrer only: no other balance moves. *)
Lemma process_referral_bonus_others self st aff v :
  affiliates st !! d_user self = Some aff ->
  v <> referrer aff ->
  balance_of v (_process_referral_bonus self st) = balance_of v st.
Proof.
  intros Haff Hv. unfold _process_referral_bonus.
  destruct (portfolios st !! d_user self) as [up|] eqn:Hup; [|reflexivity].
  set (st1 := match initial_deposit_amount up with None => _ | Some _ => st end).
  assert (Ha1 : affiliates st1 = affiliates st)
    by (subst st1; destruct (initial_deposit_amount up); reflexivity).
  assert (Hb1 : forall u, balance_of u st1 = balance_of u st).
  { intros u. subst st1. destruct (initial_deposit_amount up); [reflexivity|].
    rewrite balance_of_insert. destruct (decide (d_user self = u)) as [<-|]; [|reflexivity].
    unfold balance_of. rewrite Hup. reflexivity. }
  rewrite Ha1, Haff. destruct (has_funded_wallet aff); [apply Hb1|].
  cbn [portfolios set_affiliates].
  destruct (portfolios st1 !! referrer aff) as [rp|]; [|apply Hb1].
  unfold balance_of. cbn [portfolios notify set_portfolios set_affiliates].
  rewrite lookup_insert_ne by congruence. apply Hb1.
Qed.

(* ===================================================================== *)
(** ** Guards of the debiting views, refunds                              *)
(* ===================================================================== *)

Lemma withdraw_funds_frozen user form st :
  user_is_frozen user st = true ->
  withdraw_funds user form st =
    (Failure 403 "Account is suspended. Cannot process transactions.", st).
Proof. intros H. unfold withdraw_funds. rewrite H. reflexivity. Qed.

Lemma swap_tokens_frozen user data now st :
  user_is_frozen user st = true ->
  swap_tokens user data now st =
    (Failure 403 "Account is suspended. Cannot process transactions.", st).
Proof. intros H. unfold swap_tokens. rewrite H. reflexivity. Qed.

Lemma withdraw_funds_insufficient user form st amount method p :
  user_is_frozen user st = false ->
  wf_amount form = Some amount -> wf_method form = Some method ->
  dec_leb amount dec_zero = false ->
  portfolios st !! user = Some p ->
  dec_ltb (balance_usd p) amount = true ->
  withdraw_funds user form st = (Failure 400 "Insufficient balance", st).
Proof.
  intros Hf Ha Hm Hpos Hp Hlt. unfold withdraw_funds.
  rewrite Hf, Ha, Hm, Hpos, Hp, Hlt. reflexivity.
Qed.

Lemma merchant_approve_deposit_insufficient merchant deposit_id st deposit mp :
  deposits st !! deposit_id = Some deposit ->
  d_merchant deposit = Some merchant ->
  d_status deposit = PENDING ->
  merchant_action_required deposit = true ->
  portfolios st !! merchant = Some mp ->
  dec_ltb (balance_usd mp) (deposit_base_amount deposit) = true ->
  merchant_approve_deposit merchant deposit_id st = (Failure 400 "Insufficient balance.", st).
Proof.
  intros Hd Hm Hs Hmar Hmp Hlt. unfold merchant_approve_deposit.
  rewrite Hd, Hm, Hs, Hmar. rewrite !bool_decide_eq_true_2 by reflexivity. cbn [andb].
  rewrite Hmp, Hlt. reflexivity.
Qed.

(** A failed swap request leaves the state as it was. *)
Lemma swap_tokens_failure user data now st code msg st' :
  swap_tokens user data now st = (Failure code msg, st') -> st' = st.
Proof.
  unfold swap_tokens. intros H. repeat case_match; congruence.
Qed.

(** The staff view rejects without touching any balance. *)
Lemma reject_withdrawal_no_refund id st :
  portfolios (reject_withdrawal id st).2 = portfolios st.
Proof. unfold reject_withdrawal. repeat case_match; reflexivity. Qed.

(** The admin action and the user's decline both return the amount. *)
Lemma reject_withdrawals_one_refunds id st w p :
  withdrawals st !! id = Some w -> w_status w = PENDING ->
  portfolios st !! w_user w = Some p ->
  let st' := reject_withdrawals_one id st in
  balance_of (w_user w) st' =
    Some (to_column 4 (dec_add (balance_usd p) (float_str (w_amount w)))) /\
  (w_status <$> withdrawals st' !! id) = Some REJECTED.
Proof.
  intros Hw Hs Hp. cbn zeta. unfold reject_withdrawals_one. rewrite Hw, Hs, Hp.
  rewrite bool_decide_eq_true_2 by reflexivity.
  unfold balance_of. cbn [portfolios withdrawals notify set_withdrawals set_portfolios].
  rewrite !lookup_insert_eq. split; reflexivity.
Qed.

Lemma user_decline_withdrawal_refunds user id st w p :
  withdrawals st !! id = Some w -> w_user w = user -> w_status w = PENDING ->
  user_confirmation_required w = true ->
  portfolios st !! user = Some p ->
  exists st',
    user_decline_withdrawal user id st = (Success tt, st') /\
    balance_of user st' =
      Some (to_column 4 (dec_add (balance_usd p) (float_str (w_amount w)))) /\
    (w_status <$> withdrawals st' !! id) = Some REJECTED.
Proof.
  intros Hw Hu Hs Hc Hp. unfold user_decline_withdrawal. rewrite Hw, Hu, Hs, Hc, Hp.
  rewrite !bool_decide_eq_true_2 by reflexivity. cbn [andb].
  eexists. split; [reflexivity|].
  destruct (w_merchant w); unfold balance_of;
    cbn [portfolios withdrawals notify set_withdrawals set_portfolios];
    rewrite !lookup_insert_eq; split; reflexivity.
Qed.

(* ===================================================================== *)
(** ** Re-entry                                                           *)
(* ===================================================================== *)

(** The status filter of the first query turns a second settlement of the
    same record into a no-op. *)
Lemma process_swap_closed swap_id force now st sr :
  swaps st !! swap_id = Some sr ->
  swap_is_open (s_status sr) = false ->
  process_swap swap_id force now st = (SwapNotFound, st).
Proof. intros Hsw Hc. unfold process_swap. rewrite Hsw, Hc. reflexivity. Qed.

Lemma process_swap_twice swap_id force now force' now' st st' :
  process_swap swap_id force now st = (SwapCompleted, st') ->
  process_swap swap_id force' now' st' = (SwapNotFound, st').
Proof.
  unfold process_swap at 1. intros H.
  repeat case_match; try discriminate. injection H as <-.
  eapply process_swap_closed.
  - cbn [swaps notify add_trades set_portfolios set_swaps].
    erewrite lookup_alter_same; [reflexivity|].
    erewrite lookup_alter_same; [reflexivity|]. eassumption.
  - reflexivity.
Qed.

Lemma process_deposit_closed id st deposit :
  deposits st !! id = Some deposit ->
  d_status deposit <> PENDING ->
  process_deposit id st = (ProcessorError "Deposit not found or already processed", st).
Proof.
  intros Hd Hs. unfold process_deposit. rewrite Hd.
  rewrite bool_decide_eq_false_2 by exact Hs. reflexivity.
Qed.

Lemma process_deposit_twice id st new_balance st' :
  process_deposit id st = (Processed new_balance, st') ->
  process_deposit id st' = (ProcessorError "Deposit not found or already processed", st').
Proof.
  unfold process_deposit at 1. intros H.
  destruct (deposits st !! id) as [deposit|] eqn:Hd; [|discriminate].
  destruct (bool_decide (d_status deposit = PENDING)); [|discriminate].
  set (self := with_deposit_status deposit APPROVED (merchant_action_required deposit)) in *.
  pose proof (Deposit_save_deposits id self st) as Hdep.
  destruct (Deposit_save (Some id) self st) as [i w]. cbn [snd] in Hdep.
  destruct (portfolios w !! d_user deposit); [|discriminate].
  injection H as _ <-.
  apply (process_deposit_closed id _ self).
  - match goal with |- context [if ?b then _ else _] => destruct b end;
      cbn [deposits notify set_portfolios]; rewrite Hdep; apply lookup_insert_eq.
  - discriminate.
Qed.

(* ===================================================================== *)
(** ** Properties of the settlement engine                                *)
(* ===================================================================== *)

(** C1.  Settlement of an open swap that is due or forced computes
    [to_amount = from_amount * from_price / original_to_asset_price] and
    [swap_back_amount = to_amount * latest_to_price / back_price], adds
    [swap_back_amount] to the requester's balance and to no other, records
    the four trade legs (sell source, buy destination at the creation price,
    sell destination at the current price, buy the return asset), stamps
    the swap COMPLETED with the settlement time, and notifies the requester
    of the signed profit or loss.  For 100 units bought at 2.00 and settled
    at 2.2 with source and return prices at 1.0, the destination amount is
    50, the returned amount 110 and the profit +10. *)
Theorem process_swap_settlement :
  (forall swap_id force now st sr from_row back_id back_row to_row portfolio,
     swaps st !! swap_id = Some sr ->
     swap_is_open (s_status sr) = true ->
     force = true \/ swap_time sr <= now ->
     assets st !! from_asset sr = Some from_row ->
     swap_back_asset sr = Some back_id ->
     assets st !! back_id = Some back_row ->
     assets st !! to_asset sr = Some to_row ->
     portfolios st !! s_user sr = Some portfolio ->
     dec_int (original_to_asset_price sr) <> 0 ->
     dec_int (float_str (price_usd back_row)) <> 0 ->
     let from_amount := float_str (swap_amount sr) in
     let from_price := float_str (price_usd from_row) in
     let back_price := float_str (price_usd back_row) in
     let latest_to_price := float_str (price_usd to_row) in
     exists to_amount swap_back pct st',
       swap_to_amount from_amount from_price (original_to_asset_price sr) = Some to_amount /\
       swap_back_of to_amount latest_to_price back_price = Some swap_back /\
       profit_loss_percentage_of (dec_sub swap_back from_amount) from_amount = Some pct /\
       process_swap swap_id force now st = (SwapCompleted, st') /\
       swaps st' !! swap_id = Some (completed_swap swap_back now sr) /\
       s_status (completed_swap swap_back now sr) = COMPLETED /\
       portfolios st' !! s_user sr =
         Some (save_balance portfolio (dec_add (balance_usd portfolio) swap_back)) /\
       (forall u, u <> s_user sr -> portfolios st' !! u = portfolios st !! u) /\
       trades st' =
         trades st ++
         [ mkTrade (s_user sr) (from_asset sr) SELL (float_ from_amount) (float_ from_price);
           mkTrade (s_user sr) (to_asset sr) BUY (float_ to_amount)
                   (float_ (original_to_asset_price sr));
           mkTrade (s_user sr) (to_asset sr) SELL (float_ to_amount)
                   (float_ latest_to_price);
           mkTrade (s_user sr) back_id BUY (float_ swap_back) (float_ back_price) ] /\
       notifications st' =
         notifications st ++
         [ mkNotification (s_user sr) (swap_message from_amount swap_back pct);
           mkNotification (s_user sr)
             (Text "Your portfolio balance has been updated after the swap.") ]) /\
  (exists to_amount swap_back,
     swap_to_amount scenario_amount scenario_flat_price scenario_original_price
       = Some to_amount /\
     (value to_amount == 50)%Q /\
     swap_back_of to_amount scenario_latest_price scenario_flat_price = Some swap_back /\
     (value swap_back == 110)%Q /\
     (value (dec_sub swap_back scenario_amount) == 10)%Q /\
     dec_ltb dec_zero (dec_sub swap_back scenario_amount) = true).
Proof.
  split.
  - intros swap_id force now st sr from_row back_id back_row to_row portfolio
           Hsw Hopen Hdue Hfrom Hback Hbrow Hto Hport Ho Hb.
    destruct (process_swap_completes swap_id force now st sr from_row back_id back_row
                to_row portfolio Hsw Hopen Hdue Hfrom Hback Hbrow Hto Hport Ho Hb)
      as (to_amount & swap_back & pct & st' & H1 & H2 & H3 & H4 & H5 & H6 & H7 & H8 & H9).
    exists to_amount, swap_back, pct, st'.
    repeat (split; [assumption || reflexivity|]). assumption.
  - exists (mkDecimal 5 1), (mkDecimal 11 1).
    repeat split; vm_compute; reflexivity.
Qed.

(** C2.  A merchant-mediated deposit of base amount B: at creation the fee
    [B * 0.035] and the total [B + fee] are computed, quoted in the response
    and written to the fee annotation, and no balance moves (for amounts of
    up to 24 digits the fee is exactly 0.035 B and the total 1.035 B).  On
    the merchant's approval the base amount of the annotation is taken from
    the merchant's balance, the record becomes APPROVED, and the same amount
    is added to the depositor's balance; when no referral bonus is due these
    are the only balances that change.  On the merchant's decline the record
    becomes REJECTED and no balance changes.  For B = 1000 the fee is 35 and
    the total 1035. *)
Theorem merchant_deposit_fee_and_settlement :
  (forall user data st B merchant_id app mp,
     user_is_frozen user st = false ->
     df_amount data = Given B ->
     df_method data = Some "BANK_TRANSFER"%string ->
     df_merchant_id data = Some merchant_id ->
     merchant_applications st !! merchant_id = Some app ->
     ma_status app = APPROVED ->
     portfolios st !! ma_user app = Some mp ->
     is_merchant mp = true ->
     transaction_id_taken (default ""%string (df_transaction_id data)) st = false ->
     let fee := dec_mul B Decimal_0_035 in
     let total := dec_add B fee in
     let id := fresh_id (deposits st) in
     (exists st',
        deposit_funds user data st =
          (Success (mkDepositCreated id
                      (Some (mkDepositQuote (float_ total) (float_ B) (float_ fee)))), st') /\
        deposits st' !! id =
          Some (mkDeposit user (float_ B) PENDING "BANK_TRANSFER"
                  (default ""%string (df_transaction_id data)) (Some (ma_user app)) true
                  (Some (mkDepositFeeInfo (PyFloat (mkDecimal 35 (-1)))
                           (float_ fee) (float_ total) (float_ B)))) /\
        portfolios st' = portfolios st) /\
     (Z.abs (dec_int B) < 10 ^ 24 ->
        (value fee == (35 # 1000) * value B)%Q /\
        (value total == (1035 # 1000) * value B)%Q)) /\
  (forall merchant deposit_id st deposit mp up,
     deposits st !! deposit_id = Some deposit ->
     d_merchant deposit = Some merchant ->
     d_status deposit = PENDING ->
     merchant_action_required deposit = true ->
     portfolios st !! merchant = Some mp ->
     dec_ltb (balance_usd mp) (deposit_base_amount deposit) = false ->
     portfolios st !! d_user deposit = Some up ->
     let B := deposit_base_amount deposit in
     let st1 :=
       set_portfolios (insert merchant (save_balance mp (dec_sub (balance_usd mp) B))) st in
     let st2 :=
       (Deposit_save (Some deposit_id) (with_deposit_status deposit APPROVED false) st1).2 in
     exists up2 st',
       merchant_approve_deposit merchant deposit_id st = (Success tt, st') /\
       deposits st' !! deposit_id = Some (with_deposit_status deposit APPROVED false) /\
       portfolios st2 !! d_user deposit = Some up2 /\
       portfolios st' =
         <[d_user deposit := save_balance up2 (dec_add (balance_usd up2) B)]>
           (portfolios st2) /\
       (merchant <> d_user deposit -> no_bonus_due (d_user deposit) st ->
          balance_of merchant st' = Some (to_column 4 (dec_sub (balance_usd mp) B)) /\
          balance_of (d_user deposit) st' = Some (to_column 4 (dec_add (balance_usd up) B)) /\
          (forall v, v <> merchant -> v <> d_user deposit ->
                     balance_of v st' = balance_of v st))) /\
  (forall merchant deposit_id st deposit,
     deposits st !! deposit_id = Some deposit ->
     d_merchant deposit = Some merchant ->
     d_status deposit = PENDING ->
     merchant_action_required deposit = true ->
     exists st',
       merchant_decline_deposit merchant deposit_id st = (Success tt, st') /\
       deposits st' !! deposit_id = Some (with_deposit_status deposit REJECTED false) /\
       portfolios st' = portfolios st) /\
  ((value (dec_mul (mkDecimal 1000 0) Decimal_0_035) == 35)%Q /\
   (value (dec_add (mkDecimal 1000 0) (dec_mul (mkDecimal 1000 0) Decimal_0_035)) == 1035)%Q).
Proof.
  split; [|split; [|split]].
  - intros user data st B merchant_id app mp Hfr Ha Hm Hmid Happ Hst Hmp Him Htx fee total id.
    split.
    + apply (deposit_funds_quotes_fee user data st B merchant_id app mp); assumption.
    + intros HB. apply deposit_fee_exact. exact HB.
  - intros merchant deposit_id st deposit mp up Hd Hm Hs Hmar Hmp Hbal Hup B st1 st2.
    destruct (merchant_approve_deposit_moves_base merchant deposit_id st deposit mp
                Hd Hm Hs Hmar Hmp Hbal ltac:(eauto)) as (up2 & st' & H1 & H2 & H3 & H4).
    exists up2, st'. repeat (split; [assumption|]).
    intros Hne Hq.
    pose proof (merchant_approve_deposit_balances merchant deposit_id st deposit mp up
                  Hd Hm Hs Hmar Hmp Hbal Hup Hne Hq) as Hb.
    cbn zeta in Hb. rewrite H2 in Hb. exact Hb.
  - intros merchant deposit_id st deposit Hd Hm Hs Hmar.
    apply merchant_decline_deposit_rejects; assumption.
  - split; vm_compute; reflexivity.
Qed.

(** C4.  The referral bonus is paid at most once per referred user.  When a
    deposit of a referred user whose edge has [has_funded_wallet = False]
    turns APPROVED, the flag is set, the referrer's balance grows by
    [amount * 0.15] (exactly 15% of the deposit's amount for a float amount)
    and no other balance moves; once the flag is set, saving a deposit of
    that user changes no balance; along any run of the operations embedded
    here ([op]) a set flag stays set and no further bonus is issued for that user, so that a user
    who starts with no bonus, or with a set flag and one bonus, never has
    more than one. *)
Theorem referral_bonus_paid_once :
  (forall st id old self up aff rp,
     deposits st !! id = Some old -> d_status old <> APPROVED ->
     d_status self = APPROVED ->
     portfolios st !! d_user self = Some up ->
     affiliates st !! d_user self = Some aff -> has_funded_wallet aff = false ->
     portfolios st !! referrer aff = Some rp ->
     let st' := (Deposit_save (Some id) self st).2 in
     let bonus := dec_mul (float_str (d_amount self)) Decimal_0_15 in
     funded (d_user self) st' = true /\
     balance_of (referrer aff) st' = Some (to_column 4 (dec_add (balance_usd rp) bonus)) /\
     (forall v, v <> referrer aff -> balance_of v st' = balance_of v st) /\
     bonus_count (d_user self) st' = S (bonus_count (d_user self) st) /\
     (Z.abs (dec_int (float_str (d_amount self))) < 10 ^ 17 ->
        (value bonus == (15 # 100) * value (float_str (d_amount self)))%Q)) /\
  (forall st pk self v,
     funded (d_user self) st = true ->
     balance_of v (Deposit_save pk self st).2 = balance_of v st) /\
  (forall ops st u,
     funded u st = true ->
     funded u (run ops st) = true /\
     (bonus_count u (run ops st) <= bonus_count u st)%nat) /\
  (forall ops st u,
     (bonus_count u st <= funded_bit u st)%nat ->
     (bonus_count u (run ops st) <= 1)%nat).
Proof.
  split; [|split; [|split]].
  - intros st id old self up aff rp Hd Hold Hnew Hup Haff Hflag Hrp st' bonus.
    assert (Hsave : st' = _process_referral_bonus self (set_deposits (insert id self) st)).
    { subst st'. unfold Deposit_save. rewrite Hd. cbn [snd].
      rewrite (bool_decide_eq_false_2 _ Hold), (bool_decide_eq_true_2 _ Hnew). reflexivity. }
    set (st1 := set_deposits (insert id self) st) in *.
    destruct (process_referral_bonus_first self st1 up aff rp Hup Haff Hflag Hrp)
      as (H1 & H2 & H3).
    rewrite Hsave. split; [exact H1|]. split; [exact H2|]. split; [|split; [exact H3|]].
    + intros v Hv. apply (process_referral_bonus_others self st1 aff v Haff Hv).
    + intros Hdig. subst bonus. rewrite dec_mul_exact.
      * setoid_replace (value Decimal_0_15) with (15 # 100)%Q using relation Qeq
          by reflexivity. ring.
      * assert (H28 : 10 ^ prec = 10 ^ 17 * 100000000000) by reflexivity.
        cbn [dec_int Decimal_0_15]. lia.
  - intros st pk self v Hf. apply Deposit_save_funded. exact Hf.
  - intros ops st u Hf. destruct (run_bonus_step ops st u) as [Hm Hc].
    specialize (Hm Hf). split; [exact Hm|].
    unfold funded_bit in Hc. rewrite Hf, Hm in Hc. lia.
  - intros ops st u H0. destruct (run_bonus_step ops st u) as [_ Hc].
    unfold funded_bit in *. destruct (funded u (run ops st)), (funded u st); lia.
Qed.

(** C8.  For a swap with a positive amount and positive prices, a source
    price equal to the return price, a settlement price printed from a float
    (at most 17 digits) and a creation price read from its 20-digit column:
    both quotients of the settlement exist; if the destination price at
    settlement is above [original_to_asset_price] the returned amount is
    above the source amount and [profit_loss] is positive; if it is below,
    the returned amount is below the source amount and [profit_loss] is
    negative. *)
Theorem swap_profit_follows_price
    (from_amount from_price back_price original_to_price latest_to_price : Decimal) :
  0 < dec_int from_amount -> 0 < dec_int from_price ->
  0 < dec_int original_to_price -> 0 < dec_int latest_to_price ->
  back_price = from_price ->
  dec_int original_to_price < 10 ^ 20 ->
  dec_int latest_to_price < 10 ^ 17 ->
  exists to_amount swap_back,
    swap_to_amount from_amount from_price original_to_price = Some to_amount /\
    swap_back_of to_amount latest_to_price back_price = Some swap_back /\
    (dec_ltb original_to_price latest_to_price = true ->
       dec_ltb from_amount swap_back = true /\
       dec_ltb dec_zero (dec_sub swap_back from_amount) = true) /\
    (dec_ltb latest_to_price original_to_price = true ->
       dec_ltb swap_back from_amount = true /\
       dec_ltb (dec_sub swap_back from_amount) dec_zero = true).
Proof.
  intros Ha Hp Ho Hl -> Do Dl.
  destruct (swap_amounts_bounds from_amount from_price original_to_price latest_to_price
              from_price Ha Hp Ho Hl Hp) as (t & r & Et & Er & Ht & Hr & Hlow & Hup).
  exists t, r. split; [exact Et|]. split; [exact Er|].
  assert (Dl' : dec_int latest_to_price < 10 ^ 20).
  { assert (10 ^ 17 < 10 ^ 20) by reflexivity. lia. }
  split; intros Hlt.
  - assert (Hgt : dec_ltb from_amount r = true).
    { apply dec_ltb_value. apply dec_ltb_value in Hlt.
      eapply (swap_back_above from_amount from_price original_to_price latest_to_price
                from_price r); try assumption; try reflexivity.
      apply price_gap; assumption. }
    split; [assumption|]. rewrite dec_sub_pos. assumption.
  - assert (Hgt : dec_ltb r from_amount = true).
    { apply dec_ltb_value. apply dec_ltb_value in Hlt.
      eapply (swap_back_below from_amount from_price original_to_price latest_to_price
                from_price r); try assumption; try reflexivity.
      apply price_gap; assumption. }
    split; [assumption|]. rewrite dec_sub_neg. assumption.
Qed.

(** C10.  [swap_tokens] turns down every request whose destination asset is
    its source asset, leaving the state as it was (so no swap row is created
    and no balance changes); and every swap it creates has a source and a
    return asset with symbol USDT and a destination asset that is another
    row, whose symbol is therefore not USDT. *)
Theorem swap_tokens_rejects_same_asset :
  (forall user data now st a,
     sf_from_asset data = Given a -> sf_to_asset data = Given a ->
     exists code msg, swap_tokens user data now st = (Failure code msg, st)) /\
  (forall user data now st c st',
     swap_tokens user data now st = (Success c, st') ->
     exists sr from_row to_row back_id back_row,
       swaps st' !! swap_id c = Some sr /\
       s_user sr = user /\ s_status sr = PENDING /\
       from_asset sr <> to_asset sr /\
       assets st !! from_asset sr = Some from_row /\ symbol from_row = "USDT"%string /\
       swap_back_asset sr = Some back_id /\
       assets st !! back_id = Some back_row /\ symbol back_row = "USDT"%string /\
       assets st !! to_asset sr = Some to_row /\
       (unique_symbols st -> symbol to_row <> "USDT"%string)).
Proof.
  split.
  - intros user data now st a Hf Ht. apply (swap_tokens_same_asset user data now st a Hf Ht).
  - intros user data now st c st' H. apply (swap_tokens_created user data now st c st' H).
Qed.

(* ===================================================================== *)
(** ** Completion, rejection and cancellation paths                       *)
(* ===================================================================== *)

(** The next AutoField value is not a key of the table. *)
Lemma fresh_id_above {A} (m : gmap nat A) k :
  is_Some (m !! k) -> (k < fresh_id m)%nat.
Proof.
  unfold fresh_id. revert k.
  apply (map_fold_weak_ind
           (fun r (m : gmap nat A) => forall k, is_Some (m !! k) -> (k < S r)%nat)).
  - intros k [x Hx]. rewrite lookup_empty in Hx. discriminate.
  - intros i x m' r Hi IH k Hk.
    destruct (decide (i = k)) as [->|Hne]; [lia|].
    rewrite lookup_insert_ne in Hk by exact Hne. specialize (IH k Hk). lia.
Qed.

Lemma fresh_id_fresh {A} (m : gmap nat A) : m !! fresh_id m = None.
Proof.
  destruct (m !! fresh_id m) eqn:E; [|reflexivity].
  pose proof (fresh_id_above m (fresh_id m) (ex_intro _ _ E)). lia.
Qed.

(** What withdraw_funds writes for a P2P (bank) withdrawal. *)
Lemma withdraw_funds_bank user form st amount merchant_id app sp mp an acn bn :
  user_is_frozen user st = false ->
  wf_amount form = Some amount -> wf_method form = Some "BANK"%string ->
  dec_leb amount dec_zero = false ->
  portfolios st !! user = Some sp ->
  dec_ltb (balance_usd sp) amount = false ->
  wf_account_name form = Some an -> wf_account_number form = Some acn ->
  wf_bank_name form = Some bn ->
  wf_merchant_id form = Some merchant_id ->
  merchant_applications st !! merchant_id = Some app -> ma_status app = APPROVED ->
  portfolios st !! ma_user app = Some mp ->
  let id := fresh_id (withdrawals st) in
  let w :=
    mkWithdrawal user (float_ amount) PENDING "BANK" (Some (ma_user app)) true
      (Some (mkWithdrawalFeeInfo (PyFloat (mkDecimal 35 (-1)))
               (float_ (dec_mul amount Decimal_0_05))
               (float_ (dec_sub amount (dec_mul amount Decimal_0_05)))
               (float_ amount))) in
  exists st1,
    withdraw_funds user form st = (Success (WithdrawalCreated id), st1) /\
    withdrawals st1 = <[id := w]> (withdrawals st) /\
    portfolios st1 =
      <[user := save_balance sp (dec_sub (balance_usd sp) amount)]>
        (if is_merchant mp then portfolios st
         else <[ma_user app := with_is_merchant mp true]> (portfolios st)) /\
    swaps st1 = swaps st /\ deposits st1 = deposits st.
Proof.
  intros Hfz Ha Hm Hpos Hsp Hbal Han Hacn Hbn Hmid Happ Hst Hmp id w.
  unfold withdraw_funds. rewrite Hfz, Ha, Hm, Hpos, Hsp, Hbal.
  rewrite bool_decide_eq_true_2 by reflexivity.
  rewrite Han, Hacn, Hbn, Hmid, Happ. unfold is_approved_application.
  rewrite (bool_decide_eq_true_2 _ Hst), Hmp.
  destruct (is_merchant mp); eexists; (split; [reflexivity|]); repeat split; reflexivity.
Qed.

(** What user_confirm_withdrawal writes for a pending P2P withdrawal. *)
Lemma user_confirm_withdrawal_credits user id st w m mp :
  withdrawals st !! id = Some w -> w_user w = user -> w_status w = PENDING ->
  user_confirmation_required w = true ->
  w_merchant w = Some m -> portfolios st !! m = Some mp ->
  exists st',
    user_confirm_withdrawal user id st = (Success tt, st') /\
    portfolios st' =
      <[m := save_balance mp (dec_add (balance_usd mp) (withdrawal_total_amount w))]>
        (portfolios st) /\
    withdrawals st' = <[id := with_withdrawal_status w COMPLETED false]> (withdrawals st).
Proof.
  intros Hw Hu Hs Hc Hm Hmp. unfold user_confirm_withdrawal.
  rewrite Hw, (bool_decide_eq_true_2 _ Hu), (bool_decide_eq_true_2 _ Hs), Hc, Hm, Hmp.
  cbn [andb]. eexists. repeat split; reflexivity.
Qed.

(** X1.  A P2P (bank) withdrawal that the user confirms.  withdraw_funds
    takes the whole amount from the user's balance and records a PENDING
    withdrawal for the chosen merchant; user_confirm_withdrawal then marks it
    COMPLETED and credits the merchant with the amount recorded in the notes,
    which is the whole amount again (as the float prints): the 5% fee quoted
    to the user is not taken out of what the merchant receives.  No other
    balance moves. *)
Theorem p2p_withdrawal_confirmed user form st amount merchant_id app sp mp an acn bn :
  user_is_frozen user st = false ->
  wf_amount form = Some amount -> wf_method form = Some "BANK"%string ->
  dec_leb amount dec_zero = false ->
  portfolios st !! user = Some sp ->
  dec_ltb (balance_usd sp) amount = false ->
  wf_account_name form = Some an -> wf_account_number form = Some acn ->
  wf_bank_name form = Some bn ->
  wf_merchant_id form = Some merchant_id ->
  merchant_applications st !! merchant_id = Some app -> ma_status app = APPROVED ->
  portfolios st !! ma_user app = Some mp ->
  ma_user app <> user ->
  let id := fresh_id (withdrawals st) in
  exists st1 st2,
    withdraw_funds user form st = (Success (WithdrawalCreated id), st1) /\
    (w_status <$> withdrawals st1 !! id) = Some PENDING /\
    balance_of user st1 = Some (to_column 4 (dec_sub (balance_usd sp) amount)) /\
    balance_of (ma_user app) st1 = Some (balance_usd mp) /\
    user_confirm_withdrawal user id st1 = (Success tt, st2) /\
    (w_status <$> withdrawals st2 !! id) = Some COMPLETED /\
    balance_of user st2 = Some (to_column 4 (dec_sub (balance_usd sp) amount)) /\
    balance_of (ma_user app) st2 =
      Some (to_column 4 (dec_add (balance_usd mp) (float_str (float_ amount)))) /\
    (forall v, v <> user -> v <> ma_user app -> balance_of v st2 = balance_of v st).
Proof.
  intros Hfz Ha Hm Hpos Hsp Hbal Han Hacn Hbn Hmid Happ Hst Hmp Hne id.
  destruct (withdraw_funds_bank user form st amount merchant_id app sp mp an acn bn)
    as (st1 & E1 & W1 & P1 & _); try assumption.
  fold id in E1, W1.
  set (w := mkWithdrawal user (float_ amount) PENDING "BANK" (Some (ma_user app)) true _) in W1.
  assert (Hm1 : exists mp', portfolios st1 !! ma_user app = Some mp' /\
                            balance_usd mp' = balance_usd mp).
  { rewrite P1, lookup_insert_ne by congruence.
    destruct (is_merchant mp).
    - exists mp. split; [exact Hmp | reflexivity].
    - rewrite lookup_insert_eq. eexists. split; reflexivity. }
  destruct Hm1 as (mp' & Hmp' & Eb).
  assert (Hw1 : withdrawals st1 !! id = Some w) by (rewrite W1; apply lookup_insert_eq).
  destruct (user_confirm_withdrawal_credits user id st1 w (ma_user app) mp')
    as (st2 & E2 & P2 & W2); try reflexivity; try assumption.
  exists st1, st2. unfold balance_of.
  split; [exact E1|]. split; [rewrite Hw1; reflexivity|].
  split; [rewrite P1, lookup_insert_eq; reflexivity|].
  split; [rewrite Hmp'; cbn; congruence|].
  split; [exact E2|]. split; [rewrite W2, lookup_insert_eq; reflexivity|].
  split; [rewrite P2, lookup_insert_ne by exact Hne; rewrite P1, lookup_insert_eq; reflexivity|].
  split; [rewrite P2, lookup_insert_eq; cbn; rewrite Eb; reflexivity|].
  intros v Hv1 Hv2.
  rewrite P2, lookup_insert_ne by congruence. rewrite P1, lookup_insert_ne by congruence.
  destruct (is_merchant mp); [reflexivity|]. rewrite lookup_insert_ne by congruence.
  reflexivity.
Qed.

(** X2.  The three ways a pending P2P withdrawal is completed write the same
    balances and the same withdrawal row: the user's confirmation and the
    admin action approve_withdrawals both credit the merchant with the amount
    of the notes, and force_complete_withdrawals, which credits the amount
    of the row, agrees with them whenever the two amounts are the same, as
    they are in a row written by withdraw_funds. *)
Theorem withdrawal_completion_paths_agree id st w m mp :
  withdrawals st !! id = Some w -> w_status w = PENDING ->
  user_confirmation_required w = true ->
  w_method w = "BANK"%string -> w_merchant w = Some m ->
  portfolios st !! m = Some mp ->
  let confirmed := (user_confirm_withdrawal (w_user w) id st).2 in
  let approved := approve_withdrawals [id] st in
  let forced := force_complete_withdrawals [id] st in
  balance_of m confirmed =
    Some (to_column 4 (dec_add (balance_usd mp) (withdrawal_total_amount w))) /\
  (forall v, v <> m -> balance_of v confirmed = balance_of v st) /\
  (w_status <$> withdrawals confirmed !! id) = Some COMPLETED /\
  portfolios approved = portfolios confirmed /\
  withdrawals approved = withdrawals confirmed /\
  (withdrawal_total_amount w = float_str (w_amount w) ->
   portfolios forced = portfolios confirmed /\
   withdrawals forced = withdrawals confirmed).
Proof.
  intros Hw Hs Hc Hmeth Hm Hmp confirmed approved forced.
  destruct (user_confirm_withdrawal_credits (w_user w) id st w m mp)
    as (st' & E & P & W); try reflexivity; try assumption.
  subst confirmed. rewrite E. cbn [snd].
  assert (Pa : portfolios approved =
               <[m := save_balance mp (dec_add (balance_usd mp) (withdrawal_total_amount w))]>
                 (portfolios st) /\
               withdrawals approved =
               <[id := with_withdrawal_status w COMPLETED false]> (withdrawals st)).
  { subst approved. unfold approve_withdrawals. cbn [fold_left].
    unfold approve_withdrawals_one.
    rewrite Hw, (bool_decide_eq_true_2 _ Hs), Hm, (bool_decide_eq_true_2 _ Hmeth), Hmp.
    split; reflexivity. }
  assert (Pf : portfolios forced =
               <[m := save_balance mp (dec_add (balance_usd mp) (float_str (w_amount w)))]>
                 (portfolios st) /\
               withdrawals forced =
               <[id := with_withdrawal_status w COMPLETED false]> (withdrawals st)).
  { subst forced. unfold force_complete_withdrawals. cbn [fold_left].
    unfold force_complete_withdrawals_one.
    rewrite Hw, (bool_decide_eq_true_2 _ Hs), Hc, Hm, (bool_decide_eq_true_2 _ Hmeth), Hmp.
    split; reflexivity. }
  destruct Pa as [Pa Wa], Pf as [Pf Wf]. unfold balance_of.
  split; [rewrite P, lookup_insert_eq; reflexivity|].
  split; [intros v Hv; rewrite P, lookup_insert_ne by congruence; reflexivity|].
  split; [rewrite W, lookup_insert_eq; reflexivity|].
  split; [congruence|]. split; [congruence|].
  intros Et. rewrite Pf, Wf, P, W, Et. split; reflexivity.
Qed.

(* ===================================================================== *)
(** ** Settled rows                                                       *)
(* ===================================================================== *)

Lemma settled_step_refl st : settled_step st st.
Proof. repeat split; intros; assumption. Qed.

Lemma settled_step_trans st1 st2 st3 :
  settled_step st1 st2 -> settled_step st2 st3 -> settled_step st1 st3.
Proof. intros (A1 & B1 & C1) (A2 & B2 & C2). repeat split; intros; eauto. Qed.

Lemma settled_step_same st st' :
  deposits st' = deposits st -> withdrawals st' = withdrawals st ->
  swaps st' = swaps st -> settled_step st st'.
Proof. intros Hd Hw Hs. unfold settled_step. rewrite Hd, Hw, Hs. repeat split; intros; assumption. Qed.

Lemma settled_insert_deposit st i x :
  (forall d, deposits st !! i = Some d -> d_status d = PENDING) ->
  settled_step st (set_deposits (insert i x) st).
Proof.
  intros H. repeat split; cbn; intros j d Hj Hd; try assumption.
  destruct (decide (i = j)) as [->|Hne]; [exfalso; apply Hd, H, Hj|].
  rewrite lookup_insert_ne by exact Hne. exact Hj.
Qed.

Lemma settled_insert_withdrawal st i x :
  (forall w, withdrawals st !! i = Some w -> w_status w = PENDING) ->
  settled_step st (set_withdrawals (insert i x) st).
Proof.
  intros H. repeat split; cbn; intros j d Hj Hd; try assumption.
  destruct (decide (i = j)) as [->|Hne]; [exfalso; apply Hd, H, Hj|].
  rewrite lookup_insert_ne by exact Hne. exact Hj.
Qed.

Lemma settled_insert_swap st i x :
  (forall s, swaps st !! i = Some s -> swap_is_open (s_status s) = true) ->
  settled_step st (set_swaps (insert i x) st).
Proof.
  intros H. repeat split; cbn; intros j d Hj Hd; try assumption.
  destruct (decide (i = j)) as [->|Hne];
    [specialize (H _ Hj); congruence|].
  rewrite lookup_insert_ne by exact Hne. exact Hj.
Qed.

Lemma settled_alter_swap st i f :
  (forall s, swaps st !! i = Some s -> swap_is_open (s_status s) = true) ->
  settled_step st (set_swaps (alter f i) st).
Proof.
  intros H. repeat split; cbn; intros j d Hj Hd; try assumption.
  destruct (decide (i = j)) as [->|Hne];
    [specialize (H _ Hj); congruence|].
  rewrite lookup_alter_other by exact Hne. exact Hj.
Qed.

Lemma process_referral_bonus_tables self st :
  withdrawals (_process_referral_bonus self st) = withdrawals st /\
  swaps (_process_referral_bonus self st) = swaps st /\
  assets (_process_referral_bonus self st) = assets st.
Proof. unfold _process_referral_bonus. repeat case_match; repeat split; reflexivity. Qed.

Lemma settled_Deposit_save pk self st n w :
  Deposit_save pk self st = (n, w) ->
  (forall id, pk = Some id ->
     forall d, deposits st !! id = Some d -> d_status d = PENDING) ->
  settled_step st w.
Proof.
  intros E H. apply (f_equal snd) in E. cbn [snd] in E. subst w.
  unfold Deposit_save. cbn [snd].
  set (id := match pk with Some id => id | None => fresh_id (deposits st) end).
  assert (S1 : settled_step st (set_deposits (insert id self) st)).
  { apply settled_insert_deposit. intros d Hd. destruct pk as [i|]; subst id.
    - exact (H i eq_refl d Hd).
    - rewrite fresh_id_fresh in Hd. discriminate. }
  case_match; [|exact S1].
  eapply settled_step_trans; [exact S1|].
  apply settled_step_same;
    [apply process_referral_bonus_deposits | apply process_referral_bonus_tables ..].
Qed.

(** Conditions of a guard, one by one. *)
Ltac split_guard :=
  repeat match goal with
         | H : _ && _ = true |- _ => apply andb_prop in H; destruct H
         | H : bool_decide _ = true |- _ => apply bool_decide_eq_true_1 in H
         | H : negb _ = false |- _ => apply negb_false_iff in H
         end.

(** The row written was pending (or open), or its key is new. *)
Ltac was_pending :=
  let d := fresh "d" in
  let Hd := fresh "Hd" in
  intros d Hd;
  cbn [deposits withdrawals swaps set_portfolios set_deposits set_withdrawals set_swaps
       set_affiliates set_assets add_trades notify] in Hd;
  first
    [ rewrite fresh_id_fresh in Hd; discriminate
    | match goal with
      | H : ?m !! ?i = Some ?x, Hd : alter ?f ?i ?m !! ?i = Some _ |- _ =>
          rewrite (lookup_alter_same f m i x H) in Hd; injection Hd as <-; reflexivity
      end
    | unfold swap_is_open; split_guard;
      repeat match goal with
             | H : ?m !! ?i = Some ?x, Hd : ?m !! ?i = Some _ |- _ =>
                 rewrite H in Hd; injection Hd as <-
             end;
      first [ assumption
            | match goal with H : ?s = _ |- context [?s] => rewrite H; reflexivity end ] ].

Ltac settled :=
  lazymatch goal with
  | |- settled_step ?s ?s => apply settled_step_refl
  | |- settled_step ?s (notify _ _ ?x) =>
      apply (settled_step_trans s x); [settled | apply settled_step_same; reflexivity]
  | |- settled_step ?s (add_trades _ ?x) =>
      apply (settled_step_trans s x); [settled | apply settled_step_same; reflexivity]
  | |- settled_step ?s (set_portfolios _ ?x) =>
      apply (settled_step_trans s x); [settled | apply settled_step_same; reflexivity]
  | |- settled_step ?s (set_affiliates _ ?x) =>
      apply (settled_step_trans s x); [settled | apply settled_step_same; reflexivity]
  | |- settled_step ?s (set_assets _ ?x) =>
      apply (settled_step_trans s x); [settled | apply settled_step_same; reflexivity]
  | |- settled_step ?s (set_deposits (insert _ _) ?x) =>
      apply (settled_step_trans s x); [settled | apply settled_insert_deposit; was_pending]
  | |- settled_step ?s (set_withdrawals (insert _ _) ?x) =>
      apply (settled_step_trans s x); [settled | apply settled_insert_withdrawal; was_pending]
  | |- settled_step ?s (set_swaps (insert _ _) ?x) =>
      apply (settled_step_trans s x); [settled | apply settled_insert_swap; was_pending]
  | |- settled_step ?s (set_swaps (alter _ _) ?x) =>
      apply (settled_step_trans s x); [settled | apply settled_alter_swap; was_pending]
  | H : Deposit_save ?pk ?self ?x = (_, ?w) |- settled_step ?s ?w =>
      apply (settled_step_trans s x);
      [settled
      | apply (settled_Deposit_save pk self x _ w H);
        let id := fresh "id" in
        let E := fresh "E" in
        intros id E; first [discriminate E | injection E as <-; was_pending] ]
  end.

Lemma deposit_funds_settled user data st : settled_step st (deposit_funds user data st).2.
Proof. unfold deposit_funds. repeat case_match; cbn [snd]; settled. Qed.

Lemma merchant_approve_deposit_settled user id st :
  settled_step st (merchant_approve_deposit user id st).2.
Proof. unfold merchant_approve_deposit. repeat case_match; cbn [snd]; settled. Qed.

Lemma merchant_decline_deposit_settled user id st :
  settled_step st (merchant_decline_deposit user id st).2.
Proof. unfold merchant_decline_deposit. repeat case_match; cbn [snd]; settled. Qed.

Lemma process_deposit_settled id st : settled_step st (process_deposit id st).2.
Proof. unfold process_deposit. repeat case_match; cbn [snd]; settled. Qed.

Lemma withdraw_funds_settled user form st : settled_step st (withdraw_funds user form st).2.
Proof. unfold withdraw_funds. repeat case_match; cbn [snd]; settled. Qed.

Lemma user_decline_withdrawal_settled user id st :
  settled_step st (user_decline_withdrawal user id st).2.
Proof. unfold user_decline_withdrawal. repeat case_match; cbn [snd]; settled. Qed.

Lemma reject_withdrawal_settled id st : settled_step st (reject_withdrawal id st).2.
Proof. unfold reject_withdrawal. repeat case_match; cbn [snd]; settled. Qed.

Lemma reject_withdrawals_one_settled id st : settled_step st (reject_withdrawals_one id st).
Proof. unfold reject_withdrawals_one. repeat case_match; settled. Qed.

Lemma swap_tokens_settled user data now st : settled_step st (swap_tokens user data now st).2.
Proof. unfold swap_tokens. repeat case_match; cbn [snd]; settled. Qed.

Lemma process_swap_settled id force now st : settled_step st (process_swap id force now st).2.
Proof. unfold process_swap, swap_message. repeat case_match; cbn [snd]; settled. Qed.

Lemma fold_left_settled {A} (f : world -> A -> world) l :
  (forall s a, settled_step s (f s a)) ->
  forall st, settled_step st (fold_left f l st).
Proof.
  intros Hf. induction l as [|a l IH]; intros st; cbn [fold_left].
  - apply settled_step_refl.
  - eapply settled_step_trans; [apply Hf | apply IH].
Qed.

Lemma fold_left_bonus_step {A} (f : world -> A -> world) l :
  (forall s a, bonus_step s (f s a)) ->
  forall st, bonus_step st (fold_left f l st).
Proof.
  intros Hf. induction l as [|a l IH]; intros st; cbn [fold_left].
  - apply bonus_step_refl.
  - eapply bonus_step_trans; [apply Hf | apply IH].
Qed.

Lemma reject_withdrawals_settled queryset st :
  settled_step st (reject_withdrawals queryset st).
Proof. apply fold_left_settled. intros; apply reject_withdrawals_one_settled. Qed.

Lemma step_settled o st : settled_step st (step o st).
Proof.
  destruct o; cbn [step].
  - apply deposit_funds_settled.
  - apply merchant_approve_deposit_settled.
  - apply merchant_decline_deposit_settled.
  - apply process_deposit_settled.
  - apply withdraw_funds_settled.
  - apply user_decline_withdrawal_settled.
  - apply reject_withdrawal_settled.
  - apply reject_withdrawals_settled.
  - apply swap_tokens_settled.
  - apply process_swap_settled.
Qed.

Lemma user_confirm_withdrawal_settled user id st :
  settled_step st (user_confirm_withdrawal user id st).2.
Proof. unfold user_confirm_withdrawal. repeat case_match; cbn [snd]; settled. Qed.

Lemma process_withdrawal_settled id st : settled_step st (process_withdrawal id st).2.
Proof. unfold process_withdrawal. repeat case_match; cbn [snd]; settled. Qed.

Lemma approve_withdrawals_one_settled id st :
  settled_step st (approve_withdrawals_one id st).
Proof. unfold approve_withdrawals_one. repeat case_match; simplify_eq; settled. Qed.

Lemma force_complete_withdrawals_one_settled id st :
  settled_step st (force_complete_withdrawals_one id st).
Proof. unfold force_complete_withdrawals_one. repeat case_match; simplify_eq; settled. Qed.

Lemma approve_deposits_one_settled id st : settled_step st (approve_deposits_one id st).
Proof.
  unfold approve_deposits_one. repeat case_match; simplify_eq;
    try (eapply settled_step_trans; [|apply process_deposit_settled]); settled.
Qed.

Lemma reject_deposits_one_settled id st : settled_step st (reject_deposits_one id st).
Proof. unfold reject_deposits_one. repeat case_match; settled. Qed.

Lemma reject_deposit_settled id st : settled_step st (reject_deposit id st).2.
Proof. unfold reject_deposit. repeat case_match; cbn [snd]; settled. Qed.

Lemma complete_swap_one_settled now id st : settled_step st (complete_swap_one now id st).
Proof.
  unfold complete_swap_one. repeat case_match; try apply settled_step_refl;
    match goal with
    | H : process_swap ?i ?f ?t ?s = (_, ?w) |- _ =>
        let Hs := fresh "Hs" in
        pose proof (process_swap_settled i f t s) as Hs; rewrite H in Hs; cbn [snd] in Hs;
        eapply settled_step_trans; [exact Hs | apply settled_step_same; reflexivity]
    end.
Qed.

Lemma cancel_swap_one_settled id st : settled_step st (cancel_swap_one id st).
Proof. unfold cancel_swap_one. repeat case_match; settled. Qed.

Lemma cancel_swap_admin_settled id st : settled_step st (cancel_swap_admin id st).2.
Proof. unfold cancel_swap_admin. repeat case_match; cbn [snd]; settled. Qed.

Lemma complete_swap_admin_settled id st : settled_step st (complete_swap_admin id st).2.
Proof. unfold complete_swap_admin. repeat case_match; cbn [snd]; settled. Qed.

Lemma auto_process_swaps_one_settled now acc id :
  settled_step acc.2 (auto_process_swaps_one now acc id).2.
Proof.
  destruct acc as [[p f] s]. unfold auto_process_swaps_one. cbn [snd].
  pose proof (process_swap_settled id false (now id) s) as Hs.
  destruct (process_swap id false (now id) s) as [[] w]; cbn [snd] in *;
    first [exact Hs | apply settled_step_refl].
Qed.

Lemma auto_process_swaps_settled t now st :
  settled_step st (auto_process_swaps t now st).2.
Proof.
  unfold auto_process_swaps.
  change st with ((0%nat, 0%nat, st).2) at 1.
  generalize (0%nat, 0%nat, st). generalize (due_swaps t st).
  intros l. induction l as [|a l IH]; intros acc; cbn [fold_left].
  - apply settled_step_refl.
  - eapply settled_step_trans; [apply auto_process_swaps_one_settled | apply IH].
Qed.

Lemma freeze_accounts_one_settled u st : settled_step st (freeze_accounts_one u st).
Proof. unfold freeze_accounts_one. repeat case_match; settled. Qed.

Lemma unfreeze_accounts_one_settled u st : settled_step st (unfreeze_accounts_one u st).
Proof. unfold unfreeze_accounts_one. repeat case_match; settled. Qed.

Lemma toggle_merchant_status_one_settled u st :
  settled_step st (toggle_merchant_status_one u st).
Proof. unfold toggle_merchant_status_one. repeat case_match; settled. Qed.

Lemma create_synthetic_asset_settled u d a st :
  settled_step st (create_synthetic_asset u d a st).2.
Proof.
  unfold create_synthetic_asset. repeat case_match; cbn [snd]; try settled.
  eapply settled_step_trans; [|apply fold_left_settled; intros; settled]. settled.
Qed.

Lemma exec_settled c st : settled_step st (exec c st).
Proof.
  destruct c; cbn [exec].
  - apply step_settled.
  - apply user_confirm_withdrawal_settled.
  - apply process_withdrawal_settled.
  - apply fold_left_settled. intros; apply approve_withdrawals_one_settled.
  - apply fold_left_settled. intros; apply force_complete_withdrawals_one_settled.
  - apply fold_left_settled. intros; apply approve_deposits_one_settled.
  - apply fold_left_settled. intros; apply reject_deposits_one_settled.
  - apply reject_deposit_settled.
  - apply fold_left_settled. intros; apply complete_swap_one_settled.
  - apply fold_left_settled. intros; apply cancel_swap_one_settled.
  - apply cancel_swap_admin_settled.
  - apply complete_swap_admin_settled.
  - apply auto_process_swaps_settled.
  - apply fold_left_settled. intros; apply freeze_accounts_one_settled.
  - apply fold_left_settled. intros; apply unfreeze_accounts_one_settled.
  - apply fold_left_settled. intros; apply toggle_merchant_status_one_settled.
  - apply create_synthetic_asset_settled.
Qed.

Lemma execs_settled cs st : settled_step st (execs cs st).
Proof. apply fold_left_settled. intros; apply exec_settled. Qed.

(* ===================================================================== *)
(** ** The referral bonus along every path                                *)
(* ===================================================================== *)

Lemma user_confirm_withdrawal_step user id st :
  bonus_step st (user_confirm_withdrawal user id st).2.
Proof. unfold user_confirm_withdrawal. repeat case_match; cbn [snd]; frame_step. Qed.

Lemma process_withdrawal_step id st : bonus_step st (process_withdrawal id st).2.
Proof. unfold process_withdrawal. repeat case_match; cbn [snd]; frame_step. Qed.

Lemma approve_withdrawals_one_step id st : bonus_step st (approve_withdrawals_one id st).
Proof. unfold approve_withdrawals_one. repeat case_match; simplify_eq; frame_step. Qed.

Lemma force_complete_withdrawals_one_step id st :
  bonus_step st (force_complete_withdrawals_one id st).
Proof. unfold force_complete_withdrawals_one. repeat case_match; simplify_eq; frame_step. Qed.

Lemma approve_deposits_one_step id st : bonus_step st (approve_deposits_one id st).
Proof.
  unfold approve_deposits_one. repeat case_match; simplify_eq;
    try (eapply bonus_step_trans; [|apply process_deposit_step]); frame_step.
Qed.

Lemma reject_deposits_one_step id st : bonus_step st (reject_deposits_one id st).
Proof. unfold reject_deposits_one. repeat case_match; frame_step. Qed.

Lemma reject_deposit_step id st : bonus_step st (reject_deposit id st).2.
Proof. unfold reject_deposit. repeat case_match; cbn [snd]; through_save. Qed.

Lemma complete_swap_one_step now id st : bonus_step st (complete_swap_one now id st).
Proof.
  unfold complete_swap_one. repeat case_match; try apply bonus_step_refl;
    match goal with
    | H : process_swap ?i ?f ?t ?s = (_, ?w) |- _ =>
        let Hs := fresh "Hs" in
        pose proof (process_swap_step i f t s) as Hs; rewrite H in Hs; cbn [snd] in Hs;
        eapply bonus_step_trans; [exact Hs | frame_step]
    end.
Qed.

Lemma cancel_swap_one_step id st : bonus_step st (cancel_swap_one id st).
Proof. unfold cancel_swap_one. repeat case_match; frame_step. Qed.

Lemma cancel_swap_admin_step id st : bonus_step st (cancel_swap_admin id st).2.
Proof. unfold cancel_swap_admin. repeat case_match; cbn [snd]; frame_step. Qed.

Lemma complete_swap_admin_step id st : bonus_step st (complete_swap_admin id st).2.
Proof. unfold complete_swap_admin. repeat case_match; cbn [snd]; frame_step. Qed.

Lemma auto_process_swaps_one_step now acc id :
  bonus_step acc.2 (auto_process_swaps_one now acc id).2.
Proof.
  destruct acc as [[p f] s]. unfold auto_process_swaps_one. cbn [snd].
  pose proof (process_swap_step id false (now id) s) as Hs.
  destruct (process_swap id false (now id) s) as [[] w]; cbn [snd] in *;
    first [exact Hs | apply bonus_step_refl].
Qed.

Lemma auto_process_swaps_step t now st : bonus_step st (auto_process_swaps t now st).2.
Proof.
  unfold auto_process_swaps.
  change st with ((0%nat, 0%nat, st).2) at 1.
  generalize (0%nat, 0%nat, st). generalize (due_swaps t st).
  intros l. induction l as [|a l IH]; intros acc; cbn [fold_left].
  - apply bonus_step_refl.
  - eapply bonus_step_trans; [apply auto_process_swaps_one_step | apply IH].
Qed.

Lemma freeze_accounts_one_step u st : bonus_step st (freeze_accounts_one u st).
Proof. unfold freeze_accounts_one. repeat case_match; frame_step. Qed.

Lemma unfreeze_accounts_one_step u st : bonus_step st (unfreeze_accounts_one u st).
Proof. unfold unfreeze_accounts_one. repeat case_match; frame_step. Qed.

Lemma toggle_merchant_status_one_step u st :
  bonus_step st (toggle_merchant_status_one u st).
Proof. unfold toggle_merchant_status_one. repeat case_match; frame_step. Qed.

Lemma create_synthetic_asset_step u d a st :
  bonus_step st (create_synthetic_asset u d a st).2.
Proof.
  unfold create_synthetic_asset. repeat case_match; cbn [snd]; try frame_step.
  eapply bonus_step_trans; [|apply fold_left_bonus_step; intros; frame_step]. frame_step.
Qed.

Lemma exec_bonus_step c st : bonus_step st (exec c st).
Proof.
  destruct c; cbn [exec].
  - apply step_bonus_step.
  - apply user_confirm_withdrawal_step.
  - apply process_withdrawal_step.
  - apply fold_left_bonus_step. intros; apply approve_withdrawals_one_step.
  - apply fold_left_bonus_step. intros; apply force_complete_withdrawals_one_step.
  - apply fold_left_bonus_step. intros; apply approve_deposits_one_step.
  - apply fold_left_bonus_step. intros; apply reject_deposits_one_step.
  - apply reject_deposit_step.
  - apply fold_left_bonus_step. intros; apply complete_swap_one_step.
  - apply fold_left_bonus_step. intros; apply cancel_swap_one_step.
  - apply cancel_swap_admin_step.
  - apply complete_swap_admin_step.
  - apply auto_process_swaps_step.
  - apply fold_left_bonus_step. intros; apply freeze_accounts_one_step.
  - apply fold_left_bonus_step. intros; apply unfreeze_accounts_one_step.
  - apply fold_left_bonus_step. intros; apply toggle_merchant_status_one_step.
  - apply create_synthetic_asset_step.
Qed.

Lemma execs_bonus_step cs st : bonus_step st (execs cs st).
Proof. apply fold_left_bonus_step. intros; apply exec_bonus_step. Qed.

(* ===================================================================== *)
(** ** Escrow and refund                                                  *)
(* ===================================================================== *)

(** Taking a positive amount of at most four decimal places out of a balance
    that covers it, and adding it back, is exact on column values. *)
Lemma dec_sub_add_back b a :
  dec_exp b = -4 -> Z.abs (dec_int b) < 10 ^ 20 -> -4 <= dec_exp a ->
  dec_leb a dec_zero = false -> dec_ltb b a = false ->
  0 < dec_int a * 10 ^ (dec_exp a + 4) <= dec_int b /\
  dec_sub b a = mkDecimal (dec_int b - dec_int a * 10 ^ (dec_exp a + 4)) (-4) /\
  dec_exp (dec_sub b a) = -4 /\ Z.abs (dec_int (dec_sub b a)) < 10 ^ 20 /\
  dec_add (dec_sub b a) a = b.
Proof.
  destruct b as [bi be], a as [ai ae]. cbn [dec_int dec_exp]. intros -> Hb Hae Hpos Hcov.
  assert (P28 : 10 ^ 20 < 10 ^ 28) by reflexivity.
  set (k := ae + 4). assert (Hk : 0 <= k) by (subst k; lia).
  pose proof (pow10_pos k Hk) as Pk.
  assert (Hai : 0 < ai).
  { unfold dec_leb, dec_compare, dec_zero in Hpos. cbn [dec_int dec_exp] in Hpos.
    rewrite Z.mul_0_l in Hpos.
    assert (P : 0 < 10 ^ (ae - Z.min ae 0)) by (apply pow10_pos; lia).
    set (Y := 10 ^ (ae - Z.min ae 0)) in *. clearbody Y. clear Hb P28 Pk.
    revert Hpos. destruct (Z.compare_spec (ai * Y) 0) as [E|E|E]; intros; try discriminate.
    destruct (Z.lt_trichotomy ai 0) as [Hn|[Hz|Hp]]; [|subst ai; lia|exact Hp].
    exfalso. pose proof (Z.mul_neg_pos _ _ Hn P). lia. }
  set (X := ai * 10 ^ k).
  assert (HX : 0 < X) by (apply Z.mul_pos_pos; assumption).
  assert (Hcov' : X <= bi).
  { unfold dec_ltb, dec_compare in Hcov. cbn [dec_int dec_exp] in Hcov.
    rewrite Z.min_l in Hcov by lia.
    replace (-4 - -4) with 0 in Hcov by lia. replace (ae - -4) with k in Hcov by (subst k; lia).
    rewrite Z.pow_0_r, Z.mul_1_r in Hcov. fold X in Hcov.
    clearbody X. clear Hb P28 Pk.
    revert Hcov. destruct (Z.compare_spec bi X) as [E|E|E]; intros; try discriminate; lia. }
  assert (Hx : dec_sub (mkDecimal bi (-4)) (mkDecimal ai ae) = mkDecimal (bi - X) (-4)).
  { unfold dec_sub, dec_neg, dec_add. cbn [dec_int dec_exp].
    rewrite Z.min_l by lia.
    replace (-4 - -4) with 0 by lia. replace (ae - -4) with k by (subst k; lia).
    rewrite Z.pow_0_r, Z.mul_1_r.
    replace (bi + - ai * 10 ^ k) with (bi - X) by (subst X; lia).
    apply fix_small. cbn [dec_int]. unfold prec. clearbody X. lia. }
  rewrite Hx. cbn [dec_int dec_exp].
  split; [split; assumption|]. split; [reflexivity|].
  split; [reflexivity|]. split; [clearbody X; lia|].
  unfold dec_add. cbn [dec_int dec_exp]. rewrite Z.min_l by lia.
  replace (-4 - -4) with 0 by lia. replace (ae - -4) with k by (subst k; lia).
  rewrite Z.pow_0_r, Z.mul_1_r. fold X.
  replace (bi - X + X) with bi by lia.
  apply fix_small. cbn [dec_int]. unfold prec. lia.
Qed.

(** What a successful swap_tokens wrote. *)
Lemma swap_tokens_success user data now st c st1 :
  swap_tokens user data now st = (Success c, st1) ->
  exists a p from_id to_id back_id to_row t,
    sf_swap_amount data = Given a /\
    sf_swap_back_time data = Given t /\
    portfolios st !! user = Some p /\
    dec_leb a dec_zero = false /\
    dec_ltb (balance_usd p) a = false /\
    assets st !! to_id = Some to_row /\
    c = mkSwapCreated (fresh_id (swaps st)) t /\
    swaps st1 =
      <[fresh_id (swaps st) :=
          mkSwapRequest user from_id to_id (Some back_id) (float_ a)
            (PyFloat (mkDecimal 0 (-1)))
            (to_column 10 (float_str (price_usd to_row))) t None PENDING]> (swaps st) /\
    portfolios st1 =
      alter (set_balance_field (dec_sub (balance_usd p) a)) user (portfolios st) /\
    deposits st1 = deposits st /\ withdrawals st1 = withdrawals st /\
    assets st1 = assets st.
Proof.
  unfold swap_tokens. intros H.
  repeat case_match; try discriminate; injection H as <- <-;
    eexists _, _, _, _, _, _, _; repeat split; try reflexivity; eassumption.
Qed.

(** What cancel_swap writes for a pending swap of a user with a portfolio. *)
Lemma cancel_swap_one_refunds id st sr p :
  swaps st !! id = Some sr -> s_status sr = PENDING ->
  portfolios st !! s_user sr = Some p ->
  portfolios (cancel_swap_one id st) =
    <[s_user sr := save_balance p (dec_add (balance_usd p) (float_str (swap_amount sr)))]>
      (portfolios st) /\
  swaps (cancel_swap_one id st) = <[id := with_swap_status CANCELLED sr]> (swaps st).
Proof.
  intros Hs Hp Hu. unfold cancel_swap_one.
  rewrite Hs, (bool_decide_eq_true_2 _ Hp), Hu. split; reflexivity.
Qed.

Lemma alter_as_insert {A} (f : A -> A) (m : gmap nat A) i x :
  m !! i = Some x -> alter f i m = <[i := f x]> m.
Proof.
  intros H. apply map_eq. intros j. rewrite lookup_alter, lookup_insert.
  destruct (decide (i = j)) as [->|]; [rewrite H|]; reflexivity.
Qed.

(** X3.  A swap request that is cancelled.  swap_tokens takes the amount out
    of the balance; the admin action cancel_swap marks the swap CANCELLED and
    adds the amount of the row back, and the staff view cancel_swap_admin
    writes the same balances and the same row.  No other balance moves, and
    the cancelled swap can no longer be settled.  When the balance is a column
    value, the amount has at most four decimal places and survives the float
    column, the balance is back to exactly what it was. *)
Theorem swap_cancellation_refunds user data now st c st1 :
  swap_tokens user data now st = (Success c, st1) ->
  exists a b,
    sf_swap_amount data = Given a /\
    balance_of user st = Some b /\
    balance_of user st1 = Some (to_column 4 (dec_sub b a)) /\
    let st2 := cancel_swap [swap_id c] st1 in
    let refunded :=
      to_column 4 (dec_add (to_column 4 (dec_sub b a)) (float_str (float_ a))) in
    (s_status <$> swaps st2 !! swap_id c) = Some CANCELLED /\
    balance_of user st2 = Some refunded /\
    (forall v, v <> user -> balance_of v st2 = balance_of v st) /\
    portfolios (cancel_swap_admin (swap_id c) st1).2 = portfolios st2 /\
    swaps (cancel_swap_admin (swap_id c) st1).2 = swaps st2 /\
    (forall force t, process_swap (swap_id c) force t st2 = (SwapNotFound, st2)) /\
    (dec_exp b = -4 -> Z.abs (dec_int b) < 10 ^ 20 -> -4 <= dec_exp a ->
     float_str (float_ a) = a ->
     (forall z, dec_exp z = -4 -> Z.abs (dec_int z) < 10 ^ 20 -> to_column 4 z = z) ->
     refunded = b).
Proof.
  intros H.
  destruct (swap_tokens_success _ _ _ _ _ _ H)
    as (a & p & from_id & to_id & back_id & to_row & t &
        Ea & Et & Hp & Hpos & Hcov & Hto & -> & S1 & P1 & _).
  cbn [swap_id].
  set (id := fresh_id (swaps st)) in *.
  set (sr := mkSwapRequest user from_id to_id (Some back_id) (float_ a) _ _ t None PENDING) in S1.
  set (p1 := set_balance_field (dec_sub (balance_usd p) a) p).
  assert (Hs1 : swaps st1 !! id = Some sr) by (rewrite S1; apply lookup_insert_eq).
  assert (Hp1 : portfolios st1 !! user = Some p1)
    by (rewrite P1; apply lookup_alter_same; exact Hp).
  destruct (cancel_swap_one_refunds id st1 sr p1 Hs1 eq_refl Hp1) as [P2 S2].
  cbn [s_user sr swap_amount] in P2.
  exists a, (balance_usd p). unfold balance_of.
  split; [exact Ea|]. split; [rewrite Hp; reflexivity|].
  split; [rewrite Hp1; reflexivity|].
  unfold cancel_swap. cbn [fold_left].
  split; [rewrite S2, lookup_insert_eq; reflexivity|].
  split; [rewrite P2, lookup_insert_eq; reflexivity|].
  split.
  { intros v Hv. rewrite P2, lookup_insert_ne by congruence.
    rewrite P1, lookup_alter_other by congruence. reflexivity. }
  assert (Ev : cancel_swap_admin id st1 =
               (Success tt,
                set_portfolios
                  (alter (set_balance_field
                            (dec_add (balance_usd p1) (float_str (swap_amount sr)))) user)
                  (set_swaps (alter (with_swap_status CANCELLED) id) st1))).
  { unfold cancel_swap_admin. rewrite Hs1. cbn [s_status sr s_user].
    rewrite bool_decide_eq_true_2 by reflexivity.
    cbn [portfolios set_swaps]. rewrite Hp1. reflexivity. }
  rewrite Ev. cbn [snd portfolios swaps set_portfolios set_swaps].
  split; [rewrite P2, (alter_as_insert _ _ _ _ Hp1); reflexivity|].
  split; [rewrite S2, (alter_as_insert _ _ _ _ Hs1); reflexivity|].
  split.
  { intros force t'. apply process_swap_closed with (sr := with_swap_status CANCELLED sr).
    - rewrite S2. apply lookup_insert_eq.
    - reflexivity. }
  intros He Hb Hae Hfl Hcol.
  destruct (dec_sub_add_back (balance_usd p) a He Hb Hae Hpos Hcov) as (_ & _ & Ex & Bx & Eback).
  rewrite Hfl. rewrite (Hcol (dec_sub (balance_usd p) a) Ex Bx). rewrite Eback.
  apply Hcol; assumption.
Qed.

(** What withdraw_funds wrote when it answers with a new withdrawal. *)
Lemma withdraw_funds_created user form st id st1 :
  withdraw_funds user form st = (Success (WithdrawalCreated id), st1) ->
  exists a method p w p1,
    wf_amount form = Some a /\ wf_method form = Some method /\
    portfolios st !! user = Some p /\
    dec_leb a dec_zero = false /\ dec_ltb (balance_usd p) a = false /\
    id = fresh_id (withdrawals st) /\
    withdrawals st1 = <[id := w]> (withdrawals st) /\
    w_user w = user /\ w_amount w = float_ a /\ w_status w = PENDING /\
    w_method w = method /\
    user_confirmation_required w = bool_decide (method = "BANK"%string) /\
    portfolios st1 !! user = Some p1 /\
    balance_usd p1 = to_column 4 (dec_sub (balance_usd p) a) /\
    (forall v, v <> user -> balance_of v st1 = balance_of v st).
Proof.
  unfold withdraw_funds. intros H.
  repeat case_match; try discriminate; injection H as <- <-;
    repeat match goal with
           | H : bool_decide (_ = "BANK"%string) = true |- _ =>
               apply bool_decide_eq_true_1 in H; subst
           end;
    eexists _, _, _, _, _;
    cbn [portfolios withdrawals set_portfolios set_withdrawals notify];
    repeat (split; [solve [ reflexivity | eassumption | symmetry; eassumption
                          | apply lookup_insert_eq
                          | apply lookup_alter_same; eassumption ] |]);
    intros v Hv; unfold balance_of;
    cbn [portfolios set_portfolios set_withdrawals notify];
    rewrite ?lookup_insert_ne, ?lookup_alter_other by congruence; try reflexivity.
  rewrite lookup_insert. case_decide; [subst v|reflexivity].
  match goal with H : portfolios st !! ma_user _ = Some _ |- _ => rewrite H end.
  reflexivity.
Qed.

(** X4.  A withdrawal request that is refunded.  withdraw_funds takes the
    amount out of the balance and leaves a PENDING withdrawal.  The admin
    action reject_withdrawals marks it REJECTED and adds the amount of the
    row back; for a P2P (bank) withdrawal the user's own
    user_decline_withdrawal writes the same balances and the same row, and
    for any other method it refuses and changes nothing.  No other balance
    moves.  When the balance is a column value, the amount has at most four
    decimal places and survives the float column, the balance is back to
    exactly what it was. *)
Theorem withdrawal_refund_restores_balance user form st id st1 :
  withdraw_funds user form st = (Success (WithdrawalCreated id), st1) ->
  exists a b,
    wf_amount form = Some a /\
    balance_of user st = Some b /\
    balance_of user st1 = Some (to_column 4 (dec_sub b a)) /\
    (w_status <$> withdrawals st1 !! id) = Some PENDING /\
    let refunded :=
      to_column 4 (dec_add (to_column 4 (dec_sub b a)) (float_str (float_ a))) in
    let rejected := reject_withdrawals [id] st1 in
    let declined := (user_decline_withdrawal user id st1).2 in
    balance_of user rejected = Some refunded /\
    (w_status <$> withdrawals rejected !! id) = Some REJECTED /\
    (forall v, v <> user -> balance_of v rejected = balance_of v st) /\
    (wf_method form = Some "BANK"%string ->
       portfolios declined = portfolios rejected /\
       withdrawals declined = withdrawals rejected) /\
    (wf_method form <> Some "BANK"%string -> declined = st1) /\
    (dec_exp b = -4 -> Z.abs (dec_int b) < 10 ^ 20 -> -4 <= dec_exp a ->
     float_str (float_ a) = a ->
     (forall z, dec_exp z = -4 -> Z.abs (dec_int z) < 10 ^ 20 -> to_column 4 z = z) ->
     refunded = b).
Proof.
  intros H.
  destruct (withdraw_funds_created _ _ _ _ _ H)
    as (a & method & p & w & p1 & Ea & Em & Hp & Hpos & Hcov & -> & W1 & Hwu & Hwa & Hws
        & Hwm & Hucr & Hp1 & Eb1 & Hothers).
  set (id := fresh_id (withdrawals st)) in *.
  assert (Hw1 : withdrawals st1 !! id = Some w) by (rewrite W1; apply lookup_insert_eq).
  assert (R : portfolios (reject_withdrawals_one id st1) =
              <[user := save_balance p1 (dec_add (balance_usd p1) (float_str (w_amount w)))]>
                (portfolios st1) /\
              withdrawals (reject_withdrawals_one id st1) =
              <[id := with_withdrawal_status w REJECTED false]> (withdrawals st1)).
  { unfold reject_withdrawals_one. rewrite Hw1, (bool_decide_eq_true_2 _ Hws), Hwu, Hp1.
    split; reflexivity. }
  destruct R as [PR WR].
  exists a, (balance_usd p). unfold balance_of, reject_withdrawals. cbn [fold_left].
  split; [exact Ea|]. split; [rewrite Hp; reflexivity|].
  split; [rewrite Hp1; cbn; rewrite Eb1; reflexivity|].
  split; [rewrite Hw1; cbn; rewrite Hws; reflexivity|].
  split; [rewrite PR, lookup_insert_eq; cbn; rewrite Eb1, Hwa; reflexivity|].
  split; [rewrite WR, lookup_insert_eq; reflexivity|].
  split.
  { intros v Hv. rewrite PR, lookup_insert_ne by congruence. apply (Hothers v Hv). }
  split.
  { intros Hbank. rewrite Em in Hbank. injection Hbank as ->.
    rewrite bool_decide_eq_true_2 in Hucr by reflexivity.
    unfold user_decline_withdrawal.
    rewrite Hw1, (bool_decide_eq_true_2 _ Hwu), (bool_decide_eq_true_2 _ Hws), Hucr, Hp1.
    cbn [andb snd]. rewrite PR, WR. destruct (w_merchant w); split; reflexivity. }
  split.
  { intros Hnb. rewrite Em in Hnb.
    rewrite bool_decide_eq_false_2 in Hucr by congruence.
    unfold user_decline_withdrawal. rewrite Hw1, Hucr, andb_false_r. reflexivity. }
  intros He Hb Hae Hfl Hcol.
  destruct (dec_sub_add_back (balance_usd p) a He Hb Hae Hpos Hcov) as (_ & _ & Ex & Bx & Eback).
  rewrite Hfl. rewrite (Hcol (dec_sub (balance_usd p) a) Ex Bx). rewrite Eback.
  apply Hcol; assumption.
Qed.

(* ===================================================================== *)
(** ** Internal transfers                                                 *)
(* ===================================================================== *)

Lemma portfolio_by_account_number_lookup a st u p :
  portfolio_by_account_number a st = Some (u, p) ->
  portfolios st !! u = Some p /\ account_number p = a.
Proof.
  unfold portfolio_by_account_number. intros H.
  apply find_some in H. destruct H as [Hin Hf].
  apply list_elem_of_In, elem_of_map_to_list in Hin.
  split; [exact Hin|]. apply bool_decide_eq_true_1 in Hf. exact Hf.
Qed.

(** Sums and differences of a column value and an amount of at most four
    decimal places, while they stay within the precision. *)
Lemma dec_add_column b a :
  dec_exp b = -4 -> -4 <= dec_exp a ->
  Z.abs (dec_int b + dec_int a * 10 ^ (dec_exp a + 4)) < 10 ^ 28 ->
  dec_add b a = mkDecimal (dec_int b + dec_int a * 10 ^ (dec_exp a + 4)) (-4).
Proof.
  destruct b as [bi be], a as [ai ae]. cbn [dec_int dec_exp]. intros -> Hae Hb.
  unfold dec_add. cbn [dec_int dec_exp]. rewrite Z.min_l by lia.
  replace (-4 - -4) with 0 by lia. replace (ae - -4) with (ae + 4) by lia.
  rewrite Z.pow_0_r, Z.mul_1_r. apply fix_small. exact Hb.
Qed.

Lemma dec_sub_column b a :
  dec_exp b = -4 -> -4 <= dec_exp a ->
  Z.abs (dec_int b - dec_int a * 10 ^ (dec_exp a + 4)) < 10 ^ 28 ->
  dec_sub b a = mkDecimal (dec_int b - dec_int a * 10 ^ (dec_exp a + 4)) (-4).
Proof.
  intros Hb Ha H. unfold dec_sub.
  rewrite (dec_add_column b (dec_neg a) Hb); cbn [dec_neg dec_int dec_exp];
    replace (dec_int b + - dec_int a * 10 ^ (dec_exp a + 4))
      with (dec_int b - dec_int a * 10 ^ (dec_exp a + 4)) by lia;
    [reflexivity | exact Ha | exact H].
Qed.

Lemma value_column m n :
  (value (mkDecimal m (-4)) + value (mkDecimal n (-4)) == value (mkDecimal (m + n) (-4)))%Q.
Proof. unfold value. cbn [dec_int dec_exp]. rewrite inject_Z_plus. ring. Qed.

(** X5.  An internal transfer.  For a positive amount that the sender's
    balance covers, withdraw_funds with method INTERNAL answers 404 when no
    portfolio has the account number, 400 when it is the sender's own, both
    without writing; otherwise it takes the amount from the sender, adds it
    to the recipient, moves no other balance and leaves a COMPLETED
    withdrawal as the record, no pending row.  On column values the two
    balances together hold what they held before. *)
Theorem internal_transfer_moves_amount user form st a acct p :
  user_is_frozen user st = false ->
  wf_amount form = Some a -> wf_method form = Some "INTERNAL"%string ->
  dec_leb a dec_zero = false ->
  portfolios st !! user = Some p -> dec_ltb (balance_usd p) a = false ->
  wf_account_number form = Some acct ->
  match portfolio_by_account_number acct st with
  | None =>
      withdraw_funds user form st = (Failure 404 "Recipient account number not found", st)
  | Some (recipient, rp) =>
      if decide (recipient = user)
      then withdraw_funds user form st =
             (Failure 400 "Cannot transfer to your own account", st)
      else
        exists st1,
          withdraw_funds user form st = (Success Transferred, st1) /\
          balance_of user st1 = Some (to_column 4 (dec_sub (balance_usd p) a)) /\
          balance_of recipient st1 = Some (to_column 4 (dec_add (balance_usd rp) a)) /\
          (forall v, v <> user -> v <> recipient -> balance_of v st1 = balance_of v st) /\
          withdrawals st1 =
            <[fresh_id (withdrawals st) :=
                mkWithdrawal user (float_ a) COMPLETED "INTERNAL" None false None]>
              (withdrawals st) /\
          (dec_exp (balance_usd p) = -4 -> Z.abs (dec_int (balance_usd p)) < 10 ^ 20 ->
           dec_exp (balance_usd rp) = -4 -> -4 <= dec_exp a ->
           Z.abs (dec_int (balance_usd rp) + dec_int a * 10 ^ (dec_exp a + 4)) < 10 ^ 20 ->
           (forall z, dec_exp z = -4 -> Z.abs (dec_int z) < 10 ^ 20 -> to_column 4 z = z) ->
           (value (to_column 4 (dec_sub (balance_usd p) a))
            + value (to_column 4 (dec_add (balance_usd rp) a))
            == value (balance_usd p) + value (balance_usd rp))%Q)
  end.
Proof.
  intros Hfz Ha Hm Hpos Hp Hcov Hacct.
  unfold withdraw_funds. rewrite Hfz, Ha, Hm, Hpos, Hp, Hcov.
  rewrite bool_decide_eq_false_2 by discriminate.
  rewrite bool_decide_eq_true_2 by reflexivity.
  rewrite Hacct.
  destruct (portfolio_by_account_number acct st) as [[recipient rp]|] eqn:Hr; [|reflexivity].
  destruct (decide (recipient = user)) as [->|Hne].
  { rewrite bool_decide_eq_true_2 by reflexivity. reflexivity. }
  rewrite bool_decide_eq_false_2 by exact Hne.
  destruct (portfolio_by_account_number_lookup _ _ _ _ Hr) as [Hrp _].
  eexists. split; [reflexivity|].
  unfold balance_of. cbn [portfolios withdrawals set_portfolios set_withdrawals].
  split.
  { rewrite lookup_alter_other by exact Hne.
    rewrite (lookup_alter_same _ _ _ _ Hp). reflexivity. }
  split.
  { assert (Hrp1 : alter (set_balance_field (dec_sub (balance_usd p) a)) user (portfolios st)
                   !! recipient = Some rp)
      by (rewrite lookup_alter_other by congruence; exact Hrp).
    rewrite (lookup_alter_same _ _ _ _ Hrp1). reflexivity. }
  split.
  { intros v Hv1 Hv2. rewrite !lookup_alter_other by congruence. reflexivity. }
  split; [reflexivity|].
  intros He Hb Her Hae Hfit Hcol.
  destruct (dec_sub_add_back (balance_usd p) a He Hb Hae Hpos Hcov)
    as (Ha' & Esub & Ex & Bx & _).
  rewrite (Hcol _ Ex Bx), Esub.
  assert (Eadd : dec_add (balance_usd rp) a =
                 mkDecimal (dec_int (balance_usd rp) + dec_int a * 10 ^ (dec_exp a + 4)) (-4)).
  { apply dec_add_column; [exact Her | exact Hae|].
    assert (10 ^ 20 < 10 ^ 28) by reflexivity. lia. }
  rewrite Eadd. rewrite (Hcol (mkDecimal _ (-4)) eq_refl Hfit).
  rewrite value_column.
  destruct (balance_usd p) as [bi be], (balance_usd rp) as [ri re].
  cbn [dec_int dec_exp] in *. subst be re. rewrite value_column.
  replace (bi - dec_int a * 10 ^ (dec_exp a + 4)
           + (ri + dec_int a * 10 ^ (dec_exp a + 4))) with (bi + ri) by lia.
  reflexivity.
Qed.

(* ===================================================================== *)
(** ** Approval of deposits by the admin                                  *)
(* ===================================================================== *)

(** The bonus logic reads the depositor and the amount of the deposit, and
    the portfolios and referral edges of the database; nothing else decides
    what it writes to them. *)
Lemma process_referral_bonus_ledger self self' st st' :
  d_user self = d_user self' -> d_amount self = d_amount self' ->
  portfolios st = portfolios st' -> affiliates st = affiliates st' ->
  portfolios (_process_referral_bonus self st) =
    portfolios (_process_referral_bonus self' st') /\
  affiliates (_process_referral_bonus self st) =
    affiliates (_process_referral_bonus self' st').
Proof.
  intros Eu Ea Ep Ef. unfold _process_referral_bonus. rewrite <- Eu, <- Ea, <- Ep.
  destruct (portfolios st !! d_user self) as [up|]; [|split; assumption].
  destruct (initial_deposit_amount up);
    cbn [affiliates portfolios set_portfolios]; rewrite <- Ef;
    (destruct (affiliates st !! d_user self) as [aff|];
     [|split; cbn [portfolios affiliates set_portfolios]; congruence]);
    (destruct (has_funded_wallet aff);
     [split; cbn [portfolios affiliates set_portfolios]; congruence|]);
    cbn [portfolios affiliates set_portfolios set_affiliates]; rewrite <- Ep;
    match goal with
    | |- context [match ?m !! referrer aff with _ => _ end] =>
        destruct (m !! referrer aff)
    end;
    split; cbn [portfolios affiliates set_portfolios set_affiliates notify]; congruence.
Qed.

Lemma Deposit_save_ledger id self self' st st' :
  d_user self = d_user self' -> d_amount self = d_amount self' ->
  d_status self = d_status self' ->
  (d_status <$> deposits st !! id) = (d_status <$> deposits st' !! id) ->
  portfolios st = portfolios st' -> affiliates st = affiliates st' ->
  portfolios (Deposit_save (Some id) self st).2 =
    portfolios (Deposit_save (Some id) self' st').2 /\
  affiliates (Deposit_save (Some id) self st).2 =
    affiliates (Deposit_save (Some id) self' st').2.
Proof.
  intros Eu Ea Es Eo Ep Ef. unfold Deposit_save. cbn [snd]. rewrite <- Es.
  destruct (deposits st !! id) as [o|], (deposits st' !! id) as [o'|];
    cbn in Eo; try discriminate; [injection Eo as ->|].
  - case_match; [|split; assumption].
    apply process_referral_bonus_ledger; assumption.
  - split; assumption.
Qed.

(** X6.  The admin action approve_deposits on a pending merchant-mediated
    deposit writes the same balances and referral edges as the merchant's
    own merchant_approve_deposit, whenever the base amount of the notes is
    the amount of the row (as in a row written by deposit_funds): the
    merchant pays the base amount, the depositor receives it, and a referral
    bonus is paid on the same terms.  The rows differ in one flag: the
    merchant's approval clears merchant_action_required and the admin's
    leaves it set. *)
Theorem admin_approval_matches_merchant_approval merchant id st d mp :
  deposits st !! id = Some d -> d_status d = PENDING ->
  d_method d = "BANK_TRANSFER"%string -> d_merchant d = Some merchant ->
  merchant_action_required d = true ->
  portfolios st !! merchant = Some mp ->
  dec_ltb (balance_usd mp) (deposit_base_amount d) = false ->
  is_Some (portfolios st !! d_user d) ->
  deposit_base_amount d = float_str (d_amount d) ->
  let by_merchant := (merchant_approve_deposit merchant id st).2 in
  let by_admin := approve_deposits [id] st in
  portfolios by_admin = portfolios by_merchant /\
  affiliates by_admin = affiliates by_merchant /\
  deposits by_merchant !! id = Some (with_deposit_status d APPROVED false) /\
  deposits by_admin !! id = Some (with_deposit_status d APPROVED true).
Proof.
  intros Hd Hs Hmeth Hm Hmar Hmp Hbal Hup Hbase by_merchant by_admin.
  set (st1 := set_portfolios
                (insert merchant
                   (save_balance mp (dec_sub (balance_usd mp) (deposit_base_amount d)))) st).
  set (st1' := notify merchant (Text "Admin approved deposit.") st1).
  set (dm := with_deposit_status d APPROVED false).
  set (da := with_deposit_status d APPROVED true).
  assert (Hup1 : is_Some (portfolios st1 !! d_user d)).
  { subst st1. cbn [portfolios set_portfolios]. rewrite lookup_insert.
    case_decide; [eexists; reflexivity | exact Hup]. }
  destruct (Deposit_save_ledger id dm da st1 st1') as [EP EA]; try reflexivity.
  pose proof (Deposit_save_keeps (Some id) dm st1 (d_user d) Hup1) as [up2 Hup2].
  pose proof (Deposit_save_deposits id dm st1) as Dm.
  pose proof (Deposit_save_deposits id da st1') as Da.
  assert (Em : by_merchant =
               notify merchant (Text "Deposit submitted")
                 (notify (d_user d) (Text "Deposit submitted")
                    (set_portfolios
                       (insert (d_user d)
                          (save_balance up2
                             (dec_add (balance_usd up2) (deposit_base_amount d))))
                       (Deposit_save (Some id) dm st1).2))).
  { subst by_merchant. unfold merchant_approve_deposit.
    rewrite Hd, (bool_decide_eq_true_2 _ Hm), (bool_decide_eq_true_2 _ Hs), Hmar, Hmp, Hbal.
    cbn [andb]. fold st1. fold dm.
    destruct (Deposit_save (Some id) dm st1) as [n st2]. cbn [snd] in *.
    rewrite Hup2. reflexivity. }
  assert (Ea : by_admin =
               notify (d_user d) (Text "Your P2P deposit has been approved")
                 (set_portfolios
                    (insert (d_user d)
                       (save_balance up2
                          (dec_add (balance_usd up2) (float_str (d_amount d)))))
                    (Deposit_save (Some id) da st1').2)).
  { subst by_admin. unfold approve_deposits. cbn [fold_left]. unfold approve_deposits_one.
    rewrite Hd, (bool_decide_eq_true_2 _ Hs), Hm, (bool_decide_eq_true_2 _ Hmeth), Hmp, Hbal.
    fold st1. fold st1'. unfold process_deposit.
    replace (deposits st1' !! id) with (Some d) by (symmetry; exact Hd).
    rewrite (bool_decide_eq_true_2 _ Hs), Hmar. fold da.
    destruct (Deposit_save (Some id) da st1') as [n st2']. cbn [snd] in *.
    rewrite <- EP, Hup2. cbn [snd].
    rewrite (bool_decide_eq_true_2 _ Hmeth), Hm.
    rewrite bool_decide_eq_true_2 by (eexists; reflexivity). reflexivity. }
  rewrite Em, Ea. cbn [portfolios affiliates deposits notify set_portfolios].
  rewrite Dm, Da, <- EP, <- EA, Hbase.
  repeat split; try reflexivity; apply lookup_insert_eq.
Qed.

Lemma Deposit_save_no_portfolio id self st :
  portfolios st !! d_user self = None ->
  (Deposit_save (Some id) self st).2 = set_deposits (insert id self) st.
Proof.
  intros H. unfold Deposit_save. cbn [snd]. case_match; [|reflexivity].
  unfold _process_referral_bonus. cbn [portfolios set_deposits]. rewrite H. reflexivity.
Qed.

(** X7.  Where approve_deposits stops on a pending merchant-mediated deposit.
    When the merchant has no portfolio, or a balance below the base amount,
    the deposit is skipped and nothing is written.  When the merchant can pay
    but the depositor has no portfolio, the merchant is debited and the
    deposit becomes APPROVED although nobody is credited: process_deposit
    reports the error after these writes, and the action carries on.  The
    merchant's own merchant_approve_deposit writes nothing in that case. *)
Theorem approve_deposits_stops merchant id st d :
  deposits st !! id = Some d -> d_status d = PENDING ->
  d_method d = "BANK_TRANSFER"%string -> d_merchant d = Some merchant ->
  (portfolios st !! merchant = None -> approve_deposits [id] st = st) /\
  (forall mp, portfolios st !! merchant = Some mp ->
     dec_ltb (balance_usd mp) (deposit_base_amount d) = true ->
     approve_deposits [id] st = st) /\
  (forall mp, portfolios st !! merchant = Some mp ->
     dec_ltb (balance_usd mp) (deposit_base_amount d) = false ->
     portfolios st !! d_user d = None ->
     let st' := approve_deposits [id] st in
     (d_status <$> deposits st' !! id) = Some APPROVED /\
     portfolios st' =
       <[merchant := save_balance mp (dec_sub (balance_usd mp) (deposit_base_amount d))]>
         (portfolios st) /\
     (merchant_approve_deposit merchant id st).2 = st).
Proof.
  intros Hd Hs Hmeth Hm.
  unfold approve_deposits. cbn [fold_left]. unfold approve_deposits_one.
  rewrite Hd, (bool_decide_eq_true_2 _ Hs), Hm, (bool_decide_eq_true_2 _ Hmeth).
  split; [intros ->; reflexivity|].
  split; [intros mp -> ->; reflexivity|].
  intros mp Hmp Hbal Hup. rewrite Hmp, Hbal.
  assert (Hne : d_user d <> merchant) by congruence.
  set (st1 := set_portfolios
                (insert merchant
                   (save_balance mp (dec_sub (balance_usd mp) (deposit_base_amount d)))) st).
  assert (Hup1 : forall n m, portfolios (notify n m st1) !! d_user d = None /\
                             portfolios st1 !! d_user d = None).
  { intros. subst st1. cbn [portfolios notify set_portfolios].
    rewrite lookup_insert_ne by congruence. split; exact Hup. }
  split; [|split].
  - unfold process_deposit. cbn [deposits notify set_portfolios]. fold st1.
    replace (deposits st1 !! id) with (Some d) by (symmetry; exact Hd).
    rewrite (bool_decide_eq_true_2 _ Hs).
    match goal with
    | |- context [Deposit_save (Some id) ?self ?s] =>
        pose proof (Deposit_save_no_portfolio id self s (proj1 (Hup1 _ _))) as E;
        destruct (Deposit_save (Some id) self s) as [n w]
    end.
    cbn [snd] in E. subst w. cbn [portfolios set_deposits notify].
    rewrite (proj2 (Hup1 merchant (Text ""))). cbn [snd deposits set_deposits].
    rewrite lookup_insert_eq. reflexivity.
  - unfold process_deposit. cbn [deposits notify set_portfolios]. fold st1.
    replace (deposits st1 !! id) with (Some d) by (symmetry; exact Hd).
    rewrite (bool_decide_eq_true_2 _ Hs).
    match goal with
    | |- context [Deposit_save (Some id) ?self ?s] =>
        pose proof (Deposit_save_no_portfolio id self s (proj1 (Hup1 _ _))) as E;
        destruct (Deposit_save (Some id) self s) as [n w]
    end.
    cbn [snd] in E. subst w. cbn [portfolios set_deposits notify].
    rewrite (proj2 (Hup1 merchant (Text ""))). reflexivity.
  - unfold merchant_approve_deposit. rewrite Hd, Hmp, Hbal. fold st1.
    destruct (_ && _); [|reflexivity].
    match goal with
    | |- context [Deposit_save (Some id) ?self ?s] =>
        pose proof (Deposit_save_no_portfolio id self s (proj2 (Hup1 merchant (Text "")))) as E;
        destruct (Deposit_save (Some id) self s) as [n w]
    end.
    cbn [snd] in E. subst w. cbn [portfolios set_deposits].
    rewrite (proj2 (Hup1 merchant (Text ""))). reflexivity.
Qed.

(* ===================================================================== *)
(** ** Settlement by the scheduler and by the admin                       *)
(* ===================================================================== *)

(** process_swap writes to the row of its swap, to the portfolio of its
    user, to the trades and to the notifications. *)
Lemma process_swap_frame id force now st :
  assets (process_swap id force now st).2 = assets st /\
  deposits (process_swap id force now st).2 = deposits st /\
  withdrawals (process_swap id force now st).2 = withdrawals st /\
  (forall j, j <> id -> swaps (process_swap id force now st).2 !! j = swaps st !! j) /\
  (forall u, is_Some (portfolios st !! u) ->
             is_Some (portfolios (process_swap id force now st).2 !! u)).
Proof.
  unfold process_swap, swap_message.
  repeat case_match; cbn [snd]; repeat split; try reflexivity; try (intros; assumption);
    cbn [swaps portfolios notify add_trades set_portfolios set_swaps].
  all: try (intros j Hj; rewrite !lookup_alter_other by congruence; reflexivity).
  all: intros v [x Hx]; rewrite lookup_alter; case_decide; subst; rewrite Hx;
    eexists; reflexivity.
Qed.

Lemma can_settle_frame s st st' :
  assets st' = assets st ->
  (forall u, is_Some (portfolios st !! u) -> is_Some (portfolios st' !! u)) ->
  can_settle s st -> can_settle s st'.
Proof.
  intros Ha Hp (fr & bi & br & tr & H1 & H2 & H3 & H4 & H5 & H6 & H7).
  exists fr, bi, br, tr. rewrite Ha. repeat split; try assumption. apply Hp, H5.
Qed.

(** A swap that is open, due or forced, and can settle, is completed. *)
Lemma process_swap_settles id force now st s :
  swaps st !! id = Some s -> swap_is_open (s_status s) = true ->
  force = true \/ swap_time s <= now -> can_settle s st ->
  exists swap_back st',
    process_swap id force now st = (SwapCompleted, st') /\
    swaps st' !! id = Some (completed_swap swap_back now s).
Proof.
  intros Hs Ho Hd (fr & bi & br & tr & H1 & H2 & H3 & H4 & [p H5] & H6 & H7).
  destruct (process_swap_completes id force now st s fr bi br tr p)
    as (ta & sb & pct & st' & _ & _ & _ & E & Hsw & _); try assumption.
  exists sb, st'. split; assumption.
Qed.

Lemma is_due_open t s : is_due t s = true -> swap_is_open (s_status s) = true /\ swap_time s <= t.
Proof.
  unfold is_due, swap_is_open. intros H. apply andb_prop in H. destruct H as [H1 H2].
  split; [|apply Z.leb_le; exact H2].
  destruct (bool_decide (s_status s = PENDING)); [reflexivity|].
  cbn [orb] in *. rewrite H1. reflexivity.
Qed.

(** One turn of the loop of auto_process_swaps. *)
Lemma auto_process_swaps_one_spec t now acc a :
  t <= now a ->
  let r := auto_process_swaps_one now acc a in
  assets r.2 = assets acc.2 /\
  deposits r.2 = deposits acc.2 /\ withdrawals r.2 = withdrawals acc.2 /\
  (forall j, j <> a -> swaps r.2 !! j = swaps acc.2 !! j) /\
  (forall u, is_Some (portfolios acc.2 !! u) -> is_Some (portfolios r.2 !! u)) /\
  (r.1.1 + r.1.2 = acc.1.1 + acc.1.2 + 1)%nat /\
  (forall s, swaps acc.2 !! a = Some s -> is_due t s = true -> can_settle s acc.2 ->
     r.1.2 = acc.1.2 /\
     exists swap_back, swaps r.2 !! a = Some (completed_swap swap_back (now a) s)).
Proof.
  intros Hnow. destruct acc as [[p f] st]. cbn [fst snd]. unfold auto_process_swaps_one.
  pose proof (process_swap_frame a false (now a) st) as (Fa & Fd & Fw & Fs & Fp).
  split; [|split; [|split; [|split; [|split; [|split]]]]].
  1-6: destruct (process_swap a false (now a) st) as [[] w]; cbn [fst snd] in *;
    try assumption; try reflexivity; try (intros; assumption); lia.
  intros s Hs Hdue Hcan. destruct (is_due_open _ _ Hdue) as [Ho Ht].
  destruct (process_swap_settles a false (now a) st s Hs Ho) as (sb & st' & E & Hsw);
    [right; lia | exact Hcan |].
  rewrite E. cbn [fst snd]. split; [reflexivity|]. exists sb. exact Hsw.
Qed.

(** The loop of auto_process_swaps over distinct swaps. *)
Lemma auto_process_swaps_loop t now l : forall acc,
  NoDup l -> (forall i, t <= now i) ->
  let r := fold_left (auto_process_swaps_one now) l acc in
  assets r.2 = assets acc.2 /\
  deposits r.2 = deposits acc.2 /\ withdrawals r.2 = withdrawals acc.2 /\
  (forall j, j ∉ l -> swaps r.2 !! j = swaps acc.2 !! j) /\
  (forall u, is_Some (portfolios acc.2 !! u) -> is_Some (portfolios r.2 !! u)) /\
  (r.1.1 + r.1.2 = acc.1.1 + acc.1.2 + length l)%nat /\
  (forall i s, i ∈ l -> swaps acc.2 !! i = Some s -> is_due t s = true ->
     can_settle s acc.2 ->
     exists swap_back, swaps r.2 !! i = Some (completed_swap swap_back (now i) s)) /\
  ((forall i, i ∈ l ->
      exists s, swaps acc.2 !! i = Some s /\ is_due t s = true /\ can_settle s acc.2) ->
   r.1.2 = acc.1.2).
Proof.
  induction l as [|a l IH]; intros acc Hnd Hnow; cbn [fold_left].
  - cbn [length]. repeat split; try reflexivity; try (intros; assumption); try lia.
    intros i s Hi. apply elem_of_nil in Hi. destruct Hi.
  - apply NoDup_cons in Hnd. destruct Hnd as [Ha Hnd].
    pose proof (auto_process_swaps_one_spec t now acc a (Hnow a))
      as (Sa & Sd & Sw & Ss & Sp & Sc & Sdone).
    set (acc1 := auto_process_swaps_one now acc a) in *.
    specialize (IH acc1 Hnd Hnow). cbn zeta in IH.
    destruct IH as (Ia & Id & Iw & Is & Ip & Ic & Idone & Iall).
    cbn zeta. cbn [length].
    split; [congruence|]. split; [congruence|]. split; [congruence|].
    split.
    { intros j Hj. apply not_elem_of_cons in Hj. destruct Hj as [Hja Hjl].
      rewrite (Is j Hjl). apply Ss. exact Hja. }
    split; [intros u Hu; apply Ip, Sp, Hu|].
    split; [lia|].
    split.
    { intros i s Hi Hs Hdue Hcan. apply elem_of_cons in Hi. destruct Hi as [->|Hi].
      - destruct (Sdone s Hs Hdue Hcan) as [_ [sb Hsb]].
        exists sb. rewrite (Is a Ha). exact Hsb.
      - assert (Hia : i <> a) by (intros ->; contradiction).
        apply (Idone i s Hi); [rewrite (Ss i Hia); exact Hs | exact Hdue|].
        apply (can_settle_frame s acc.2); assumption. }
    intros Hall.
    destruct (Hall a) as (s & Hs & Hdue & Hcan); [apply elem_of_cons; left; reflexivity|].
    destruct (Sdone s Hs Hdue Hcan) as [Ef _].
    rewrite <- Ef. apply Iall. intros i Hi.
    assert (Hia : i <> a) by (intros ->; contradiction).
    destruct (Hall i) as (s' & Hs' & Hdue' & Hcan'); [apply elem_of_cons; right; exact Hi|].
    exists s'. split; [rewrite (Ss i Hia); exact Hs'|]. split; [exact Hdue'|].
    apply (can_settle_frame s' acc.2); assumption.
Qed.

Lemma due_swaps_spec t st i :
  i ∈ due_swaps t st <-> exists s, swaps st !! i = Some s /\ is_due t s = true.
Proof.
  unfold due_swaps. rewrite list_elem_of_fmap. split.
  - intros ([j s] & -> & Hin). apply list_elem_of_In, filter_In in Hin.
    destruct Hin as [Hin Hd]. apply list_elem_of_In, elem_of_map_to_list in Hin.
    exists s. split; assumption.
  - intros (s & Hs & Hd). exists (i, s). split; [reflexivity|].
    apply list_elem_of_In, filter_In. split; [|exact Hd].
    apply list_elem_of_In, elem_of_map_to_list. exact Hs.
Qed.

Lemma due_swaps_NoDup t st : NoDup (due_swaps t st).
Proof.
  unfold due_swaps.
  assert (H : forall l : list (nat * SwapRequest),
             NoDup (l.*1) -> NoDup ((List.filter (fun ks => is_due t ks.2) l).*1)).
  { induction l as [|[k s] l IH]; cbn; intros Hl; [constructor|].
    apply NoDup_cons in Hl. destruct Hl as [Hk Hl].
    destruct (is_due t s); cbn; [|apply IH, Hl].
    apply NoDup_cons. split; [|apply IH, Hl].
    intros Hin. apply Hk. apply list_elem_of_fmap in Hin.
    destruct Hin as ([k' s'] & -> & Hin). apply list_elem_of_In, filter_In in Hin.
    apply list_elem_of_fmap. exists (k', s'). split; [reflexivity|].
    apply list_elem_of_In, Hin. }
  apply H, NoDup_fst_map_to_list.
Qed.

(** X8.  One run of the scheduler.  auto_process_swaps completes every swap
    that is PENDING or APPROVED, due at the time of the run, and able to
    settle, with the time process_swap read for it; it leaves every other
    swap row as it is, IN_PROGRESS rows included, and writes nothing to
    assets, deposits and withdrawals.  The two counters add up to the number
    of due swaps, and no failure is counted when every due swap can settle. *)
Theorem auto_process_swaps_settles_due current_time now st :
  (forall i, current_time <= now i) ->
  let r := auto_process_swaps current_time now st in
  let processed_count := r.1.1 in
  let failed_count := r.1.2 in
  (forall i s, swaps st !! i = Some s -> is_due current_time s = false ->
     swaps r.2 !! i = Some s) /\
  (forall i s, swaps st !! i = Some s -> is_due current_time s = true ->
     can_settle s st ->
     exists swap_back, swaps r.2 !! i = Some (completed_swap swap_back (now i) s)) /\
  (processed_count + failed_count = length (due_swaps current_time st))%nat /\
  ((forall i s, swaps st !! i = Some s -> is_due current_time s = true -> can_settle s st) ->
   failed_count = 0%nat) /\
  assets r.2 = assets st /\ deposits r.2 = deposits st /\ withdrawals r.2 = withdrawals st.
Proof.
  intros Hnow r processed_count failed_count.
  pose proof (auto_process_swaps_loop current_time now (due_swaps current_time st)
                (0%nat, 0%nat, st) (due_swaps_NoDup _ _) Hnow)
    as (Ia & Id & Iw & Is & Ip & Ic & Idone & Iall).
  cbn zeta in *. cbn [fst snd] in *.
  fold (auto_process_swaps current_time now st) in *. fold r in Ia, Id, Iw, Is, Ip, Ic, Idone, Iall.
  split.
  { intros i s Hs Hnd. rewrite Is; [exact Hs|].
    intros Hin. apply due_swaps_spec in Hin. destruct Hin as (s' & Hs' & Hd').
    congruence. }
  split.
  { intros i s Hs Hd Hcan. apply Idone; try assumption.
    apply due_swaps_spec. exists s. split; assumption. }
  split; [exact Ic|].
  split.
  { intros Hall. apply Iall. intros i Hin. apply due_swaps_spec in Hin.
    destruct Hin as (s & Hs & Hd). exists s. repeat split; try assumption.
    apply (Hall i s); assumption. }
  repeat split; assumption.
Qed.

(** X9.  The admin action complete_swap on one selected swap.  A swap that
    is not PENDING, or has a leg that is not USDT, is left alone.  A PENDING
    swap with USDT legs that can settle is settled at once, whatever its
    scheduled time: complete_swap leaves what the forced process_swap
    leaves, with one more notification, while the unforced process_swap
    answers that the swap is not due. *)
Theorem complete_swap_forces_settlement now id st s :
  swaps st !! id = Some s ->
  (s_status s <> PENDING -> complete_swap now [id] st = st) /\
  (forall from_row,
     assets st !! from_asset s = Some from_row -> symbol from_row <> "USDT"%string ->
     complete_swap now [id] st = st) /\
  (forall back_id back_row,
     swap_back_asset s = Some back_id -> assets st !! back_id = Some back_row ->
     symbol back_row <> "USDT"%string ->
     complete_swap now [id] st = st) /\
  (forall from_row back_id back_row,
     s_status s = PENDING -> can_settle s st ->
     assets st !! from_asset s = Some from_row -> symbol from_row = "USDT"%string ->
     swap_back_asset s = Some back_id -> assets st !! back_id = Some back_row ->
     symbol back_row = "USDT"%string ->
     (now id < swap_time s -> process_swap id false (now id) st = (SwapNotDue, st)) /\
     exists swap_back st1,
       process_swap id true (now id) st = (SwapCompleted, st1) /\
       swaps st1 !! id = Some (completed_swap swap_back (now id) s) /\
       complete_swap now [id] st =
         notify (s_user s) (Text "Your swap has been processed.") st1).
Proof.
  intros Hs. unfold complete_swap. cbn [fold_left]. unfold complete_swap_one. rewrite Hs.
  split; [intros Hn; rewrite bool_decide_eq_false_2 by exact Hn; reflexivity|].
  split.
  { intros fr Hfr Hsym. rewrite Hfr. rewrite (bool_decide_eq_false_2 _ Hsym).
    cbn [negb]. case_match; reflexivity. }
  split.
  { intros bi br Hbi Hbr Hsym. rewrite Hbi, Hbr, (bool_decide_eq_false_2 _ Hsym).
    cbn [negb]. repeat case_match; reflexivity. }
  intros fr bi br Hp Hcan Hfr Hfs Hbi Hbr Hbs.
  rewrite (bool_decide_eq_true_2 _ Hp), Hfr, (bool_decide_eq_true_2 _ Hfs), Hbi, Hbr,
    (bool_decide_eq_true_2 _ Hbs). cbn [negb].
  split.
  { intros Hlt. unfold process_swap. rewrite Hs. unfold swap_is_open.
    rewrite (bool_decide_eq_true_2 _ Hp). cbn [orb negb andb].
    apply Z.ltb_lt in Hlt. rewrite Hlt. reflexivity. }
  destruct (process_swap_settles id true (now id) st s Hs) as (sb & st1 & E & Hsw);
    [unfold swap_is_open; rewrite (bool_decide_eq_true_2 _ Hp); reflexivity
    | left; reflexivity | exact Hcan |].
  exists sb, st1. rewrite E. repeat split; [exact Hsw].
Qed.

(** X10.  The staff view complete_swap_admin on a PENDING swap with USDT
    legs.  It marks the swap APPROVED and writes nothing else: no balance, no
    trade, no notification.  From then on the admin actions complete_swap and
    cancel_swap and the view cancel_swap_admin pass the swap over, since all
    three take PENDING swaps only; the scheduler settles it on a run at or
    after its time. *)
Theorem complete_swap_admin_hands_over id st s from_row back_id back_row :
  swaps st !! id = Some s -> s_status s = PENDING ->
  assets st !! from_asset s = Some from_row -> symbol from_row = "USDT"%string ->
  swap_back_asset s = Some back_id -> assets st !! back_id = Some back_row ->
  symbol back_row = "USDT"%string ->
  let st1 := (complete_swap_admin id st).2 in
  swaps st1 !! id = Some (with_swap_status APPROVED s) /\
  portfolios st1 = portfolios st /\ trades st1 = trades st /\
  notifications st1 = notifications st /\
  (forall now, complete_swap now [id] st1 = st1) /\
  cancel_swap [id] st1 = st1 /\
  (cancel_swap_admin id st1).2 = st1 /\
  (forall t now,
     swap_time s <= t -> (forall i, t <= now i) -> can_settle s st ->
     exists swap_back,
       swaps (auto_process_swaps t now st1).2 !! id =
         Some (completed_swap swap_back (now id) s)).
Proof.
  intros Hs Hp Hfr Hfs Hbi Hbr Hbs st1.
  assert (E1 : st1 = set_swaps (alter (with_swap_status APPROVED) id) st).
  { subst st1. unfold complete_swap_admin.
    rewrite Hs, (bool_decide_eq_true_2 _ Hp), Hfr, (bool_decide_eq_true_2 _ Hfs), Hbi, Hbr,
      (bool_decide_eq_true_2 _ Hbs). reflexivity. }
  assert (Hs1 : swaps st1 !! id = Some (with_swap_status APPROVED s)).
  { rewrite E1. cbn [swaps set_swaps]. apply lookup_alter_same. exact Hs. }
  split; [exact Hs1|]. rewrite E1 at 1 2 3. cbn [portfolios trades notifications set_swaps].
  split; [reflexivity|]. split; [reflexivity|]. split; [reflexivity|].
  split.
  { intros now. unfold complete_swap. cbn [fold_left]. unfold complete_swap_one.
    rewrite Hs1. reflexivity. }
  split.
  { unfold cancel_swap. cbn [fold_left]. unfold cancel_swap_one. rewrite Hs1. reflexivity. }
  split.
  { unfold cancel_swap_admin. rewrite Hs1. reflexivity. }
  intros t now Ht Hnow Hcan.
  pose proof (auto_process_swaps_loop t now (due_swaps t st1) (0%nat, 0%nat, st1)
                (due_swaps_NoDup _ _) Hnow) as (_ & _ & _ & _ & _ & _ & Idone & _).
  cbn zeta in Idone. cbn [fst snd] in Idone.
  destruct (Idone id (with_swap_status APPROVED s)) as [sb Hsb].
  - apply due_swaps_spec. exists (with_swap_status APPROVED s). split; [exact Hs1|].
    unfold is_due. cbn [s_status with_swap_status swap_time].
    apply andb_true_intro. split; [reflexivity | apply Z.leb_le; exact Ht].
  - exact Hs1.
  - unfold is_due. cbn [s_status with_swap_status swap_time].
    apply andb_true_intro. split; [reflexivity | apply Z.leb_le; exact Ht].
  - apply (can_settle_frame _ st); [rewrite E1; reflexivity | rewrite E1; intros; assumption|].
    exact Hcan.
  - exists sb. exact Hsb.
Qed.

(* ===================================================================== *)
(** ** Frozen accounts                                                    *)
(* ===================================================================== *)

Lemma with_is_frozen_same p : with_is_frozen p (is_frozen p) = p.
Proof. destruct p; reflexivity. Qed.

Lemma freeze_accounts_one_lookup a st u :
  portfolios (freeze_accounts_one a st) !! u =
  (fun p => if decide (a = u) then with_is_frozen p true else p) <$> portfolios st !! u.
Proof.
  unfold freeze_accounts_one.
  destruct (portfolios st !! a) as [p|] eqn:Hp.
  - destruct (is_frozen p) eqn:Hf; cbn [portfolios notify set_portfolios].
    + destruct (decide (a = u)) as [->|]; [|destruct (portfolios st !! u); reflexivity].
      rewrite Hp. cbn. rewrite <- Hf, with_is_frozen_same. reflexivity.
    + rewrite lookup_insert. destruct (decide (a = u)) as [->|].
      * rewrite Hp. reflexivity.
      * destruct (portfolios st !! u); reflexivity.
  - destruct (decide (a = u)) as [->|]; [rewrite Hp; reflexivity|].
    destruct (portfolios st !! u); reflexivity.
Qed.

Lemma unfreeze_accounts_one_lookup a st u :
  portfolios (unfreeze_accounts_one a st) !! u =
  (fun p => if decide (a = u) then with_is_frozen p false else p) <$> portfolios st !! u.
Proof.
  unfold unfreeze_accounts_one.
  destruct (portfolios st !! a) as [p|] eqn:Hp.
  - destruct (is_frozen p) eqn:Hf; cbn [portfolios notify set_portfolios].
    + rewrite lookup_insert. destruct (decide (a = u)) as [->|].
      * rewrite Hp. reflexivity.
      * destruct (portfolios st !! u); reflexivity.
    + destruct (decide (a = u)) as [->|]; [|destruct (portfolios st !! u); reflexivity].
      rewrite Hp. cbn. rewrite <- Hf, with_is_frozen_same. reflexivity.
  - destruct (decide (a = u)) as [->|]; [rewrite Hp; reflexivity|].
    destruct (portfolios st !! u); reflexivity.
Qed.

Lemma freeze_accounts_lookup q : forall st u,
  portfolios (freeze_accounts q st) !! u =
  (fun p => if bool_decide (u ∈ q) then with_is_frozen p true else p) <$> portfolios st !! u.
Proof.
  unfold freeze_accounts. induction q as [|a q IH]; intros st u; cbn [fold_left].
  - rewrite bool_decide_eq_false_2 by apply not_elem_of_nil.
    destruct (portfolios st !! u); reflexivity.
  - rewrite IH, freeze_accounts_one_lookup.
    destruct (portfolios st !! u) as [p|]; [|reflexivity]. cbn. f_equal.
    destruct (decide (a = u)) as [->|Hne].
    + rewrite (bool_decide_eq_true_2 (u ∈ u :: q)) by (apply elem_of_cons; left; reflexivity).
      destruct (bool_decide (u ∈ q)); reflexivity.
    + destruct (bool_decide (u ∈ q)) eqn:Hq.
      * apply bool_decide_eq_true_1 in Hq.
        rewrite bool_decide_eq_true_2 by (apply elem_of_cons; right; exact Hq). reflexivity.
      * apply bool_decide_eq_false_1 in Hq.
        rewrite bool_decide_eq_false_2; [reflexivity|].
        intros Hin. apply elem_of_cons in Hin. destruct Hin; [congruence | contradiction].
Qed.

Lemma unfreeze_accounts_lookup q : forall st u,
  portfolios (unfreeze_accounts q st) !! u =
  (fun p => if bool_decide (u ∈ q) then with_is_frozen p false else p) <$> portfolios st !! u.
Proof.
  unfold unfreeze_accounts. induction q as [|a q IH]; intros st u; cbn [fold_left].
  - rewrite bool_decide_eq_false_2 by apply not_elem_of_nil.
    destruct (portfolios st !! u); reflexivity.
  - rewrite IH, unfreeze_accounts_one_lookup.
    destruct (portfolios st !! u) as [p|]; [|reflexivity]. cbn. f_equal.
    destruct (decide (a = u)) as [->|Hne].
    + rewrite (bool_decide_eq_true_2 (u ∈ u :: q)) by (apply elem_of_cons; left; reflexivity).
      destruct (bool_decide (u ∈ q)); reflexivity.
    + destruct (bool_decide (u ∈ q)) eqn:Hq.
      * apply bool_decide_eq_true_1 in Hq.
        rewrite bool_decide_eq_true_2 by (apply elem_of_cons; right; exact Hq). reflexivity.
      * apply bool_decide_eq_false_1 in Hq.
        rewrite bool_decide_eq_false_2; [reflexivity|].
        intros Hin. apply elem_of_cons in Hin. destruct Hin; [congruence | contradiction].
Qed.

Lemma deposit_funds_frozen user data st :
  user_is_frozen user st = true ->
  deposit_funds user data st =
    (Failure 403 "Account is suspended. Cannot process transactions.", st).
Proof. intros H. unfold deposit_funds. rewrite H. reflexivity. Qed.

(** X11.  After the admin action freeze_accounts, every selected user who
    has a portfolio is frozen: deposit_funds, withdraw_funds and swap_tokens
    answer 403 to that user and write nothing.  The action moves no balance
    and leaves the accounts outside the selection as they were. *)
Theorem freeze_accounts_blocks queryset st :
  let st' := freeze_accounts queryset st in
  (forall u, u ∈ queryset -> is_Some (portfolios st !! u) ->
     user_is_frozen u st' = true /\
     (forall data,
        deposit_funds u data st' =
          (Failure 403 "Account is suspended. Cannot process transactions.", st')) /\
     (forall form,
        withdraw_funds u form st' =
          (Failure 403 "Account is suspended. Cannot process transactions.", st')) /\
     (forall data t,
        swap_tokens u data t st' =
          (Failure 403 "Account is suspended. Cannot process transactions.", st'))) /\
  (forall v, balance_of v st' = balance_of v st) /\
  (forall v, v ∉ queryset -> portfolios st' !! v = portfolios st !! v).
Proof.
  intros st'. split; [|split].
  - intros u Hu [p Hp].
    assert (Hf : user_is_frozen u st' = true).
    { unfold user_is_frozen. subst st'. rewrite freeze_accounts_lookup, Hp. cbn.
      rewrite (bool_decide_eq_true_2 _ Hu). reflexivity. }
    split; [exact Hf|]. split; [|split]; intros.
    + apply deposit_funds_frozen, Hf.
    + apply withdraw_funds_frozen, Hf.
    + apply swap_tokens_frozen, Hf.
  - intros v. unfold balance_of. subst st'. rewrite freeze_accounts_lookup.
    destruct (portfolios st !! v) as [p|]; [|reflexivity]. cbn.
    destruct (bool_decide (v ∈ queryset)); reflexivity.
  - intros v Hv. subst st'. rewrite freeze_accounts_lookup.
    rewrite (bool_decide_eq_false_2 _ Hv). destruct (portfolios st !! v); reflexivity.
Qed.

(** X12.  unfreeze_accounts undoes freeze_accounts: on a selection of
    accounts none of which was frozen, freezing and then unfreezing leaves
    every portfolio as it was before. *)
Theorem unfreeze_undoes_freeze queryset st :
  (forall u, u ∈ queryset -> user_is_frozen u st = false) ->
  portfolios (unfreeze_accounts queryset (freeze_accounts queryset st)) = portfolios st.
Proof.
  intros H. apply map_eq. intros u.
  rewrite unfreeze_accounts_lookup, freeze_accounts_lookup.
  destruct (portfolios st !! u) as [p|] eqn:Hp; [|reflexivity]. cbn. f_equal.
  destruct (bool_decide (u ∈ queryset)) eqn:Hq; [|reflexivity].
  apply bool_decide_eq_true_1 in Hq. specialize (H u Hq).
  unfold user_is_frozen in H. rewrite Hp in H. destruct p. cbn in *. subst. reflexivity.
Qed.

(* ===================================================================== *)
(** ** Creation of assets                                                 *)
(* ===================================================================== *)

Lemma dec_leb_trans x y z : dec_leb x y = true -> dec_leb y z = true -> dec_leb x z = true.
Proof.
  rewrite !dec_leb_value. intros H1 H2. eapply Qle_trans; eassumption.
Qed.

Lemma dec_leb_total x y : dec_leb x y = false -> dec_leb y x = true.
Proof.
  intros H. apply dec_leb_value. apply Qlt_le_weak, Qnot_le_lt.
  intros Hle. apply dec_leb_value in Hle. congruence.
Qed.

Lemma star_rating_thresholds_aux b :
  (4 <= star_rating b)%nat <-> dec_leb (mkDecimal 1001 0) b = true.
Proof.
  assert (T : dec_leb (mkDecimal 5000 0) b = true -> dec_leb (mkDecimal 1001 0) b = true).
  { apply dec_leb_trans. reflexivity. }
  unfold star_rating. split.
  - intros H. destruct (dec_leb (mkDecimal 5000 0) b) eqn:E5; [apply T; reflexivity|].
    destruct (dec_leb (mkDecimal 1001 0) b); [reflexivity|].
    repeat case_match; lia.
  - intros H. rewrite H. destruct (dec_leb (mkDecimal 5000 0) b); lia.
Qed.

(** X13.  The star rating computed from a balance never drops when the
    balance grows, and it is 4 or more exactly when the balance is at least
    1001, the threshold create_synthetic_asset asks for. *)
Theorem star_rating_thresholds b b' :
  (dec_leb b b' = true -> (star_rating b <= star_rating b')%nat) /\
  ((4 <= star_rating b)%nat <-> dec_leb (mkDecimal 1001 0) b = true).
Proof.
  split; [|apply star_rating_thresholds_aux].
  intros Hle. unfold star_rating.
    assert (M : forall n, dec_leb (mkDecimal n 0) b = true ->
                          dec_leb (mkDecimal n 0) b' = true)
      by (intros n Hn; eapply dec_leb_trans; eassumption).
    destruct (dec_leb (mkDecimal 5000 0) b) eqn:E5; [rewrite (M _ E5); lia|].
    destruct (dec_leb (mkDecimal 1001 0) b) eqn:E4;
      [rewrite (M _ E4); destruct (dec_leb (mkDecimal 5000 0) b'); lia|].
    destruct (dec_leb (mkDecimal 501 0) b) eqn:E3;
      [rewrite (M _ E3); repeat case_match; lia|].
    destruct (dec_leb (mkDecimal 101 0) b) eqn:E2;
      [rewrite (M _ E2); repeat case_match; lia|].
    repeat case_match; lia.
Qed.

Lemma asset_by_symbol_None s st :
  asset_by_symbol s st = None ->
  forall i x, assets st !! i = Some x -> symbol x <> s.
Proof.
  unfold asset_by_symbol. intros H i x Hx.
  assert (Hin : In (i, x) (map_to_list (assets st)))
    by (apply list_elem_of_In, elem_of_map_to_list; exact Hx).
  pose proof (find_none _ _ H (i, x) Hin) as Hf. cbn in Hf.
  apply bool_decide_eq_false_1 in Hf. exact Hf.
Qed.

Lemma notify_all_frame (admin_users : list nat) m : forall st,
  let st' := fold_left (fun s admin => notify admin m s) admin_users st in
  portfolios st' = portfolios st /\ assets st' = assets st /\ swaps st' = swaps st /\
  deposits st' = deposits st /\ withdrawals st' = withdrawals st.
Proof.
  induction admin_users as [|a l IH]; intros st; cbn [fold_left]; [repeat split|].
  destruct (IH (notify a m st)) as (H1 & H2 & H3 & H4 & H5). repeat split; assumption.
Qed.

(** X14.  create_synthetic_asset.  An answer other than success comes with
    an unchanged database.  On success the user holds at least 1001, the
    asset is stored under a key that was free, with the symbol of the request
    and the initial price 0.00001; every other asset row, every portfolio
    and every swap is as before, and symbols stay unique.  A user whose
    balance is below 1001 is answered 403. *)
Theorem create_synthetic_asset_guards user data admin_users st :
  unique_symbols st ->
  match create_synthetic_asset user data admin_users st with
  | (Success id, st') =>
      (exists p, portfolios st !! user = Some p /\
                 dec_leb (mkDecimal 1001 0) (balance_usd p) = true) /\
      assets st !! id = None /\
      assets st' = <[id := mkSyntheticAsset (af_symbol data) initial_price]> (assets st) /\
      unique_symbols st' /\
      portfolios st' = portfolios st /\ swaps st' = swaps st
  | (Failure _ _, st') => st' = st
  end /\
  (forall p, portfolios st !! user = Some p ->
     dec_leb (mkDecimal 1001 0) (balance_usd p) = false ->
     create_synthetic_asset user data admin_users st =
       (Failure 403 "You need to be at least a 4-star user to create synthetic assets.", st)).
Proof.
  intros Huniq. split.
  - unfold create_synthetic_asset.
    destruct (portfolios st !! user) as [p|] eqn:Hp; [|reflexivity].
    destruct (star_rating (balance_usd p) <? 4)%nat eqn:Hstar; [reflexivity|].
    destruct (negb _) eqn:Hreq; [reflexivity|].
    destruct (bool_decide (is_Some (asset_by_symbol (af_symbol data) st))) eqn:Hsym;
      [reflexivity|].
    apply bool_decide_eq_false_1 in Hsym.
    assert (Hnone : asset_by_symbol (af_symbol data) st = None).
    { destruct (asset_by_symbol (af_symbol data) st); [|reflexivity].
      exfalso. apply Hsym. eexists. reflexivity. }
    pose proof (notify_all_frame admin_users
                  (Text "New synthetic asset requires verification.")
                  (set_assets
                     (insert (fresh_id (assets st))
                        (mkSyntheticAsset (af_symbol data) initial_price)) st))
      as (F1 & F2 & F3 & _).
    cbn zeta in F1, F2, F3.
    split.
    { exists p. split; [reflexivity|].
      apply (proj1 (star_rating_thresholds_aux (balance_usd p))).
      apply Nat.ltb_ge in Hstar. exact Hstar. }
    split; [apply fresh_id_fresh|]. split; [rewrite F2; reflexivity|].
    split; [|split; [rewrite F1; reflexivity | rewrite F3; reflexivity]].
    unfold unique_symbols. rewrite F2. cbn [assets set_assets].
    intros i j x y Hi Hj Hxy.
    rewrite lookup_insert in Hi, Hj.
    destruct (decide (fresh_id (assets st) = i)) as [Ei|Ni],
             (decide (fresh_id (assets st) = j)) as [Ej|Nj].
    + congruence.
    + injection Hi as <-. exfalso.
      apply (asset_by_symbol_None _ _ Hnone j y Hj). symmetry. exact Hxy.
    + injection Hj as <-. exfalso.
      apply (asset_by_symbol_None _ _ Hnone i x Hi). exact Hxy.
    + apply (Huniq i j x y); assumption.
  - intros p Hp Hlow. unfold create_synthetic_asset. rewrite Hp.
    assert (Hstar : (star_rating (balance_usd p) <? 4)%nat = true).
    { apply Nat.ltb_lt. destruct (Nat.lt_ge_cases (star_rating (balance_usd p)) 4) as [H|H];
        [exact H|].
      apply (proj1 (star_rating_thresholds_aux (balance_usd p))) in H. congruence. }
    rewrite Hstar. reflexivity.
Qed.

(* ===================================================================== *)
(** ** Answers other than success                                         *)
(* ===================================================================== *)

(** X15.  Which answers other than success come with a write.  When
    deposit_funds, withdraw_funds, swap_tokens, merchant_approve_deposit,
    merchant_decline_deposit, user_confirm_withdrawal,
    user_decline_withdrawal, cancel_swap_admin or create_synthetic_asset
    answers with an error status, the database is the one before the
    request.  The staff views reject_deposit, reject_withdrawal and
    complete_swap_admin are the exception: the first two always answer 500,
    the third never answers with success after a write, and on a PENDING row
    (for complete_swap_admin, one with USDT legs) the request is answered 500
    after the new status - REJECTED, REJECTED, APPROVED - is committed. *)
Theorem error_answers_and_writes :
  (forall user data st code msg st',
     deposit_funds user data st = (Failure code msg, st') -> st' = st) /\
  (forall user form st code msg st',
     withdraw_funds user form st = (Failure code msg, st') -> st' = st) /\
  (forall user data now st code msg st',
     swap_tokens user data now st = (Failure code msg, st') -> st' = st) /\
  (forall user id st code msg st',
     merchant_approve_deposit user id st = (Failure code msg, st') -> st' = st) /\
  (forall user id st code msg st',
     merchant_decline_deposit user id st = (Failure code msg, st') -> st' = st) /\
  (forall user id st code msg st',
     user_confirm_withdrawal user id st = (Failure code msg, st') -> st' = st) /\
  (forall user id st code msg st',
     user_decline_withdrawal user id st = (Failure code msg, st') -> st' = st) /\
  (forall id st code msg st',
     cancel_swap_admin id st = (Failure code msg, st') -> st' = st) /\
  (forall user data admin_users st code msg st',
     create_synthetic_asset user data admin_users st = (Failure code msg, st') -> st' = st) /\
  (forall id st,
     (reject_deposit id st).1 = Failure 500 ".accepted_renderer not set on Response" /\
     (reject_withdrawal id st).1 = Failure 500 ".accepted_renderer not set on Response" /\
     forall a, (complete_swap_admin id st).1 = Success a ->
               (complete_swap_admin id st).2 = st) /\
  (forall id st d,
     deposits st !! id = Some d -> d_status d = PENDING ->
     deposits (reject_deposit id st).2 !! id =
       Some (with_deposit_status d REJECTED (merchant_action_required d))) /\
  (forall id st w,
     withdrawals st !! id = Some w -> w_status w = PENDING ->
     withdrawals (reject_withdrawal id st).2 !! id =
       Some (with_withdrawal_status w REJECTED (user_confirmation_required w))) /\
  (forall id st s from_row back_id back_row,
     swaps st !! id = Some s -> s_status s = PENDING ->
     assets st !! from_asset s = Some from_row -> symbol from_row = "USDT"%string ->
     swap_back_asset s = Some back_id -> assets st !! back_id = Some back_row ->
     symbol back_row = "USDT"%string ->
     (complete_swap_admin id st).1 =
       Failure 500 "The view didn't return an HttpResponse object." /\
     swaps (complete_swap_admin id st).2 !! id = Some (with_swap_status APPROVED s)).
Proof.
  repeat match goal with |- _ /\ _ => split end.
  - intros user data st code msg st'. unfold deposit_funds.
    repeat case_match; intros E; congruence.
  - intros user form st code msg st'. unfold withdraw_funds.
    repeat case_match; intros E; congruence.
  - intros user data now st code msg st'. apply swap_tokens_failure.
  - intros user id st code msg st'. unfold merchant_approve_deposit.
    repeat case_match; intros E; congruence.
  - intros user id st code msg st'. unfold merchant_decline_deposit.
    repeat case_match; intros E; congruence.
  - intros user id st code msg st'. unfold user_confirm_withdrawal.
    repeat case_match; intros E; congruence.
  - intros user id st code msg st'. unfold user_decline_withdrawal.
    repeat case_match; intros E; congruence.
  - intros id st code msg st'. unfold cancel_swap_admin.
    repeat case_match; intros E; congruence.
  - intros user data admin_users st code msg st'. unfold create_synthetic_asset.
    repeat case_match; intros E; congruence.
  - intros id st. split; [|split].
    + unfold reject_deposit. repeat case_match; reflexivity.
    + unfold reject_withdrawal. repeat case_match; reflexivity.
    + intros a. unfold complete_swap_admin.
      repeat case_match; cbn [fst snd]; intros E; first [reflexivity | discriminate E].
  - intros id st d Hd Hs. unfold reject_deposit.
    rewrite Hd, bool_decide_eq_true_2 by exact Hs.
    unfold Deposit_save. rewrite Hd. cbn [d_status with_deposit_status].
    rewrite (bool_decide_eq_false_2 (REJECTED = APPROVED)) by discriminate.
    rewrite andb_false_r. cbn [snd deposits set_deposits]. apply lookup_insert_eq.
  - intros id st w Hw Hs. unfold reject_withdrawal.
    rewrite Hw, bool_decide_eq_true_2 by exact Hs.
    cbn [snd withdrawals set_withdrawals]. apply lookup_insert_eq.
  - intros id st s from_row back_id back_row Hs Hp Hf Hfu Hb Hbr Hbu.
    unfold complete_swap_admin.
    rewrite Hs, bool_decide_eq_true_2 by exact Hp.
    rewrite Hf, (bool_decide_eq_true_2 _ Hfu). cbn [negb].
    rewrite Hb, Hbr, (bool_decide_eq_true_2 _ Hbu). cbn [negb fst snd swaps set_swaps].
    split; [reflexivity|].
    rewrite lookup_alter_same with (x := s) by exact Hs. reflexivity.
Qed.

(* ===================================================================== *)
(** ** Properties over every path                                         *)
(* ===================================================================== *)

(** X16.  A deposit that is no longer PENDING is final: along any sequence
    of the operations its row stays as it is, and each operation that is
    addressed to it (the merchant's approval and decline, process_deposit,
    the admin actions approve_deposits and reject_deposits, the staff view
    reject_deposit) writes nothing, so that it is neither credited nor
    charged a second time. *)
Theorem settled_deposit_is_final st id d :
  deposits st !! id = Some d -> d_status d <> PENDING ->
  (forall cs, deposits (execs cs st) !! id = Some d) /\
  (forall u, (merchant_approve_deposit u id st).2 = st) /\
  (forall u, (merchant_decline_deposit u id st).2 = st) /\
  (process_deposit id st).2 = st /\
  approve_deposits [id] st = st /\
  reject_deposits [id] st = st /\
  (reject_deposit id st).2 = st.
Proof.
  intros Hd Hs.
  assert (Hb : bool_decide (d_status d = PENDING) = false)
    by (apply bool_decide_eq_false_2; exact Hs).
  split; [intros cs; apply (proj1 (execs_settled cs st) id d Hd Hs)|].
  split; [intros u; unfold merchant_approve_deposit; rewrite Hd, Hb, andb_false_r;
          reflexivity|].
  split; [intros u; unfold merchant_decline_deposit; rewrite Hd, Hb, andb_false_r;
          reflexivity|].
  split; [unfold process_deposit; rewrite Hd, Hb; reflexivity|].
  split; [unfold approve_deposits; cbn [fold_left]; unfold approve_deposits_one;
          rewrite Hd, Hb; reflexivity|].
  split; [unfold reject_deposits; cbn [fold_left]; unfold reject_deposits_one;
          rewrite Hd, Hb; reflexivity|].
  unfold reject_deposit; rewrite Hd, Hb; reflexivity.
Qed.

(** X17.  A withdrawal that is no longer PENDING is final: along any
    sequence of the operations its row stays as it is, and each operation
    addressed to it (the user's confirmation and decline, process_withdrawal,
    the admin actions approve_withdrawals, reject_withdrawals and
    force_complete_withdrawals, the staff view reject_withdrawal) writes
    nothing.  In particular a withdrawal that process_withdrawal marked
    APPROVED can be neither refunded nor passed on to a merchant. *)
Theorem settled_withdrawal_is_final st id w :
  withdrawals st !! id = Some w -> w_status w <> PENDING ->
  (forall cs, withdrawals (execs cs st) !! id = Some w) /\
  (forall u, (user_confirm_withdrawal u id st).2 = st) /\
  (forall u, (user_decline_withdrawal u id st).2 = st) /\
  (process_withdrawal id st).2 = st /\
  approve_withdrawals [id] st = st /\
  reject_withdrawals [id] st = st /\
  force_complete_withdrawals [id] st = st /\
  (reject_withdrawal id st).2 = st.
Proof.
  intros Hw Hs.
  assert (Hb : bool_decide (w_status w = PENDING) = false)
    by (apply bool_decide_eq_false_2; exact Hs).
  split; [intros cs; apply (proj1 (proj2 (execs_settled cs st)) id w Hw Hs)|].
  split; [intros u; unfold user_confirm_withdrawal; rewrite Hw, Hb, andb_false_r;
          reflexivity|].
  split; [intros u; unfold user_decline_withdrawal; rewrite Hw, Hb, andb_false_r;
          reflexivity|].
  split; [unfold process_withdrawal; rewrite Hw, Hb; reflexivity|].
  split; [unfold approve_withdrawals; cbn [fold_left]; unfold approve_withdrawals_one;
          rewrite Hw, Hb; reflexivity|].
  split; [unfold reject_withdrawals; cbn [fold_left]; unfold reject_withdrawals_one;
          rewrite Hw, Hb; reflexivity|].
  split; [unfold force_complete_withdrawals; cbn [fold_left];
          unfold force_complete_withdrawals_one; rewrite Hw, Hb; reflexivity|].
  unfold reject_withdrawal; rewrite Hw, Hb; reflexivity.
Qed.

(** X18.  A swap that is COMPLETED or CANCELLED is final: along any
    sequence of the operations, runs of the scheduler included, its row
    stays as it is, and process_swap, forced or not, the admin actions
    complete_swap and cancel_swap and the staff views complete_swap_admin and
    cancel_swap_admin write nothing when addressed to it: it is neither
    settled nor refunded a second time. *)
Theorem closed_swap_is_final st id s :
  swaps st !! id = Some s -> swap_is_open (s_status s) = false ->
  (forall cs, swaps (execs cs st) !! id = Some s) /\
  (forall force now, process_swap id force now st = (SwapNotFound, st)) /\
  (forall now, complete_swap now [id] st = st) /\
  cancel_swap [id] st = st /\
  (cancel_swap_admin id st).2 = st /\
  (complete_swap_admin id st).2 = st.
Proof.
  intros Hs Ho.
  assert (Hb : bool_decide (s_status s = PENDING) = false).
  { unfold swap_is_open in Ho. destruct (bool_decide (s_status s = PENDING));
      [discriminate | reflexivity]. }
  split; [intros cs; apply (proj2 (proj2 (execs_settled cs st)) id s Hs Ho)|].
  split; [intros force now; apply (process_swap_closed id force now st s Hs Ho)|].
  split; [intros now; unfold complete_swap; cbn [fold_left]; unfold complete_swap_one;
          rewrite Hs, Hb; reflexivity|].
  split; [unfold cancel_swap; cbn [fold_left]; unfold cancel_swap_one;
          rewrite Hs, Hb; reflexivity|].
  split; [unfold cancel_swap_admin; rewrite Hs, Hb; reflexivity|].
  unfold complete_swap_admin; rewrite Hs, Hb; reflexivity.
Qed.

(** X19.  The referral bonus is paid at most once per referred user along
    any sequence of all the operations, the admin actions, the staff views
    and the scheduler included: a funded flag that is set stays set and no
    further bonus is issued for that user, so that a user who starts with no
    bonus, or with a set flag and one bonus, never has more than one. *)
Theorem referral_bonus_once_on_every_path cs st u :
  (funded u st = true ->
     funded u (execs cs st) = true /\
     (bonus_count u (execs cs st) <= bonus_count u st)%nat) /\
  ((bonus_count u st <= funded_bit u st)%nat ->
     (bonus_count u (execs cs st) <= 1)%nat).
Proof.
  destruct (execs_bonus_step cs st u) as [Hf Hc].
  split.
  - intros H. split; [apply Hf, H|].
    unfold funded_bit in Hc. rewrite H, (Hf H) in Hc. lia.
  - intros H. unfold funded_bit in *.
    destruct (funded u st), (funded u (execs cs st)); lia.
Qed.

(* ===================================================================== *)
(** ** Merchant status                                                    *)
(* ===================================================================== *)

Lemma toggle_merchant_status_one_lookup a st u :
  portfolios (toggle_merchant_status_one a st) !! u =
  (fun p => if decide (a = u) then with_is_merchant p (negb (is_merchant p)) else p)
    <$> portfolios st !! u.
Proof.
  unfold toggle_merchant_status_one.
  destruct (portfolios st !! a) as [p|] eqn:Hp; cbn [portfolios notify set_portfolios].
  - rewrite lookup_insert. destruct (decide (a = u)) as [->|].
    + rewrite Hp. reflexivity.
    + destruct (portfolios st !! u); reflexivity.
  - destruct (decide (a = u)) as [->|]; [rewrite Hp; reflexivity|].
    destruct (portfolios st !! u); reflexivity.
Qed.

Lemma toggle_merchant_status_lookup q : NoDup q -> forall st u,
  portfolios (toggle_merchant_status q st) !! u =
  (fun p => if bool_decide (u ∈ q) then with_is_merchant p (negb (is_merchant p)) else p)
    <$> portfolios st !! u.
Proof.
  unfold toggle_merchant_status. induction 1 as [|a q Ha Hq IH]; intros st u; cbn [fold_left].
  - rewrite bool_decide_eq_false_2 by apply not_elem_of_nil.
    destruct (portfolios st !! u); reflexivity.
  - rewrite IH, toggle_merchant_status_one_lookup.
    destruct (portfolios st !! u) as [p|]; [|reflexivity]. cbn. f_equal.
    destruct (decide (a = u)) as [->|Hne].
    + rewrite (bool_decide_eq_true_2 (u ∈ u :: q)) by (apply elem_of_cons; left; reflexivity).
      rewrite (bool_decide_eq_false_2 (u ∈ q)) by exact Ha. reflexivity.
    + destruct (bool_decide (u ∈ q)) eqn:E.
      * apply bool_decide_eq_true_1 in E.
        rewrite bool_decide_eq_true_2 by (apply elem_of_cons; right; exact E). reflexivity.
      * apply bool_decide_eq_false_1 in E.
        rewrite bool_decide_eq_false_2; [reflexivity|].
        intros Hin. apply elem_of_cons in Hin. destruct Hin; [congruence | contradiction].
Qed.

Lemma toggle_merchant_status_frame q : forall st,
  merchant_applications (toggle_merchant_status q st) = merchant_applications st /\
  withdrawals (toggle_merchant_status q st) = withdrawals st /\
  deposits (toggle_merchant_status q st) = deposits st.
Proof.
  unfold toggle_merchant_status. induction q as [|a q IH]; intros st; cbn [fold_left].
  - repeat split.
  - destruct (IH (toggle_merchant_status_one a st)) as (H1 & H2 & H3).
    rewrite H1, H2, H3. unfold toggle_merchant_status_one.
    destruct (portfolios st !! a); repeat split.
Qed.

(** X20.  The admin action toggle_merchant_status on a selection that
    holds an active merchant.  The merchant's flag is cleared, no balance
    moves and the accounts outside the selection are untouched; running the
    action a second time brings every portfolio back.  While the flag is
    cleared, deposit_funds answers a bank-transfer request through the
    merchant's approved application with 400; a P2P withdrawal request of
    another user through the same application, once accepted, has set the
    flag again: the merchant's portfolio is the one before the action. *)
Theorem merchant_deactivation queryset st m mp app_id app :
  NoDup queryset -> m ∈ queryset ->
  portfolios st !! m = Some mp -> is_merchant mp = true ->
  merchant_applications st !! app_id = Some app -> ma_status app = APPROVED ->
  ma_user app = m ->
  let st' := toggle_merchant_status queryset st in
  portfolios st' !! m = Some (with_is_merchant mp false) /\
  (forall v, balance_of v st' = balance_of v st) /\
  (forall v, v ∉ queryset -> portfolios st' !! v = portfolios st !! v) /\
  portfolios (toggle_merchant_status queryset st') = portfolios st /\
  (forall user data a,
     user_is_frozen user st' = false -> df_amount data = Given a ->
     df_method data = Some "BANK_TRANSFER"%string -> df_merchant_id data = Some app_id ->
     deposit_funds user data st' = (Failure 400 "Selected merchant is not active", st')) /\
  (forall user form id st1,
     wf_method form = Some "BANK"%string -> wf_merchant_id form = Some app_id ->
     user <> m ->
     withdraw_funds user form st' = (Success (WithdrawalCreated id), st1) ->
     portfolios st1 !! m = Some mp).
Proof.
  intros Hnd Hin Hmp Hact Happ Hst Hm st'.
  assert (Hm' : portfolios st' !! m = Some (with_is_merchant mp false)).
  { unfold st'. rewrite (toggle_merchant_status_lookup _ Hnd), Hmp. cbn.
    rewrite bool_decide_eq_true_2 by exact Hin. rewrite Hact. reflexivity. }
  assert (Happ' : merchant_applications st' !! app_id = Some app).
  { unfold st'. rewrite (proj1 (toggle_merchant_status_frame queryset st)). exact Happ. }
  split; [exact Hm'|].
  split.
  { intros v. unfold balance_of, st'. rewrite (toggle_merchant_status_lookup _ Hnd).
    destruct (portfolios st !! v) as [p|]; [|reflexivity]. cbn.
    destruct (bool_decide (v ∈ queryset)); reflexivity. }
  split.
  { intros v Hv. unfold st'. rewrite (toggle_merchant_status_lookup _ Hnd).
    rewrite bool_decide_eq_false_2 by exact Hv.
    destruct (portfolios st !! v); reflexivity. }
  split.
  { apply map_eq. intros v. unfold st'. rewrite !(toggle_merchant_status_lookup _ Hnd).
    destruct (portfolios st !! v) as [p|]; [|reflexivity]. cbn.
    destruct (bool_decide (v ∈ queryset)); [|reflexivity].
    destruct p as [b [] f an ida]; reflexivity. }
  split.
  { intros user data a Hfz Ha Hmeth Hmid. unfold deposit_funds.
    rewrite Hfz, Ha, Hmeth. rewrite bool_decide_eq_true_2 by reflexivity.
    rewrite Hmid, Happ'. unfold is_approved_application.
    rewrite bool_decide_eq_true_2 by exact Hst. cbn zeta. rewrite Hm, Hm'.
    reflexivity. }
  intros user form id st1 Hmeth Hmid Hne. unfold withdraw_funds.
  rewrite Hmeth, Hmid, Happ'. unfold is_approved_application.
  rewrite (bool_decide_eq_true_2 _ Hst). cbn zeta. rewrite Hm, Hm'.
  rewrite bool_decide_eq_true_2 by reflexivity.
  intros H. repeat case_match; try discriminate; injection H as <- <-.
  cbn [portfolios withdrawals set_portfolios set_withdrawals notify with_is_merchant
       is_merchant].
  rewrite lookup_insert_ne by congruence. rewrite lookup_insert_eq.
  destruct mp as [b im f an ida]. cbn in Hact |- *. rewrite Hact. reflexivity.
Qed.

(* ===================================================================== *)
(** ** Rejection of deposits                                              *)
(* ===================================================================== *)

(** X21.  Rejection of a pending deposit.  The staff view reject_deposit,
    whose request is answered 500 after its transaction is committed, and
    the admin action reject_deposits write the same database: the row
    becomes REJECTED, and no balance, no referral flag and no notification
    is written.  The merchant's decline of a deposit that waits for the
    merchant marks it REJECTED too, clears merchant_action_required and
    moves no balance.  After the rejection none of the approval paths
    credits the deposit. *)
Theorem deposit_rejection_moves_nothing id st d :
  deposits st !! id = Some d -> d_status d = PENDING ->
  let rejected := reject_deposits [id] st in
  reject_deposit id st =
    (Failure 500 ".accepted_renderer not set on Response", rejected) /\
  deposits rejected =
    <[id := with_deposit_status d REJECTED (merchant_action_required d)]> (deposits st) /\
  portfolios rejected = portfolios st /\ affiliates rejected = affiliates st /\
  notifications rejected = notifications st /\
  (forall m, d_merchant d = Some m -> merchant_action_required d = true ->
     let declined := (merchant_decline_deposit m id st).2 in
     deposits declined = <[id := with_deposit_status d REJECTED false]> (deposits st) /\
     portfolios declined = portfolios st /\ affiliates declined = affiliates st) /\
  (forall m, (merchant_approve_deposit m id rejected).2 = rejected) /\
  (process_deposit id rejected).2 = rejected /\
  approve_deposits [id] rejected = rejected.
Proof.
  intros Hd Hs rejected.
  assert (Hr : rejected =
               set_deposits
                 (insert id (with_deposit_status d REJECTED (merchant_action_required d))) st).
  { unfold rejected, reject_deposits. cbn [fold_left]. unfold reject_deposits_one.
    rewrite Hd, bool_decide_eq_true_2 by exact Hs. reflexivity. }
  assert (Hl : deposits rejected !! id =
               Some (with_deposit_status d REJECTED (merchant_action_required d))).
  { rewrite Hr. cbn [deposits set_deposits]. apply lookup_insert_eq. }
  split.
  { unfold reject_deposit. rewrite Hd, bool_decide_eq_true_2 by exact Hs.
    unfold Deposit_save. rewrite Hd. cbn [d_status with_deposit_status].
    rewrite (bool_decide_eq_false_2 (REJECTED = APPROVED)) by discriminate.
    rewrite andb_false_r, Hr. reflexivity. }
  rewrite Hr at 1 2 3 4. cbn [deposits portfolios affiliates notifications set_deposits].
  do 4 (split; [reflexivity|]).
  split.
  { intros m Hm Hmar. unfold merchant_decline_deposit. rewrite Hd.
    rewrite bool_decide_eq_true_2 by exact Hm.
    rewrite bool_decide_eq_true_2 by exact Hs. rewrite Hmar. cbn [andb].
    unfold Deposit_save. rewrite Hd. cbn [d_status with_deposit_status].
    rewrite (bool_decide_eq_false_2 (REJECTED = APPROVED)) by discriminate.
    rewrite andb_false_r. cbn. repeat split. }
  split.
  { intros m. unfold merchant_approve_deposit. rewrite Hl. cbn [d_status with_deposit_status].
    rewrite (bool_decide_eq_false_2 (REJECTED = PENDING)) by discriminate.
    rewrite andb_false_r. reflexivity. }
  split.
  { unfold process_deposit. rewrite Hl. cbn [d_status with_deposit_status].
    rewrite (bool_decide_eq_false_2 (REJECTED = PENDING)) by discriminate. reflexivity. }
  unfold approve_deposits. cbn [fold_left]. unfold approve_deposits_one.
  rewrite Hl. cbn [d_status with_deposit_status].
  rewrite (bool_decide_eq_false_2 (REJECTED = PENDING)) by discriminate. reflexivity.
Qed.

(* ===================================================================== *)
(** ** The ledger of balance mutations                                    *)
(* ===================================================================== *)



Lemma same_balances_sym st1 st2 : same_balances st1 st2 -> same_balances st2 st1.
Proof. intros H u. symmetry. apply H. Qed.















































(* ===================================================================== *)
(** ** Float columns and decimal arithmetic                               *)
(* ===================================================================== *)

Lemma Deposit_save_new d st :
  d_status d = PENDING ->
  Deposit_save None d st =
    (fresh_id (deposits st), set_deposits (insert (fresh_id (deposits st)) d) st).
Proof.
  intros H. unfold Deposit_save. rewrite H.
  rewrite (bool_decide_eq_false_2 (PENDING = APPROVED)) by discriminate. reflexivity.
Qed.

Lemma deposit_funds_created user data st r st1 a :
  deposit_funds user data st = (Success r, st1) -> df_amount data = Given a ->
  exists d,
    deposits st1 !! deposit_id r = Some d /\ d_amount d = float_ a /\
    d_status d = PENDING /\ portfolios st1 = portfolios st.
Proof.
  unfold deposit_funds. intros H Ha. rewrite Ha in H.
  repeat case_match; try discriminate; injection H as <- <-;
    match goal with
    | Hs : Deposit_save None ?d st = _ |- _ =>
        rewrite (Deposit_save_new d st eq_refl) in Hs; injection Hs as <- <-;
        exists d; cbn [deposits deposit_id notify set_deposits portfolios];
        rewrite lookup_insert_eq; repeat split
    end.
Qed.

Lemma long_amounts_change a :
  prints_17_digits float_ -> 10 ^ 17 <= Z.abs (dec_int a) -> float_str (float_ a) <> a.
Proof.
  intros H17 Ha E. specialize (H17 a). rewrite E in H17. lia.
Qed.

(** C9, as amended.  Balances are written to the fixed-point balance
    column, and the price a swap was bought at to a fixed-point column of ten
    places.  The amount of a deposit, of a withdrawal and of a swap, and the
    return amount of a swap, are written to float columns: what is stored is
    the float of the amount (1-3, 7).  Every settlement computation reads
    the stored floats, asset prices included, through [Decimal(str(.))], here
    [float_str], computes with Decimal operations and writes the result to
    the balance column: the credit of a deposit (4), the transfer of the base
    amount of the notes on a merchant's approval (5), the referral bonus (6),
    the two quotients of a swap settlement and its payout (7), and the two
    refunds of a withdrawal (8).  A float prints at most 17 significant
    digits, so an amount of more significant digits is not read back as it
    was written (9). *)
Theorem floats_feed_decimal_arithmetic :
  (forall user data st r st1 a,
     deposit_funds user data st = (Success r, st1) -> df_amount data = Given a ->
     exists d, deposits st1 !! deposit_id r = Some d /\ d_amount d = float_ a) /\
  (forall user form st id st1,
     withdraw_funds user form st = (Success (WithdrawalCreated id), st1) ->
     exists a w p,
       wf_amount form = Some a /\ withdrawals st1 !! id = Some w /\ w_amount w = float_ a /\
       portfolios st !! user = Some p /\
       balance_of user st1 = Some (to_column 4 (dec_sub (balance_usd p) a))) /\
  (forall user data now st c st1,
     swap_tokens user data now st = (Success c, st1) ->
     exists a sr to_row p,
       sf_swap_amount data = Given a /\ swaps st1 !! swap_id c = Some sr /\
       swap_amount sr = float_ a /\
       assets st !! to_asset sr = Some to_row /\
       original_to_asset_price sr = to_column 10 (float_str (price_usd to_row)) /\
       portfolios st !! user = Some p /\
       balance_of user st1 = Some (to_column 4 (dec_sub (balance_usd p) a))) /\
  (forall id st deposit p,
     deposits st !! id = Some deposit ->
     d_status deposit = PENDING ->
     portfolios st !! d_user deposit = Some p ->
     no_bonus_due (d_user deposit) st ->
     balance_of (d_user deposit) (process_deposit id st).2 =
       Some (to_column 4 (dec_add (balance_usd p) (float_str (d_amount deposit))))) /\
  (forall merchant deposit_id st deposit notes mp up,
     deposits st !! deposit_id = Some deposit ->
     deposit_notes deposit = Some notes ->
     d_merchant deposit = Some merchant ->
     d_status deposit = PENDING ->
     merchant_action_required deposit = true ->
     portfolios st !! merchant = Some mp ->
     dec_ltb (balance_usd mp) (float_str (base_amount notes)) = false ->
     portfolios st !! d_user deposit = Some up ->
     merchant <> d_user deposit ->
     no_bonus_due (d_user deposit) st ->
     let st' := (merchant_approve_deposit merchant deposit_id st).2 in
     balance_of merchant st' =
       Some (to_column 4 (dec_sub (balance_usd mp) (float_str (base_amount notes)))) /\
     balance_of (d_user deposit) st' =
       Some (to_column 4 (dec_add (balance_usd up) (float_str (base_amount notes))))) /\
  (forall self st up aff rp,
     portfolios st !! d_user self = Some up ->
     affiliates st !! d_user self = Some aff ->
     has_funded_wallet aff = false ->
     portfolios st !! referrer aff = Some rp ->
     balance_of (referrer aff) (_process_referral_bonus self st) =
       Some (to_column 4 (dec_add (balance_usd rp)
                                  (dec_mul (float_str (d_amount self)) Decimal_0_15)))) /\
  (forall swap_id force now st sr from_row back_id back_row to_row portfolio,
     swaps st !! swap_id = Some sr ->
     swap_is_open (s_status sr) = true ->
     force = true \/ swap_time sr <= now ->
     assets st !! from_asset sr = Some from_row ->
     swap_back_asset sr = Some back_id ->
     assets st !! back_id = Some back_row ->
     assets st !! to_asset sr = Some to_row ->
     portfolios st !! s_user sr = Some portfolio ->
     dec_int (original_to_asset_price sr) <> 0 ->
     dec_int (float_str (price_usd back_row)) <> 0 ->
     exists to_amount swap_back st',
       dec_div (dec_mul (float_str (swap_amount sr)) (float_str (price_usd from_row)))
               (original_to_asset_price sr) = Some to_amount /\
       dec_div (dec_mul to_amount (float_str (price_usd to_row)))
               (float_str (price_usd back_row)) = Some swap_back /\
       process_swap swap_id force now st = (SwapCompleted, st') /\
       (swap_back_amount <$> swaps st' !! swap_id) = Some (float_ swap_back) /\
       balance_of (s_user sr) st' =
         Some (to_column 4 (dec_add (balance_usd portfolio) swap_back))) /\
  (forall id st w p,
     withdrawals st !! id = Some w -> w_status w = PENDING ->
     portfolios st !! w_user w = Some p ->
     balance_of (w_user w) (reject_withdrawals [id] st) =
       Some (to_column 4 (dec_add (balance_usd p) (float_str (w_amount w)))) /\
     (user_confirmation_required w = true ->
      balance_of (w_user w) (user_decline_withdrawal (w_user w) id st).2 =
        Some (to_column 4 (dec_add (balance_usd p) (float_str (w_amount w)))))) /\
  (prints_17_digits float_ ->
   forall a, 10 ^ 17 <= Z.abs (dec_int a) -> float_str (float_ a) <> a).
Proof.
  repeat match goal with |- _ /\ _ => split end.
  - intros user data st r st1 a H Ha.
    destruct (deposit_funds_created _ _ _ _ _ _ H Ha) as (d & H1 & H2 & _).
    exists d. split; assumption.
  - intros user form st id st1 E.
    destruct (withdraw_funds_created _ _ _ _ _ E)
      as (a & method & p & w & p1 & Ha & _ & Hp & _ & _ & _ & Hws & _ & Hwa & _ & _ & _ &
          Hp1 & Hb & _).
    exists a, w, p. split; [exact Ha|].
    split; [rewrite Hws; apply lookup_insert_eq|]. split; [exact Hwa|]. split; [exact Hp|].
    unfold balance_of. rewrite Hp1. cbn. rewrite Hb. reflexivity.
  - intros user data now st c st1 E.
    destruct (swap_tokens_success _ _ _ _ _ _ E)
      as (a & p & from_id & to_id & back_id & to_row & t & Ha & _ & Hp & _ & _ & Hto & -> &
          Hsw & Hpf & _).
    eexists a, _, to_row, p. split; [exact Ha|].
    split; [cbn [swap_id]; rewrite Hsw; apply lookup_insert_eq|].
    cbn [swap_amount to_asset original_to_asset_price].
    split; [reflexivity|]. split; [exact Hto|]. split; [reflexivity|]. split; [exact Hp|].
    unfold balance_of. rewrite Hpf, (lookup_alter_same _ _ _ _ Hp). reflexivity.
  - intros id st deposit p Hd Hs Hp Hq.
    destruct (process_deposit_credits id st deposit p Hd Hs Hp Hq)
      as (nb & st' & H1 & _ & H3 & _).
    rewrite H1. exact H3.
  - intros merchant deposit_id st deposit notes mp up Hd Hn Hm Hs Hmar Hmp Hlt Hup Hne Hq st'.
    assert (HB : deposit_base_amount deposit = float_str (base_amount notes))
      by (unfold deposit_base_amount; rewrite Hn; reflexivity).
    rewrite <- HB in *.
    destruct (merchant_approve_deposit_balances merchant deposit_id st deposit mp up
                Hd Hm Hs Hmar Hmp Hlt Hup Hne Hq) as (H1 & H2 & _).
    split; [exact H1 | exact H2].
  - intros self st up aff rp Hup Haff Hflag Hrp.
    exact (proj1 (proj2 (process_referral_bonus_first self st up aff rp Hup Haff Hflag Hrp))).
  - intros swap_id force now st sr from_row back_id back_row to_row portfolio
           Hsw Hopen Hdue Hfrom Hback Hbrow Hto Hport Ho Hb.
    destruct (process_swap_completes swap_id force now st sr from_row back_id back_row
                to_row portfolio Hsw Hopen Hdue Hfrom Hback Hbrow Hto Hport Ho Hb)
      as (to_amount & swap_back & pct & st' & H1 & H2 & _ & H4 & H5 & H6 & _).
    exists to_amount, swap_back, st'.
    split; [exact H1|]. split; [exact H2|]. split; [exact H4|].
    split; [rewrite H5; reflexivity|].
    unfold balance_of. rewrite H6. reflexivity.
  - intros id st w p Hw Hs Hp. split.
    + unfold reject_withdrawals. cbn [fold_left].
      exact (proj1 (reject_withdrawals_one_refunds id st w p Hw Hs Hp)).
    + intros Hucr.
      destruct (user_decline_withdrawal_refunds (w_user w) id st w p Hw eq_refl Hs Hucr Hp)
        as (st' & H1 & H2 & _).
      rewrite H1. exact H2.
  - intros H17 a Ha. exact (long_amounts_change a H17 Ha).
Qed.

End Engine.

(* ===================================================================== *)
(** ** The properties on the example data                                 *)
(* ===================================================================== *)

(** Forced settlement of swap 1 of the example: Scenario C run through
    [process_swap]. *)
Lemma process_swap_settlement_example :
  exists st',
    process_swap float_short column_exact 1 true 5 demo_world = (SwapCompleted, st') /\
    balance_of 1 st' = Some (mkDecimal 2100000 (-4)) /\
    length (trades st') = 4%nat.
Proof.
  destruct (proj1 (process_swap_settlement float_short column_exact)
              1%nat true 5 demo_world demo_swap_1 demo_usdt 1%nat demo_usdt demo_btc
              demo_customer
              eq_refl eq_refl (or_introl eq_refl) eq_refl eq_refl eq_refl eq_refl eq_refl
              ltac:(discriminate) ltac:(discriminate))
    as (to_amount & swap_back & pct & st' & H1 & H2 & H3 & H4 & H5 & H6 & H7 & H8 & H9 & H10).
  vm_compute in H1. injection H1 as <-.
  vm_compute in H2. injection H2 as <-.
  exists st'. split; [exact H4|]. split.
  - unfold balance_of. change (s_user demo_swap_1) with 1%nat in H7.
    rewrite H7. reflexivity.
  - rewrite H9. reflexivity.
Defined.

(** The merchant-mediated deposit of 1000 of the example: creation, approval
    by merchant 2 of deposit 1, and decline of the same deposit. *)
Lemma merchant_deposit_example :
  (exists st',
     deposit_funds float_short column_exact 1 demo_deposit_form demo_world =
       (Success (mkDepositCreated 4
                   (Some (mkDepositQuote (PyFloat (mkDecimal 1035000 (-3)))
                            (PyFloat (mkDecimal 1000 0))
                            (PyFloat (mkDecimal 35000 (-3)))))), st') /\
     portfolios st' = portfolios demo_world) /\
  (exists st',
     merchant_approve_deposit column_exact 2 1 demo_world = (Success tt, st') /\
     (d_status <$> deposits st' !! 1%nat) = Some APPROVED /\
     balance_of 2 st' = Some (mkDecimal 40000000 (-4)) /\
     balance_of 1 st' = Some (mkDecimal 11000000 (-4))) /\
  (exists st',
     merchant_decline_deposit column_exact 2 1 demo_world = (Success tt, st') /\
     (d_status <$> deposits st' !! 1%nat) = Some REJECTED /\
     portfolios st' = portfolios demo_world).
Proof.
  pose proof (merchant_deposit_fee_and_settlement float_short column_exact)
    as (Hcreate & Happrove & Hdecline & _).
  split; [|split].
  - destruct (proj1 (Hcreate 1%nat demo_deposit_form demo_world (mkDecimal 1000 0) 1%nat
                       (mkMerchantApplication 2 APPROVED) demo_merchant
                       eq_refl eq_refl eq_refl eq_refl eq_refl eq_refl eq_refl eq_refl
                       eq_refl))
      as (st' & H1 & _ & H3).
    exists st'. split; [exact H1 | exact H3].
  - destruct (Happrove 2%nat 1%nat demo_world demo_deposit_1 demo_merchant demo_customer
                eq_refl eq_refl eq_refl eq_refl eq_refl eq_refl eq_refl)
      as (up2 & st' & H1 & H2 & H3 & H4 & _).
    exists st'. split; [exact H1|]. split; [rewrite H2; reflexivity|].
    vm_compute in H3. injection H3 as <-.
    unfold balance_of. rewrite H4. split; vm_compute; reflexivity.
  - destruct (Hdecline 2%nat 1%nat demo_world demo_deposit_1 eq_refl eq_refl eq_refl eq_refl)
      as (st' & H1 & H2 & H3).
    exists st'. split; [exact H1|]. split; [rewrite H2; reflexivity | exact H3].
Defined.

(** The first approved deposit of the referred user 1 pays referrer 3 the
    bonus of 150; a second approval pays nothing more. *)
Lemma referral_bonus_example :
  let st' := (Deposit_save column_exact (Some 1%nat)
                (with_deposit_status demo_deposit_1 APPROVED false) demo_world).2 in
  (funded 1 st' = true /\
   balance_of 3 st' = Some (mkDecimal 1500000 (-4)) /\
   bonus_count 1 st' = 1%nat) /\
  (bonus_count 1
     (run float_short column_exact
        [OpMerchantApproveDeposit 2 1; OpProcessDeposit 2] demo_world) <= 1)%nat.
Proof.
  pose proof (referral_bonus_paid_once float_short column_exact)
    as (Hfirst & _ & _ & Honce).
  cbn zeta. split.
  - destruct (Hfirst demo_world 1%nat demo_deposit_1
                (with_deposit_status demo_deposit_1 APPROVED false)
                demo_customer (mkAffiliate 3 false) demo_referrer
                eq_refl ltac:(discriminate) eq_refl eq_refl eq_refl eq_refl eq_refl)
      as (H1 & H2 & _ & H4 & _).
    split; [exact H1|]. split.
    + etransitivity; [exact H2|]. vm_compute. reflexivity.
    + etransitivity; [exact H4|]. vm_compute. reflexivity.
  - apply (Honce [OpMerchantApproveDeposit 2 1; OpProcessDeposit 2] demo_world 1%nat).
    vm_compute. lia.
Defined.

(** Scenario C: the price went from 2.00 to 2.2, the swap returns more than
    it took. *)
Lemma swap_profit_example :
  exists to_amount swap_back,
    swap_to_amount scenario_amount scenario_flat_price scenario_original_price
      = Some to_amount /\
    swap_back_of to_amount scenario_latest_price scenario_flat_price = Some swap_back /\
    dec_ltb scenario_amount swap_back = true /\
    dec_ltb dec_zero (dec_sub swap_back scenario_amount) = true.
Proof.
  destruct (swap_profit_follows_price scenario_amount scenario_flat_price
              scenario_flat_price scenario_original_price scenario_latest_price
              eq_refl eq_refl eq_refl eq_refl eq_refl eq_refl eq_refl)
    as (to_amount & swap_back & H1 & H2 & Hup & _).
  exists to_amount, swap_back. split; [exact H1|]. split; [exact H2|].
  apply Hup. reflexivity.
Defined.

(** A request to swap USDT into USDT is turned down; the request of the
    example creates a swap of USDT into BTC. *)
Lemma swap_tokens_example :
  (exists code msg,
     swap_tokens float_short column_exact 1
       (mkSwapForm (Given 1%nat) (Given 1%nat) (Given (mkDecimal 50 0)) (Given 1%nat)
                   (Given 600000000)) 0 demo_world
     = (Failure code msg, demo_world)) /\
  (exists sr,
     swaps (swap_tokens float_short column_exact 1 demo_swap_form 0 demo_world).2 !! 2%nat
       = Some sr /\
     from_asset sr <> to_asset sr).
Proof.
  pose proof (swap_tokens_rejects_same_asset float_short column_exact) as (Hsame & Hmade).
  split.
  - apply (Hsame 1%nat
             (mkSwapForm (Given 1%nat) (Given 1%nat) (Given (mkDecimal 50 0)) (Given 1%nat)
                         (Given 600000000))
             0 demo_world 1%nat eq_refl eq_refl).
  - destruct (Hmade 1%nat demo_swap_form 0 demo_world (mkSwapCreated 2 600000000)
                (swap_tokens float_short column_exact 1 demo_swap_form 0 demo_world).2
                ltac:(vm_compute; reflexivity))
      as (sr & from_row & to_row & back_id & back_row & H1 & _ & _ & H4 & _).
    exists sr. split; [exact H1 | exact H4].
Defined.


Lemma float_17_prints_17_digits : prints_17_digits float_17.
Proof.
  intros d. unfold float_17.
  set (a := Z.abs (dec_int d)).
  assert (Ha : 0 <= a) by apply Z.abs_nonneg.
  assert (Hlt : a < 10 ^ ndigits a).
  { destruct (Z.eq_dec a 0) as [->|Hne]; [reflexivity|].
    apply (ndigits_spec a). lia. }
  destruct (Z.leb_spec (ndigits a - 17) 0) as [Hk|Hk]; cbn [float_str dec_int].
  - fold a. eapply Z.lt_le_trans; [exact Hlt|].
    apply Z.pow_le_mono_r; lia.
  - assert (Hp : 0 < 10 ^ (ndigits a - 17)) by (apply Z.pow_pos_nonneg; lia).
    rewrite <- Z.quot_abs by lia. fold a. rewrite (Z.abs_eq (10 ^ _)) by lia.
    rewrite Z.quot_div_nonneg by lia.
    apply Z.div_lt_upper_bound; [exact Hp|].
    rewrite <- Z.pow_add_r by lia.
    replace (ndigits a - 17 + 17) with (ndigits a) by lia. exact Hlt.
Qed.

(** Under the conversion of the examples the long amount is not read back
    as it was written; the stored amount of the deposit of 1000 of the
    example is the float of 1000. *)
Lemma floats_example :
  float_str (float_17 demo_long_amount) <> demo_long_amount /\
  (exists d,
     deposits (deposit_funds float_17 column_exact 1 demo_deposit_form demo_world).2 !! 4%nat
       = Some d /\
     d_amount d = float_17 (mkDecimal 1000 0)).
Proof.
  pose proof (floats_feed_decimal_arithmetic float_17 column_exact)
    as (Hdep & _ & _ & _ & _ & _ & _ & _ & Hlong).
  split.
  - apply (Hlong float_17_prints_17_digits demo_long_amount). vm_compute. discriminate.
  - destruct (Hdep 1%nat demo_deposit_form demo_world
                (mkDepositCreated 4
                   (Some (mkDepositQuote (PyFloat (mkDecimal 1035000 (-3)))
                            (PyFloat (mkDecimal 1000 0))
                            (PyFloat (mkDecimal 35000 (-3))))))
                (deposit_funds float_17 column_exact 1 demo_deposit_form demo_world).2
                (mkDecimal 1000 0) ltac:(vm_compute; reflexivity) eq_refl)
      as (d & H1 & H2).
    exists d. split; [exact H1 | exact H2].
Defined.

(** The P2P withdrawal of 40 of the example, confirmed by user 1: the user
    holds 60 and merchant 2 holds 5040. *)
Lemma p2p_withdrawal_example :
  exists st1 st2,
    withdraw_funds float_short column_exact 1 demo_bank_withdraw_form demo_world
      = (Success (WithdrawalCreated 1), st1) /\
    user_confirm_withdrawal column_exact 1 1 st1 = (Success tt, st2) /\
    (w_status <$> withdrawals st2 !! 1%nat) = Some COMPLETED /\
    balance_of 1 st2 = Some (mkDecimal 600000 (-4)) /\
    balance_of 2 st2 = Some (mkDecimal 50400000 (-4)).
Proof.
  destruct (p2p_withdrawal_confirmed float_short column_exact 1%nat demo_bank_withdraw_form
              demo_world (mkDecimal 40 0) 1%nat (mkMerchantApplication 2 APPROVED)
              demo_customer demo_merchant "A. User" "0123456789" "Bank"
              eq_refl eq_refl eq_refl eq_refl eq_refl eq_refl eq_refl eq_refl eq_refl
              eq_refl eq_refl eq_refl eq_refl ltac:(discriminate))
    as (st1 & st2 & H1 & _ & _ & _ & H5 & H6 & H7 & H8 & _).
  exists st1, st2. split; [exact H1|]. split; [exact H5|]. split; [exact H6|].
  split; [exact H7 | exact H8].
Defined.

(** The pending P2P withdrawal 1 of the example, completed in the three
    ways: merchant 2 holds 5040 each time. *)
Lemma withdrawal_completion_example :
  balance_of 2 (user_confirm_withdrawal column_exact 1 1 demo_world_p2p).2
    = Some (mkDecimal 50400000 (-4)) /\
  portfolios (approve_withdrawals column_exact [1%nat] demo_world_p2p)
    = portfolios (user_confirm_withdrawal column_exact 1 1 demo_world_p2p).2 /\
  portfolios (force_complete_withdrawals column_exact [1%nat] demo_world_p2p)
    = portfolios (user_confirm_withdrawal column_exact 1 1 demo_world_p2p).2.
Proof.
  destruct (withdrawal_completion_paths_agree column_exact 1%nat demo_world_p2p
              demo_withdrawal_1 2%nat demo_merchant
              eq_refl eq_refl eq_refl eq_refl eq_refl eq_refl)
    as (H1 & _ & _ & H4 & _ & H6).
  split; [exact H1|]. split; [exact H4|]. exact (proj1 (H6 eq_refl)).
Defined.

(** The withdrawal of 40 of the example, rejected by the admin: user 1
    holds 100 again. *)
Lemma withdrawal_refund_example :
  balance_of 1
    (reject_withdrawals column_exact [1%nat]
       (withdraw_funds float_short column_exact 1 demo_withdraw_form demo_world).2)
    = Some (mkDecimal 1000000 (-4)).
Proof.
  destruct (withdrawal_refund_restores_balance float_short column_exact 1%nat
              demo_withdraw_form demo_world 1%nat
              (withdraw_funds float_short column_exact 1 demo_withdraw_form demo_world).2
              ltac:(vm_compute; reflexivity))
    as (a & b & Ha & Hb & _ & _ & H).
  cbv zeta in H. destruct H as (H1 & _ & _ & _ & _ & H6).
  injection Ha as <-. vm_compute in Hb. injection Hb as <-.
  rewrite H1. apply f_equal.
  apply H6; [reflexivity | vm_compute; reflexivity | vm_compute; discriminate
            | reflexivity | intros z _ _; reflexivity].
Defined.

(** A transfer of 40 from user 1 to the account of user 3: the sender holds
    60 and the recipient 40. *)
Lemma internal_transfer_example :
  exists st1,
    withdraw_funds float_short column_exact 1 (demo_transfer_form "100000000003") demo_world
      = (Success Transferred, st1) /\
    balance_of 1 st1 = Some (mkDecimal 600000 (-4)) /\
    balance_of 3 st1 = Some (mkDecimal 400000 (-4)).
Proof.
  pose proof (internal_transfer_moves_amount float_short column_exact 1%nat
                (demo_transfer_form "100000000003") demo_world (mkDecimal 40 0)
                "100000000003" demo_customer
                eq_refl eq_refl eq_refl eq_refl eq_refl eq_refl eq_refl) as H.
  change (portfolio_by_account_number "100000000003" demo_world)
    with (Some (3%nat, demo_referrer)) in H.
  cbv iota beta in H.
  destruct (decide (3%nat = 1%nat)) as [E|_]; [discriminate E|].
  destruct H as (st1 & H1 & H2 & H3 & _).
  exists st1. split; [exact H1|]. split; [exact H2 | exact H3].
Defined.

(** Deposit 1 of the example, approved by the admin and by merchant 2: the
    same balances, 4000 for the merchant and 1100 for the depositor. *)
Lemma admin_approval_example :
  portfolios (approve_deposits float_short column_exact [1%nat] demo_world)
    = portfolios (merchant_approve_deposit column_exact 2 1 demo_world).2 /\
  (merchant_action_required <$> deposits (approve_deposits float_short column_exact [1%nat] demo_world) !! 1%nat)
    = Some true /\
  (merchant_action_required <$>
     deposits (merchant_approve_deposit column_exact 2 1 demo_world).2 !! 1%nat)
    = Some false.
Proof.
  destruct (admin_approval_matches_merchant_approval float_short column_exact 2%nat 1%nat demo_world
              demo_deposit_1 demo_merchant
              eq_refl eq_refl eq_refl eq_refl eq_refl eq_refl eq_refl
              (ex_intro _ demo_customer eq_refl) eq_refl)
    as (H1 & _ & H3 & H4).
  split; [exact H1|]. split; [rewrite H4 | rewrite H3]; reflexivity.
Defined.

(** Deposit 4, for a user without a portfolio, is marked APPROVED by the
    admin action and merchant 2 is left with 4000; deposit 5, through a user
    who holds nothing, changes nothing. *)
Lemma approve_deposits_stops_example :
  ((d_status <$> deposits (approve_deposits float_short column_exact [4%nat] demo_world_more_deposits) !! 4%nat)
     = Some APPROVED /\
   balance_of 2 (approve_deposits float_short column_exact [4%nat] demo_world_more_deposits)
     = Some (mkDecimal 40000000 (-4)) /\
   (merchant_approve_deposit column_exact 2 4 demo_world_more_deposits).2
     = demo_world_more_deposits) /\
  approve_deposits float_short column_exact [5%nat] demo_world_more_deposits = demo_world_more_deposits.
Proof.
  split.
  - destruct (proj2 (proj2 (approve_deposits_stops float_short column_exact 2%nat 4%nat
                              demo_world_more_deposits demo_deposit_4
                              eq_refl eq_refl eq_refl eq_refl))
                demo_merchant eq_refl eq_refl eq_refl)
      as (H1 & H2 & H3).
    split; [exact H1|]. split; [|exact H3].
    unfold balance_of. rewrite H2. reflexivity.
  - exact (proj1 (proj2 (approve_deposits_stops float_short column_exact 3%nat 5%nat
                           demo_world_more_deposits demo_deposit_5
                           eq_refl eq_refl eq_refl eq_refl))
             demo_referrer eq_refl eq_refl).
Defined.

(** The swap of 50 of the example, cancelled by the admin: user 1 holds 100
    again and the swap is CANCELLED. *)
Lemma swap_cancellation_example :
  let st1 := (swap_tokens float_short column_exact 1 demo_swap_form 0 demo_world).2 in
  balance_of 1 st1 = Some (mkDecimal 500000 (-4)) /\
  (s_status <$> swaps (cancel_swap column_exact [2%nat] st1) !! 2%nat) = Some CANCELLED /\
  balance_of 1 (cancel_swap column_exact [2%nat] st1) = Some (mkDecimal 1000000 (-4)).
Proof.
  cbv zeta.
  destruct (swap_cancellation_refunds float_short column_exact 1%nat demo_swap_form 0
              demo_world (mkSwapCreated 2 600000000)
              (swap_tokens float_short column_exact 1 demo_swap_form 0 demo_world).2
              ltac:(vm_compute; reflexivity))
    as (a & b & Ha & Hb & H0 & H).
  cbv zeta in H. destruct H as (H1 & H2 & _ & _ & _ & _ & H7).
  injection Ha as <-. vm_compute in Hb. injection Hb as <-.
  split; [rewrite H0; reflexivity|]. split; [exact H1|].
  change (swap_id (mkSwapCreated 2 600000000)) with 2%nat in H2.
  rewrite H2. apply f_equal.
  apply H7; [reflexivity | vm_compute; reflexivity | vm_compute; discriminate
            | reflexivity | intros z _ _; reflexivity].
Defined.

(** Swap 1 of the example is due at instant 1000.  At instant 5 the
    scheduler's call finds it not due, and the admin action settles it. *)
Lemma complete_swap_example :
  process_swap float_short column_exact 1 false 5 demo_world = (SwapNotDue, demo_world) /\
  (s_status <$> swaps (complete_swap float_short column_exact (fun _ => 5) [1%nat] demo_world) !! 1%nat)
    = Some COMPLETED.
Proof.
  assert (Hc : can_settle demo_swap_1 demo_world).
  { exists demo_usdt, 1%nat, demo_usdt, demo_btc.
    repeat split; try reflexivity; try (eexists; reflexivity); vm_compute; discriminate. }
  destruct (proj2 (proj2 (proj2
              (complete_swap_forces_settlement float_short column_exact (fun _ => 5) 1%nat
                 demo_world demo_swap_1 eq_refl)))
              demo_usdt 1%nat demo_usdt eq_refl Hc eq_refl eq_refl eq_refl eq_refl eq_refl)
    as (H1 & swap_back & st1 & H2 & H3 & H4).
  split; [apply H1; reflexivity|].
  rewrite H4.
  change (swaps (notify (s_user demo_swap_1) (Text "Your swap has been processed.") st1))
    with (swaps st1).
  rewrite H3. reflexivity.
Defined.

(** Swap 1 of the example after the staff view: APPROVED, no balance moved,
    passed over by the admin actions, settled by the scheduler at instant
    2000. *)
Lemma complete_swap_admin_example :
  let st1 := (complete_swap_admin 1 demo_world).2 in
  (s_status <$> swaps st1 !! 1%nat) = Some APPROVED /\
  portfolios st1 = portfolios demo_world /\
  cancel_swap column_exact [1%nat] st1 = st1 /\
  (s_status <$> swaps (auto_process_swaps float_short column_exact 2000 demo_clock st1).2 !! 1%nat)
    = Some COMPLETED.
Proof.
  cbv zeta.
  assert (Hc : can_settle demo_swap_1 demo_world).
  { exists demo_usdt, 1%nat, demo_usdt, demo_btc.
    repeat split; try reflexivity; try (eexists; reflexivity); vm_compute; discriminate. }
  destruct (complete_swap_admin_hands_over float_short column_exact 1%nat demo_world
              demo_swap_1 demo_usdt 1%nat demo_usdt
              eq_refl eq_refl eq_refl eq_refl eq_refl eq_refl eq_refl)
    as (H1 & H2 & _ & _ & _ & H6 & _ & H8).
  split; [rewrite H1; reflexivity|]. split; [exact H2|]. split; [exact H6|].
  destruct (H8 2000 demo_clock ltac:(vm_compute; discriminate)
              ltac:(intros i; vm_compute; discriminate) Hc) as (swap_back & H9).
  rewrite H9. reflexivity.
Defined.

(** One run of the scheduler on the example at instant 2000: swap 1 is due,
    it is settled, and the counters account for it. *)
Lemma auto_process_swaps_example :
  let r := auto_process_swaps float_short column_exact 2000 demo_clock demo_world in
  (s_status <$> swaps r.2 !! 1%nat) = Some COMPLETED /\
  (r.1.1 + r.1.2 = 1)%nat /\
  deposits r.2 = deposits demo_world.
Proof.
  cbv zeta.
  assert (Hc : can_settle demo_swap_1 demo_world).
  { exists demo_usdt, 1%nat, demo_usdt, demo_btc.
    repeat split; try reflexivity; try (eexists; reflexivity); vm_compute; discriminate. }
  destruct (auto_process_swaps_settles_due float_short column_exact 2000 demo_clock demo_world
              ltac:(intros i; vm_compute; discriminate))
    as (_ & H2 & H3 & _ & _ & H6 & _).
  destruct (H2 1%nat demo_swap_1 eq_refl eq_refl Hc) as (swap_back & H).
  split; [rewrite H; reflexivity|]. split; [exact H3 | exact H6].
Defined.

(** User 1 of the example, frozen by the admin: a withdrawal is answered
    403, and the balance is still 100. *)
Lemma freeze_accounts_example :
  let st' := freeze_accounts [1%nat] demo_world in
  withdraw_funds float_short column_exact 1 demo_withdraw_form st'
    = (Failure 403 "Account is suspended. Cannot process transactions.", st') /\
  balance_of 1 st' = Some (mkDecimal 1000000 (-4)).
Proof.
  cbv zeta.
  destruct (freeze_accounts_blocks float_short column_exact [1%nat] demo_world)
    as (H1 & H2 & _).
  destruct (H1 1%nat ltac:(apply list_elem_of_here) (ex_intro _ demo_customer eq_refl))
    as (_ & _ & Hw & _).
  split; [apply Hw | rewrite H2; reflexivity].
Defined.

(** Users 1 and 2 of the example, frozen and unfrozen again. *)
Lemma unfreeze_example :
  portfolios (unfreeze_accounts [1%nat; 2%nat] (freeze_accounts [1%nat; 2%nat] demo_world))
    = portfolios demo_world.
Proof.
  apply (unfreeze_undoes_freeze [1%nat; 2%nat] demo_world).
  intros u Hu.
  apply elem_of_cons in Hu as [->|Hu]; [reflexivity|].
  apply elem_of_cons in Hu as [->|Hu]; [reflexivity|].
  apply elem_of_nil in Hu. destruct Hu.
Defined.

(** Merchant 2, who holds 5000, creates the asset GLD under the free key 3;
    user 1, who holds 100, is answered 403. *)
Lemma create_synthetic_asset_example :
  (exists st',
     create_synthetic_asset 2 demo_asset_form [] demo_world = (Success 3%nat, st') /\
     assets st' !! 3%nat = Some (mkSyntheticAsset "GLD" initial_price) /\
     unique_symbols st') /\
  create_synthetic_asset 1 demo_asset_form [] demo_world
    = (Failure 403 "You need to be at least a 4-star user to create synthetic assets.",
       demo_world).
Proof.
  assert (Hu : unique_symbols demo_world).
  { intros i j x y Hi Hj E.
    destruct (decide (i = 1%nat)) as [->|Hi1].
    - vm_compute in Hi. injection Hi as <-.
      destruct (decide (j = 1%nat)) as [->|Hj1]; [reflexivity|].
      destruct (decide (j = 2%nat)) as [->|Hj2].
      + vm_compute in Hj. injection Hj as <-. discriminate E.
      + unfold demo_world, demo_assets in Hj. cbn [assets] in Hj.
        rewrite !lookup_insert_ne, lookup_empty in Hj by congruence. discriminate Hj.
    - destruct (decide (i = 2%nat)) as [->|Hi2].
      + vm_compute in Hi. injection Hi as <-.
        destruct (decide (j = 1%nat)) as [->|Hj1].
        * vm_compute in Hj. injection Hj as <-. discriminate E.
        * destruct (decide (j = 2%nat)) as [->|Hj2]; [reflexivity|].
          unfold demo_world, demo_assets in Hj. cbn [assets] in Hj.
          rewrite !lookup_insert_ne, lookup_empty in Hj by congruence. discriminate Hj.
      + unfold demo_world, demo_assets in Hi. cbn [assets] in Hi.
        rewrite !lookup_insert_ne, lookup_empty in Hi by congruence. discriminate Hi. }
  split.
  - pose proof (proj1 (create_synthetic_asset_guards 2%nat demo_asset_form [] demo_world Hu))
      as (_ & _ & H3 & H4 & _).
    exists (create_synthetic_asset 2 demo_asset_form [] demo_world).2.
    split; [vm_compute; reflexivity|]. split; [|exact H4].
    etransitivity; [exact (f_equal (fun m => m !! 3%nat) H3)|].
    vm_compute. reflexivity.
  - exact (proj2 (create_synthetic_asset_guards 1%nat demo_asset_form [] demo_world Hu)
             demo_customer eq_refl eq_refl).
Defined.

(** The frozen merchant 2 asks for a withdrawal: the answer is an error and
    the database is as before. *)
Lemma failure_example :
  (withdraw_funds float_short column_exact 2 demo_withdraw_form demo_world_frozen_merchant).2
    = demo_world_frozen_merchant.
Proof.
  pose proof (error_answers_and_writes float_short column_exact) as (_ & Hw & _).
  apply (Hw 2%nat demo_withdraw_form demo_world_frozen_merchant 403%nat
            "Account is suspended. Cannot process transactions."%string).
  vm_compute. reflexivity.
Defined.

(** A balance of 100 has one star, a balance of 5000 five; 1001 is enough
    for four. *)
Lemma star_rating_example :
  (star_rating (mkDecimal 1000000 (-4)) <= star_rating (mkDecimal 50000000 (-4)))%nat /\
  (4 <= star_rating (mkDecimal 1001 0))%nat.
Proof.
  split.
  - apply (proj1 (star_rating_thresholds (mkDecimal 1000000 (-4)) (mkDecimal 50000000 (-4)))).
    reflexivity.
  - apply (proj2 (proj2 (star_rating_thresholds (mkDecimal 1001 0) (mkDecimal 1001 0)))).
    reflexivity.
Defined.

(** The approved deposit 1 of the example survives a second approval, a
    rejection and a run of the scheduler, and the merchant is not charged
    again. *)
Lemma settled_deposit_example :
  deposits
    (execs float_short column_exact
       [Basic (OpMerchantApproveDeposit 2 1); RejectDeposits [1%nat];
        ApproveDeposits [1%nat; 2%nat]; AutoProcessSwaps 2000 demo_clock]
       demo_world_settled) !! 1%nat = Some demo_deposit_approved /\
  (merchant_approve_deposit column_exact 2 1 demo_world_settled).2 = demo_world_settled.
Proof.
  destruct (settled_deposit_is_final float_short column_exact demo_world_settled 1%nat
              demo_deposit_approved eq_refl ltac:(discriminate))
    as (H1 & H2 & _).
  split; [apply H1 | apply H2].
Defined.

(** The completed withdrawal 1 of the example survives a rejection and a
    decline, and is not refunded. *)
Lemma settled_withdrawal_example :
  withdrawals
    (execs float_short column_exact
       [Basic (OpRejectWithdrawals [1%nat]); Basic (OpUserDeclineWithdrawal 1 1);
        ForceCompleteWithdrawals [1%nat]]
       demo_world_settled) !! 1%nat = Some demo_withdrawal_completed /\
  reject_withdrawals column_exact [1%nat] demo_world_settled = demo_world_settled.
Proof.
  destruct (settled_withdrawal_is_final float_short column_exact demo_world_settled 1%nat
              demo_withdrawal_completed eq_refl ltac:(discriminate))
    as (H1 & _ & _ & _ & _ & H6 & _).
  split; [apply H1 | exact H6].
Defined.

(** The cancelled swap 1 of the example survives a forced settlement and a
    run of the scheduler, and is not refunded a second time. *)
Lemma closed_swap_example :
  swaps
    (execs float_short column_exact
       [CompleteSwap demo_clock [1%nat]; AutoProcessSwaps 2000 demo_clock;
        CancelSwap [1%nat]]
       demo_world_settled) !! 1%nat = Some demo_swap_cancelled /\
  cancel_swap column_exact [1%nat] demo_world_settled = demo_world_settled.
Proof.
  destruct (closed_swap_is_final float_short column_exact demo_world_settled 1%nat
              demo_swap_cancelled eq_refl eq_refl)
    as (H1 & _ & _ & H4 & _).
  split; [apply H1 | exact H4].
Defined.

(** Deposits 1 and 2 of the referred user 1, approved by the merchant, by
    the admin and by the processor: referrer 3 is paid one bonus. *)
Lemma referral_bonus_paths_example :
  (bonus_count 1
     (execs float_short column_exact
        [ApproveDeposits [1%nat; 2%nat]; Basic (OpMerchantApproveDeposit 2 1);
         Basic (OpProcessDeposit 2)]
        demo_world) <= 1)%nat.
Proof.
  apply (proj2 (referral_bonus_once_on_every_path float_short column_exact
                  [ApproveDeposits [1%nat; 2%nat]; Basic (OpMerchantApproveDeposit 2 1);
                   Basic (OpProcessDeposit 2)]
                  demo_world 1%nat)).
  vm_compute. lia.
Defined.

(** Merchant 2 of the example, deactivated by the admin: a bank deposit
    through the merchant's application is turned down, and a P2P withdrawal
    request of user 1 through the same application makes merchant 2 a
    merchant again. *)
Lemma merchant_deactivation_example :
  let st' := toggle_merchant_status [2%nat] demo_world in
  (is_merchant <$> portfolios st' !! 2%nat) = Some false /\
  deposit_funds float_short column_exact 1 demo_deposit_form st'
    = (Failure 400 "Selected merchant is not active", st') /\
  portfolios (withdraw_funds float_short column_exact 1 demo_bank_withdraw_form st').2 !! 2%nat
    = Some demo_merchant.
Proof.
  cbv zeta.
  destruct (merchant_deactivation float_short column_exact [2%nat] demo_world 2%nat
              demo_merchant 1%nat (mkMerchantApplication 2 APPROVED)
              ltac:(apply NoDup_singleton) ltac:(apply list_elem_of_here)
              eq_refl eq_refl eq_refl eq_refl eq_refl)
    as (H1 & _ & _ & _ & H5 & H6).
  split; [rewrite H1; reflexivity|].
  split; [apply (H5 1%nat demo_deposit_form (mkDecimal 1000 0)); reflexivity|].
  apply (H6 1%nat demo_bank_withdraw_form 1%nat
            (withdraw_funds float_short column_exact 1 demo_bank_withdraw_form
               (toggle_merchant_status [2%nat] demo_world)).2);
    [reflexivity | reflexivity | discriminate | vm_compute; reflexivity].
Defined.

(** Deposit 1 of the example, rejected by the staff view: the balances are
    as before, and an approval by merchant 2 afterwards writes nothing. *)
Lemma deposit_rejection_example :
  let rejected := reject_deposits [1%nat] demo_world in
  reject_deposit column_exact 1 demo_world =
    (Failure 500 ".accepted_renderer not set on Response", rejected) /\
  (d_status <$> deposits rejected !! 1%nat) = Some REJECTED /\
  portfolios rejected = portfolios demo_world /\
  (merchant_approve_deposit column_exact 2 1 rejected).2 = rejected.
Proof.
  cbv zeta.
  destruct (deposit_rejection_moves_nothing float_short column_exact 1%nat demo_world
              demo_deposit_1 eq_refl eq_refl)
    as (H1 & H2 & H3 & _ & _ & _ & H7 & _).
  split; [exact H1|]. split; [rewrite H2; reflexivity|]. split; [exact H3 | apply H7].
Defined.

(* ===================================================================== *)
(** ** Where the code departs from the specification                      *)
(* ===================================================================== *)

(** C3.  The staff view [reject_withdrawal] marks a pending withdrawal
    REJECTED and returns nothing to the balance; its request is answered 500
    after the status is committed.  User 1 held 100, the withdrawal of 40
    left 60, and after the rejection the balance is still 60.  The admin action
    [reject_withdrawals] on the same withdrawal, and the user's decline of a
    withdrawal through a merchant, both bring the balance back to 100. *)
Theorem reject_withdrawal_keeps_escrow :
  (forall id st, portfolios (reject_withdrawal id st).2 = portfolios st) /\
  (let created :=
     withdraw_funds float_short column_exact 1 demo_withdraw_form
                    demo_world in
   let rejected := reject_withdrawal 1 created.2 in
   balance_of 1 demo_world = Some (mkDecimal 1000000 (-4)) /\
   created.1 = Success (WithdrawalCreated 1) /\
   balance_of 1 created.2 = Some (mkDecimal 600000 (-4)) /\
   rejected.1 = Failure 500 ".accepted_renderer not set on Response" /\
   (w_status <$> withdrawals rejected.2 !! 1%nat) = Some REJECTED /\
   balance_of 1 rejected.2 = Some (mkDecimal 600000 (-4)) /\
   balance_of 1 (reject_withdrawals column_exact [1%nat] created.2)
     = Some (mkDecimal 1000000 (-4))) /\
  (let created :=
     withdraw_funds float_short column_exact 1 demo_bank_withdraw_form
                    demo_world in
   let declined := user_decline_withdrawal column_exact 1 1 created.2 in
   created.1 = Success (WithdrawalCreated 1) /\
   balance_of 1 created.2 = Some (mkDecimal 600000 (-4)) /\
   declined.1 = Success tt /\
   (w_status <$> withdrawals declined.2 !! 1%nat) = Some REJECTED /\
   balance_of 1 declined.2 = Some (mkDecimal 1000000 (-4))).
Proof.
  split; [|split].
  - intros id st. apply reject_withdrawal_no_refund.
  - repeat split; vm_compute; reflexivity.
  - repeat split; vm_compute; reflexivity.
Qed.

(** C7.  [merchant_approve_deposit] does not look at the frozen flag: the
    frozen merchant 2 approves deposit 1 and the balance falls from 5000 to
    4000.  The same frozen user is turned away by [withdraw_funds] and by
    [swap_tokens], which leave the state as it was. *)
Theorem frozen_merchant_is_debited :
  let approved := merchant_approve_deposit column_exact 2 1 demo_world_frozen_merchant in
  user_is_frozen 2 demo_world_frozen_merchant = true /\
  balance_of 2 demo_world_frozen_merchant = Some (mkDecimal 50000000 (-4)) /\
  approved.1 = Success tt /\
  balance_of 2 approved.2 = Some (mkDecimal 40000000 (-4)) /\
  (d_status <$> deposits approved.2 !! 1%nat) = Some APPROVED /\
  withdraw_funds float_short column_exact 2 demo_withdraw_form demo_world_frozen_merchant
    = (Failure 403 "Account is suspended. Cannot process transactions.",
       demo_world_frozen_merchant) /\
  swap_tokens float_short column_exact 2 demo_swap_form 0 demo_world_frozen_merchant
    = (Failure 403 "Account is suspended. Cannot process transactions.",
       demo_world_frozen_merchant).
Proof. repeat split; vm_compute; reflexivity. Qed.


(** C9, as stated, fails: the amount of a deposit is written to a float
    column.  Whatever the conversion to float is, as long as it prints at
    most 17 significant digits, the direct deposit request of
    1234567890123456.7891 - a value the balance column holds - is not stored
    with its amount. *)
Lemma float_amount_loses_digits :
  ~ (exists (float_ : Decimal -> pyfloat) (to_column : nat -> Decimal -> Decimal),
       prints_17_digits float_ /\
       forall user data st a r st1,
         df_amount data = Given a ->
         dec_exp a = -4 -> Z.abs (dec_int a) < 10 ^ 20 ->
         deposit_funds float_ to_column user data st = (Success r, st1) ->
         exists d, deposits st1 !! deposit_id r = Some d /\ float_str (d_amount d) = a).
Proof.
  intros (f & c & H17 & H).
  destruct (H 1%nat demo_long_deposit_form demo_world demo_long_amount
              (mkDepositCreated 4 None)
              (deposit_funds f c 1 demo_long_deposit_form demo_world).2
              eq_refl eq_refl ltac:(vm_compute; reflexivity)
              ltac:(vm_compute; reflexivity))
    as (d & Hd & Hamt).
  destruct (deposit_funds_created f c 1%nat demo_long_deposit_form demo_world
              (mkDepositCreated 4 None)
              (deposit_funds f c 1 demo_long_deposit_form demo_world).2
              demo_long_amount ltac:(vm_compute; reflexivity) eq_refl)
    as (d' & Hd' & Hamt' & _).
  rewrite Hd in Hd'. injection Hd' as <-.
  rewrite Hamt' in Hamt.
  apply (long_amounts_change f demo_long_amount H17); [vm_compute; discriminate | exact Hamt].
Qed.
